(** * FRP rebar durability prediction: the preprocessing, partitioning and
      prediction core of [frp-hyper], embedded in Rocq.

    The development follows the Python sources
      - [frp-hyper/preprocessor.py]  (class [FRPDataPreprocessor]),
      - [frp-hyper/model_trainer.py] (methods [prepare_train_val_test_splits],
                                      [compare_models], [get_best_model], [save_models]),
      - [frp-hyper/utils.py]         ([validate_dataframe], [train_validation_test_split],
                                      [clean_column_names], [save_model_safely],
                                      [load_model_safely]),
      - [frp-hyper/predictor.py]     (classes [FRPPredictor], [FRPPredictionPipeline]),
      - [frp-hyper/config.py]        (the constants the above read).

    Modelling conventions.
      - A cell of a data frame is a Python object as [df.loc[idx, col]] hands it
        to the code when the column has dtype [object] (the dtype of a column
        that mixes text and numbers, which is what the literature data looks
        like): a Python [int], a Python [float] (with [nan] as the missing
        marker [np.nan]) or a [str].
      - Floats are IEEE-754 binary64 numbers: Rocq's primitive floats, whose
        literals denote the same doubles as Python's.
      - A row is a finite map from column names to cells; a frame is the list of
        its rows, all over the same columns, so that [col in df.columns] is
        membership in the row's domain.
      - Exceptions are values: code that may raise lives in a state-and-error
        monad; [try: ... except Exception: ...] is the combinator [try_except].
      - Strings are byte strings; [lower] maps the ASCII letters and [strip]
        takes off ASCII white space. *)

From Stdlib Require Import ZArith Lia Floats String Ascii DecimalString Permutation.
From stdpp Require Import gmap strings list.

Set Warnings "-inexact-float".
Set Default Proof Using "Type".

Local Open Scope string_scope.
Local Open Scope Z_scope.

(* ===================================================================== *)
(** * Part I. The Python runtime the sources rely on                      *)
(* ===================================================================== *)

Module Py.

(** ** Exceptions and results *)

Inductive exn : Type :=
| ValueError (msg : string)
| TypeError
| KeyError (key : string)
| IndexError
| AttributeError (attr : string)
| ZeroDivisionError
| OverflowError
| ModelError (msg : string).   (* whatever a fitted estimator raises *)

Inductive result (A : Type) : Type :=
| Ok (a : A)
| Raise (e : exn).
Arguments Ok {A} a.
Arguments Raise {A} e.

#[export] Instance result_ret : MRet result := λ A a, Ok a.
#[export] Instance result_bind : MBind result :=
  λ A B f m, match m with Ok a => f a | Raise e => Raise e end.
#[export] Instance result_fmap : FMap result :=
  λ A B f m, match m with Ok a => Ok (f a) | Raise e => Raise e end.

Definition is_ok {A} (r : result A) : bool :=
  match r with Ok _ => true | Raise _ => false end.

(** ** The state-and-error monad.

    A computation over a mutable store [S] (a row being edited in place, or
    the console the predictor prints to) returns a value or raises, and in
    both cases leaves the store as it was at that moment. *)

Definition M (S A : Type) : Type := S → result A * S.

#[export] Instance M_ret {S} : MRet (M S) := λ A a s, (Ok a, s).

Definition bind {S A B} (m : M S A) (k : A → M S B) : M S B :=
  λ s, match m s with
       | (Ok a, s') => k a s'
       | (Raise e, s') => (Raise e, s')
       end.

Declare Scope py_scope.
Delimit Scope py_scope with py.
Notation "x ← m ; k" := (bind m (λ x, k))
  (at level 20, m at level 100, k at level 200, only parsing) : py_scope.
Notation "m ;; k" := (bind m (λ _, k))
  (at level 100, k at level 200, only parsing, right associativity) : py_scope.

Definition raise {S A} (e : exn) : M S A := λ s, (Raise e, s).
Definition lift {S A} (r : result A) : M S A := λ s, (r, s).
Definition get {S} : M S S := λ s, (Ok s, s).
Definition modify {S} (f : S → S) : M S unit := λ s, (Ok tt, f s).

(** [try: body  except Exception as e: handler e] *)
Definition try_except {S A} (body : M S A) (handler : exn → M S A) : M S A :=
  λ s, match body s with
       | (Ok a, s') => (Ok a, s')
       | (Raise e, s') => handler e s'
       end.

(** [for x in xs: body x] *)
Fixpoint for_each {S A} (xs : list A) (body : A → M S unit) : M S unit :=
  match xs with
  | [] => mret tt
  | x :: xs' => (body x ;; for_each xs' body)%py
  end.

(** ** Cells *)

Inductive value : Type :=
| VInt (z : Z)
| VFloat (f : float)
| VStr (s : string).

Definition NaN : value := VFloat PrimFloat.nan.

(** [isinstance(v, str)] *)
Definition is_str (v : value) : bool :=
  match v with VStr _ => true | _ => false end.

(** [isinstance(v, (int, float))] *)
Definition is_number (v : value) : bool :=
  match v with VInt _ | VFloat _ => true | VStr _ => false end.

(** [pd.isna(v)] *)
Definition isna (v : value) : bool :=
  match v with VFloat f => is_nan f | _ => false end.

(** [isinstance(v, (int, float)) and not pd.isna(v)] *)
Definition is_real (v : value) : bool := is_number v && negb (isna v).

(** [v == s] for a string literal [s] *)
Definition eq_str (v : value) (s : string) : bool :=
  match v with VStr t => bool_decide (t = s) | _ => false end.

(** ** Numbers *)

Definition SF64 (z : Z) : spec_float := binary_normalize prec emax z 0 false.

(** [float(z)] for an [int]: the nearest double, [OverflowError] beyond the
    finite range. *)
Definition float_of_int (z : Z) : result float :=
  match SF64 z with
  | S754_infinity _ => Raise OverflowError
  | sf => Ok (SF2Prim sf)
  end.

(** The correctly rounded quotient of two positive integers. *)
Definition SFratio (a b : positive) : spec_float :=
  SFdiv prec emax (S754_finite false a 0) (S754_finite false b 0).

(** [a / b] on two [int]s (true division, correctly rounded). *)
Definition int_truediv (a b : Z) : result float :=
  match a, b with
  | _, Z0 => Raise ZeroDivisionError
  | Z0, _ => Ok (if b <? 0 then PrimFloat.neg_zero else PrimFloat.zero)
  | Zpos p, Zpos q | Zneg p, Zneg q =>
      match SFratio p q with
      | S754_infinity _ => Raise OverflowError
      | sf => Ok (SF2Prim sf)
      end
  | Zpos p, Zneg q | Zneg p, Zpos q =>
      match SFratio p q with
      | S754_infinity _ => Raise OverflowError
      | sf => Ok (SF2Prim (SFopp sf))
      end
  end.

(** [math.ceil(f)] *)
Definition ceil (f : float) : result Z :=
  match Prim2SF f with
  | S754_zero _ => Ok 0
  | S754_infinity _ => Raise OverflowError
  | S754_nan => Raise (ValueError "cannot convert float NaN to integer")
  | S754_finite s m e =>
      let n := if 0 <=? e then Z.pos m * 2 ^ e
               else if s then Z.pos m / 2 ^ (- e)
               else - ((- Z.pos m) / 2 ^ (- e)) in
      Ok (if s then - n else n)
  end.

(** ** Strings *)

Definition is_digit (c : ascii) : bool :=
  let n := N_of_ascii c in ((48 <=? n) && (n <=? 57))%N.

Definition digit_val (c : ascii) : Z := Z.of_N (N_of_ascii c) - 48.

Definition is_space (c : ascii) : bool :=
  let n := N_of_ascii c in ((n =? 32) || ((9 <=? n) && (n <=? 13)))%N.

Definition lower_ascii (c : ascii) : ascii :=
  let n := N_of_ascii c in
  if ((65 <=? n) && (n <=? 90))%N then ascii_of_N (n + 32) else c.

(** [s.lower()] *)
Fixpoint lower (s : string) : string :=
  match s with
  | EmptyString => EmptyString
  | String c s' => String (lower_ascii c) (lower s')
  end.

Fixpoint lstrip (s : string) : string :=
  match s with
  | String c s' => if is_space c then lstrip s' else s
  | EmptyString => EmptyString
  end.

Fixpoint rstrip (s : string) : string :=
  match s with
  | EmptyString => EmptyString
  | String c s' =>
      match rstrip s' with
      | EmptyString => if is_space c then EmptyString else String c EmptyString
      | t => String c t
      end
  end.

(** [s.strip()] *)
Definition strip (s : string) : string := rstrip (lstrip s).

(** [needle in hay] *)
Fixpoint contains (needle hay : string) : bool :=
  String.prefix needle hay ||
  match hay with
  | EmptyString => false
  | String _ hay' => contains needle hay'
  end.

(** [any(k in text for k in keywords)] *)
Definition any_in (keywords : list string) (text : string) : bool :=
  existsb (λ k, contains k text) keywords.

(** ** [float(s)] on a string

    The grammar of the language reference: optional sign, then [inf],
    [infinity] or [nan] in any case, or a decimal number
    [digits [. digits] [e [sign] digits]] whose digit groups may be separated
    by single underscores; blanks around it are ignored. The value is the
    double nearest to the decimal number. *)

Fixpoint digitpart (acc : Z) (n : nat) (s : string) : Z * nat * string :=
  match s with
  | String c s' =>
      if is_digit c then digitpart (10 * acc + digit_val c) (S n) s'
      else if bool_decide (c = "_"%char) && bool_decide (n ≠ 0%nat) then
        match s' with
        | String c2 s'' =>
            if is_digit c2 then digitpart (10 * acc + digit_val c2) (S n) s''
            else (acc, n, s)
        | EmptyString => (acc, n, s)
        end
      else (acc, n, s)
  | EmptyString => (acc, n, s)
  end.

Definition exponent (s : string) : option (Z * string) :=
  match s with
  | String c s' =>
      if bool_decide (lower_ascii c = "e"%char) then
        let '(neg, s1) :=
          match s' with
          | String "-" t => (true, t)
          | String "+" t => (false, t)
          | _ => (false, s')
          end in
        let '(e, n, rest) := digitpart 0 0 s1 in
        if bool_decide (n = 0%nat) then None
        else Some (if neg then - e else e, rest)
      else None
  | EmptyString => Some (0, EmptyString)
  end.

(** The double nearest to [a * 10 ^ t], for [a >= 0]. *)
Definition decimal_to_SF (a t : Z) : spec_float :=
  match a with
  | Zpos p =>
      if 0 <=? t then SF64 (a * 10 ^ t)
      else SFratio p (Z.to_pos (10 ^ (- t)))
  | _ => S754_zero false
  end.

Definition floatnumber (s : string) : option spec_float :=
  let '(ip, ni, s1) := digitpart 0 0 s in
  let '(fp, nf, s2) :=
    match s1 with
    | String "." t => digitpart ip 0 t
    | _ => (ip, 0%nat, s1)
    end in
  if bool_decide (ni = 0%nat) && bool_decide (nf = 0%nat) then None
  else match exponent s2 with
       | Some (e, EmptyString) => Some (decimal_to_SF fp (e - Z.of_nat nf))
       | _ => None
       end.

Definition absfloatvalue (s : string) : option spec_float :=
  let l := lower s in
  if bool_decide (l = "inf") || bool_decide (l = "infinity") then Some (S754_infinity false)
  else if bool_decide (l = "nan") then Some S754_nan
  else floatnumber s.

Definition float_of_string (s : string) : result float :=
  let t := strip s in
  let '(neg, body) :=
    match t with
    | String "-" b => (true, b)
    | String "+" b => (false, b)
    | _ => (false, t)
    end in
  match absfloatvalue body with
  | Some sf => Ok (SF2Prim (if neg then SFopp sf else sf))
  | None => Raise (ValueError "could not convert string to float")
  end.

(** [float(v)] *)
Definition to_float (v : value) : result float :=
  match v with
  | VInt z => float_of_int z
  | VFloat f => Ok f
  | VStr s => float_of_string s
  end.

(** [str(v)]. The text of a [float] is its exact decimal expansion; Python
    prints the shortest decimal that reads back as the same double, possibly
    with an exponent. Both are made of digits, a sign, a point and, for
    Python, the letter [e]: the sources only search such a text for words
    ([concrete], [sea], [cl], ...) none of which it can contain, and test it
    for emptiness. *)

Definition decimal (z : Z) : string := NilZero.string_of_int (Z.to_int z).

Fixpoint zeros (n : nat) : string :=
  match n with O => EmptyString | S n' => String "0" (zeros n') end.

Fixpoint drop_trailing_zeros (s : string) : string :=
  match s with
  | EmptyString => EmptyString
  | String c s' =>
      match drop_trailing_zeros s' with
      | EmptyString => if bool_decide (c = "0"%char) then EmptyString else String c EmptyString
      | t => String c t
      end
  end.

Definition float_text (f : float) : string :=
  match Prim2SF f with
  | S754_nan => "nan"
  | S754_infinity s => if s then "-inf" else "inf"
  | S754_zero s => if s then "-0.0" else "0.0"
  | S754_finite s m e =>
      (if s then "-" else "") ++
      (if 0 <=? e then decimal (Z.pos m * 2 ^ e) ++ ".0"
       else
         let d := Z.to_nat (- e) in
         let num := decimal ((Z.pos m mod 2 ^ (- e)) * 5 ^ (- e)) in
         let frac := drop_trailing_zeros (zeros (d - String.length num) ++ num) in
         decimal (Z.pos m / 2 ^ (- e)) ++ "." ++
         (if bool_decide (frac = EmptyString) then "0" else frac))
  end.

Definition str (v : value) : string :=
  match v with
  | VStr s => s
  | VInt z => decimal z
  | VFloat f => float_text f
  end.

(** ** Arithmetic on cells: [a + b], [a - b], [a * b], [a / b].

    Two [int]s stay in the integers (except for [/]); otherwise both operands
    are taken to [float]. Float division by zero raises; the other float
    operations overflow silently to [inf]. *)

Definition arith (iop : Z → Z → result value) (fop : float → float → result value)
    (a b : value) : result value :=
  match a, b with
  | VStr _, _ | _, VStr _ => Raise TypeError
  | VInt x, VInt y => iop x y
  | _, _ => x ← to_float a; y ← to_float b; fop x y
  end.

Definition add : value → value → result value :=
  arith (λ x y, Ok (VInt (x + y))) (λ x y, Ok (VFloat (x + y))).
Definition sub : value → value → result value :=
  arith (λ x y, Ok (VInt (x - y))) (λ x y, Ok (VFloat (x - y))).
Definition mul : value → value → result value :=
  arith (λ x y, Ok (VInt (x * y))) (λ x y, Ok (VFloat (x * y))).
Definition truediv : value → value → result value :=
  arith (λ x y, VFloat <$> int_truediv x y)
        (λ x y, if (y =? 0)%float then Raise ZeroDivisionError else Ok (VFloat (x / y))).

(** [v > 0] on a number *)
Definition gt0 (v : value) : bool :=
  match v with
  | VInt z => 0 <? z
  | VFloat f => (0 <? f)%float
  | VStr _ => false
  end.

(** [np.pi] *)
Definition pi : float := 3.141592653589793%float.

(** [np.mean(xs)] of a non-empty list of floats: the running sum from the
    left (NumPy's order below eight elements) over the count. *)
Definition np_mean (xs : list float) : float :=
  (fold_left PrimFloat.add xs 0 / SF2Prim (SF64 (Z.of_nat (length xs))))%float.

(** ** Regular expressions: the fragment of [re] the sources use.

    A pattern is a sequence of one-character atoms, each possibly under a
    greedy quantifier. In a pattern, a backslash followed by [d] is the digit
    class, and a backslash followed by a punctuation character is that
    character itself. *)

Inductive atom : Type :=
| Chr (c : ascii)      (* a literal character *)
| Digit                (* [\d] *)
| AnyChar.             (* [.], anything but a newline *)

Inductive item : Type :=
| One (a : atom)
| OneOrMore (a : atom)    (* [a+] *)
| ZeroOrMore (a : atom)   (* [a*] *)
| Optional (a : atom).    (* [a?] *)

Definition is_meta (c : ascii) : bool :=
  existsb (λ m, bool_decide (c = m))
    ["("; ")"; "["; "]"; "{"; "}"; "|"; "^"; "$"; "*"; "+"; "?"]%char.

Definition is_alnum (c : ascii) : bool :=
  let n := N_of_ascii (lower_ascii c) in
  is_digit c || ((97 <=? n) && (n <=? 122))%N.

(** [re.compile]: [None] outside the fragment. The recursion is on a fuel
    that the length of the pattern bounds. *)
Fixpoint compile_from (fuel : nat) (s : string) : option (list item) :=
  match fuel with
  | O => None
  | S fuel' =>
      match s with
      | EmptyString => Some []
      | String c s1 =>
          let parsed : option (atom * string) :=
            if bool_decide (c = "\"%char) then
              match s1 with
              | String e s2 =>
                  if bool_decide (e = "d"%char) then Some (Digit, s2)
                  else if is_alnum e then None
                  else Some (Chr e, s2)
              | EmptyString => None
              end
            else if bool_decide (c = "."%char) then Some (AnyChar, s1)
            else if is_meta c then None
            else Some (Chr c, s1) in
          match parsed with
          | None => None
          | Some (a, rest) =>
              let '(it, rest') :=
                match rest with
                | String "+" r => (OneOrMore a, r)
                | String "*" r => (ZeroOrMore a, r)
                | String "?" r => (Optional a, r)
                | _ => (One a, rest)
                end in
              (it ::.) <$> compile_from fuel' rest'
          end
      end
  end.

Definition compile (pattern : string) : option (list item) :=
  compile_from (S (String.length pattern)) pattern.

Definition atom_matches (a : atom) (c : ascii) : bool :=
  match a with
  | Chr x => bool_decide (c = x)
  | Digit => is_digit c
  | AnyChar => negb (bool_decide (c = "010"%char))
  end.

(** Greedy repetition with backtracking: take as many as possible, and give
    one back each time the rest of the pattern [k] fails. *)
Fixpoint star (a : atom) (k : string → option string) (s : string) : option string :=
  match s with
  | String c s' =>
      if atom_matches a c then
        match star a k s' with
        | Some r => Some r
        | None => k s
        end
      else k s
  | EmptyString => k s
  end.

Definition one (a : atom) (k : string → option string) (s : string) : option string :=
  match s with
  | String c s' => if atom_matches a c then k s' else None
  | EmptyString => None
  end.

(** A match of the pattern at the start of [s]: what is left of [s] after it. *)
Fixpoint match_here (p : list item) (s : string) : option string :=
  match p with
  | [] => Some s
  | One a :: p' => one a (match_here p') s
  | OneOrMore a :: p' => one a (star a (match_here p')) s
  | ZeroOrMore a :: p' => star a (match_here p') s
  | Optional a :: p' =>
      match one a (match_here p') s with
      | Some r => Some r
      | None => match_here p' s
      end
  end.

Definition tail (s : string) : string :=
  match s with String _ s' => s' | EmptyString => EmptyString end.

Fixpoint findall_from (fuel : nat) (p : list item) (s : string) : list string :=
  match fuel with
  | O => []
  | S fuel' =>
      match match_here p s with
      | Some rest =>
          let m := String.substring 0 (String.length s - String.length rest) s in
          if bool_decide (m = EmptyString) then
            m :: (if bool_decide (s = EmptyString) then [] else findall_from fuel' p (tail s))
          else m :: findall_from fuel' p rest
      | None =>
          if bool_decide (s = EmptyString) then [] else findall_from fuel' p (tail s)
      end
  end.

(** [re.findall(pattern, s)] for a pattern without groups: the non-overlapping
    matches, leftmost first. *)
Definition findall (pattern : string) (s : string) : result (list string) :=
  match compile pattern with
  | Some p => Ok (findall_from (S (String.length s)) p s)
  | None => Raise (ValueError "unsupported pattern")
  end.

End Py.

(* ===================================================================== *)
(** * Part II. Data frames                                                *)
(* ===================================================================== *)

Module Frame.
Import Py.

(** A row maps the frame's column names to cells. *)
Abbreviation row := (gmap string value).

(** A frame is the list of its rows; row [i] carries the index label [i]. *)
Abbreviation frame := (list (gmap string value)).

(** [col in df.columns] *)
Definition has_col (col : string) : M row bool :=
  λ r, (Ok (bool_decide (is_Some (r !! col))), r).

(** [df.loc[idx, col]] *)
Definition loc (col : string) : M row value :=
  λ r, (match r !! col with Some v => Ok v | None => Raise (KeyError col) end, r).

(** [df.loc[idx, col] = v] *)
Definition set_loc (col : string) (v : value) : M row unit :=
  modify (<[col := v]>).

(** The row a computation leaves behind. *)
Definition exec {A} (m : M row A) (r : row) : row := (m r).2.

(** Runs a row computation over every row of a frame; an exception that
    escapes it ends the whole loop. *)
Fixpoint for_rows (body : M row unit) (df : frame) : result frame :=
  match df with
  | [] => Ok []
  | r :: rs =>
      match body r with
      | (Ok _, r') => (r' ::.) <$> for_rows body rs
      | (Raise e, _) => Raise e
      end
  end.

(** [df.empty]: no rows, or no columns. *)
Definition empty (df : frame) : bool :=
  match df with
  | [] => true
  | r :: _ => bool_decide (r = ∅)
  end.

(** The cell of a column that may be absent, [np.nan] standing in for it. *)
Definition cell_or_nan (r : row) (col : string) : value :=
  default NaN (r !! col).

End Frame.

(* ===================================================================== *)
(** * Part III. [preprocessor.py]: class [FRPDataPreprocessor]           *)
(* ===================================================================== *)

Module Config.

(** [config.MATERIAL_PROPERTIES] *)
Definition fiber_densities : list (string * float) :=
  [("Glass", 2.55); ("Carbon", 1.84); ("Basalt", 2.67)]%float.
Definition matrix_densities : list (string * float) :=
  [("Vinyl ester", 1.09); ("Epoxy", 1.1); ("Polyester", 1.38)]%float.

(** [config.TEST_SIZE], [config.VALIDATION_SIZE] *)
Definition TEST_SIZE : float := 0.1%float.
Definition VALIDATION_SIZE : float := 0.2%float.

End Config.

Module FRPDataPreprocessor.
Import Py Frame.
Local Open Scope py_scope.

(** ** [change_smd_to_nan] *)

Definition missing_markers : list (string * value) :=
  [("SMD", NaN); ("smd", NaN);
   ("Notreported", VStr "Unknown"); ("not reported", VStr "Unknown");
   ("Not reported", VStr "Unknown"); ("NOT REPORTED", VStr "Unknown")].

(** [Series.replace(missing_markers)] on one cell: a cell equal to a key
    becomes the key's value, any other cell stays. *)
Definition replace_cell (markers : list (string * value)) (v : value) : value :=
  match v with
  | VStr s => default v (snd <$> List.find (λ kv, bool_decide (kv.1 = s)) markers)
  | _ => v
  end.

Definition change_smd_to_nan (df : frame) : frame :=
  (λ r : row, replace_cell missing_markers <$> r) <$> df.

(** ** [parse_range_to_mean] *)

Definition numeric_columns : list string :=
  ["glass_transition_temperature"; "glass_transition_temperature_run_2";
   "cure_ratio"; "Fiber_content_weight"; "Fiber_content_volume";
   "Void_content"; "diameter"; "average_area"; "nominal_area";
   "num_1"; "temperature"; "pH_of_concrete"; "strength_of_concrete";
   "crack"; "pH_1"; "pHafter"; "RH_1"; "field_average_humidity";
   "field_average_temperature"; "temp"; "temp2"; "value_load";
   "Value1_1"; "COV1_1"; "Value2_1"; "COV2_1"; "Value3_1"; "COV3_1"].

(** The pattern as the source spells it: the raw string literal
    [r"\\d+\\.?\\d*"], twelve characters, each backslash doubled. *)
Definition range_pattern : string := "\\d+\\.?\\d*".

(** [except (ValueError, TypeError): handler] *)
Definition except_value_or_type {S A} (body : M S A) (handler : M S A) : M S A :=
  try_except body
    (λ e, match e with ValueError _ | TypeError => handler | _ => raise e end).

(** [[float(x) for x in numbers]] *)
Fixpoint floats_of (numbers : list string) : result (list float) :=
  match numbers with
  | [] => Ok []
  | x :: xs => (f ← float_of_string x; fs ← floats_of xs; Ok (f :: fs))%stdpp
  end.

(** The body of the two loops, for one column of one row; the pattern is a
    parameter so that the same body can be read with another pattern. *)
Definition resolve_range_with (pattern : string) (col : string) : M row unit :=
  value ← loc col;
  match value with
  | VStr s =>
      if contains "," s && negb (contains ":" s) then
        except_value_or_type
          (numbers ← lift (findall pattern s);
           if bool_decide (numbers ≠ []) then
             xs ← lift (floats_of numbers);
             let new_value := np_mean xs in
             if negb (is_nan new_value) then set_loc col (VFloat new_value)
             else mret tt
           else mret tt)
          (mret tt)
      else mret tt
  | _ => mret tt
  end.

Definition parse_range_row_with (pattern : string) : M row unit :=
  for_each numeric_columns
    (λ col : string,
       present ← has_col col;
       if present : bool then resolve_range_with pattern col else mret tt).

Definition parse_range_to_mean (df : frame) : result frame :=
  for_rows (parse_range_row_with range_pattern) df.

(** ** [create_selected_features] and its eight rules *)

Definition feature_columns : list string :=
  ["pH_of_condition_enviroment"; "Chloride_ion"; "concrete";
   "diameter"; "load_value"; "fiber_content"; "Glass_or_Basalt";
   "Vinyl_ester_or_Epoxy"; "condition_time"; "Temperature";
   "Tensile_strength_retention"; "surface_treatment";
   "max_strength"; "glass_transition_temperature"].

(** [isinstance(value, str) or (isinstance(value, (int, float)) and not pd.isna(value))] *)
Definition present (v : value) : bool := is_str v || is_real v.

(** [for col in cols: if col in df.columns: value = df.loc[idx, col];
    if P(value): ...; break]: the first cell that passes the test. *)
Fixpoint first_cell (P : value → bool) (cols : list string) : M row (option value) :=
  match cols with
  | [] => mret None
  | col :: cols' =>
      has ← has_col col;
      if has then
        value ← loc col;
        if P value then mret (Some value) else first_cell P cols'
      else first_cell P cols'
  end.

(** [str(df.loc[idx, col]).lower()] *)
Definition lower_text (col : string) : M row string :=
  v ← loc col; mret (lower (str v)).

Definition concrete_keywords : list string :=
  ["concrete"; "cover"; "crack"; "cement"; "mortar"].
Definition water_types : list string :=
  ["tap water"; "sea water"; "seawater"; "distilled water";
   "deionized water"; "di water"; "pure water"].
Definition chloride_keywords : list string :=
  ["cl"; "chloride"; "nacl"; "cacl2"; "mgcl2"; "salt"].

(** Step 1 of [_process_ph_and_chloride]: is the record a concrete environment? *)
Definition is_concrete_environment : M row bool :=
  has ← has_col "Condition_environment";
  by_text ← (if has then
               condition_env ← lower_text "Condition_environment";
               mret (any_in concrete_keywords condition_env)
             else mret false);
  if by_text then mret true
  else found ← first_cell present ["concrete"; "crack"; "cover"; "cement"];
       mret (bool_decide (is_Some found)).

(** Step 2: the pH of a concrete environment. *)
Definition concrete_ph : M row float :=
  has ← has_col "pH_of_concrete";
  if has then
    ph_concrete ← loc "pH_of_concrete";
    if is_real ph_concrete then lift (to_float ph_concrete)
    else mret 13.0%float
  else mret 13.0%float.

(** Step 3: the pH of a solution environment. *)
Definition solution_ph : M row float :=
  has ← has_col "solution_condition";
  direct ← (if has then
              solution_condition ← loc "solution_condition";
              if is_real solution_condition
              then ph ← lift (to_float solution_condition); mret (Some ph)
              else mret None
            else mret None);
  match direct with
  | Some ph => mret ph
  | None =>
      alt ← first_cell is_real ["pH_1"; "pH"; "ph"; "PH"];
      match alt with
      | Some ph_value => lift (to_float ph_value)
      | None =>
          solution_text ← (if has then lower_text "solution_condition" else mret "");
          has_ingredient ← has_col "ingredient_1";
          solution_text ← (if bool_decide (solution_text = "") && has_ingredient
                           then lower_text "ingredient_1"
                           else mret solution_text);
          (if any_in water_types solution_text && contains "sea" solution_text
           then set_loc "Chloride_ion" (VInt 1)
           else mret tt);;
          mret 7.0%float
      end
  end.

Definition _process_ph_and_chloride : M row unit :=
  set_loc "Chloride_ion" (VInt 0);;
  concrete ← is_concrete_environment;
  final_ph ← (if concrete then concrete_ph else solution_ph);
  has ← has_col "pHafter";
  final_ph ← (if has then
                ph_after ← loc "pHafter";
                if is_real ph_after then
                  after ← lift (to_float ph_after);
                  mret ((final_ph + after) / 2.0)%float
                else mret final_ph
              else mret final_ph);
  set_loc "pH_of_condition_enviroment" (VFloat final_ph);;
  has ← has_col "ingredient_1";
  if has then
    ingredient ← lower_text "ingredient_1";
    if any_in chloride_keywords ingredient then set_loc "Chloride_ion" (VInt 1)
    else mret tt
  else mret tt.

Definition _process_concrete_indicator : M row unit :=
  found ← first_cell present ["concrete"; "crack"; "cover"];
  set_loc "concrete" (VInt (if bool_decide (is_Some found) then 1 else 0)).

Definition _process_diameter : M row unit :=
  has ← has_col "diameter";
  direct ← (if has then
              diameter_value ← loc "diameter";
              if is_real diameter_value
              then set_loc "diameter" diameter_value;; mret true
              else mret false
            else mret false);
  if direct : bool then mret tt
  else
    has ← has_col "nominal_area";
    if has then
      area_value ← loc "nominal_area";
      if is_real area_value && gt0 area_value then
        calculated_diameter ←
          lift (q ← truediv area_value (VFloat pi);
                r ← to_float q;
                mul (VInt 2) (VFloat (sqrt r)))%stdpp;
        set_loc "diameter" calculated_diameter
      else mret tt
    else mret tt.

(** The part of [_process_load] after the preloading test: the value that
    ends in [load_value]. *)
Definition stress_or_strain_load : M row value :=
  has_mode ← has_col "stress_or_strain";
  has_value ← has_col "value_load";
  if has_mode && has_value then
    stress_strain ← loc "stress_or_strain";
    value ← loc "value_load";
    if is_real value then
      if eq_str stress_strain "stress" then
        has ← has_col "ultimate_tensile_strength";
        if has then
          uts ← loc "ultimate_tensile_strength";
          if is_number uts && gt0 uts then lift (truediv value uts)
          else mret (VInt 0)
        else mret (VInt 0)
      else if eq_str stress_strain "strain" then
        has_modulus ← has_col "tensile_modulus";
        has_uts ← has_col "ultimate_tensile_strength";
        if has_modulus && has_uts then
          modulus ← loc "tensile_modulus";
          uts ← loc "ultimate_tensile_strength";
          if forallb (λ x, is_number x && gt0 x) [modulus; uts] then
            lift (a ← mul value (VFloat 0.001); b ← mul a modulus; truediv b uts)%stdpp
          else mret (VInt 0)
        else mret (VInt 0)
      else mret (VInt 0)
    else mret (VInt 0)
  else mret (VInt 0).

Definition _process_load : M row unit :=
  has ← has_col "type_of_load";
  preloading ← (if has then
                  type_of_load ← loc "type_of_load";
                  mret (eq_str type_of_load "preloading")
                else mret false);
  if preloading then set_loc "load_value" (VInt 0)
  else load_value ← stress_or_strain_load;
       set_loc "load_value" load_value.

(** [d.get(key, default)] on a dictionary with string keys *)
Definition dict_get (d : list (string * float)) (key : value) (dflt : float) : float :=
  match key with
  | VStr s => default dflt (snd <$> List.find (λ kv, bool_decide (kv.1 = s)) d)
  | _ => dflt
  end.

(** [df.loc[idx, col] if col in df.columns else 'Unknown'] *)
Definition loc_or_unknown (col : string) : M row value :=
  has ← has_col col;
  if has then loc col else mret (VStr "Unknown").

(** The volume-to-weight conversion of the fibre content. *)
Definition weight_of_volume (volume_content : value) (density_fiber density_matrix : float)
    : result value :=
  (a ← mul (VFloat 100.0) volume_content;
   numerator ← mul a (VFloat density_fiber);
   b ← mul volume_content (VFloat density_fiber);
   c ← sub (VFloat 100.0) volume_content;
   d ← mul c (VFloat density_matrix);
   denominator ← add b d;
   truediv numerator denominator)%stdpp.

Definition _process_fiber_content : M row unit :=
  has ← has_col "Fiber_content_weight";
  direct ← (if has then
              weight_content ← loc "Fiber_content_weight";
              if is_real weight_content
              then set_loc "fiber_content" weight_content;; mret true
              else mret false
            else mret false);
  if direct : bool then mret tt
  else
    has ← has_col "Fiber_content_volume";
    if has then
      volume_content ← loc "Fiber_content_volume";
      if is_real volume_content then
        fiber_type ← loc_or_unknown "Fiber_type";
        matrix_type ← loc_or_unknown "Matrix_type";
        let density_fiber := dict_get Config.fiber_densities fiber_type 2.0 in
        let density_matrix := dict_get Config.matrix_densities matrix_type 1.2 in
        weight_content ←
          lift (weight_of_volume volume_content density_fiber density_matrix);
        set_loc "fiber_content" weight_content
      else mret tt
    else mret tt.

Definition _process_material_types : M row unit :=
  has ← has_col "Fiber_type";
  (if has then
     fiber_type ← loc "Fiber_type";
     if eq_str fiber_type "Glass" then set_loc "Glass_or_Basalt" (VInt 1)
     else if eq_str fiber_type "Basalt" then set_loc "Glass_or_Basalt" (VInt 0)
     else mret tt
   else mret tt);;
  has ← has_col "Matrix_type";
  if has then
    matrix_type ← loc "Matrix_type";
    if eq_str matrix_type "Vinyl ester" then set_loc "Vinyl_ester_or_Epoxy" (VInt 1)
    else if eq_str matrix_type "Epoxy" then set_loc "Vinyl_ester_or_Epoxy" (VInt 0)
    else mret tt
  else mret tt.

Definition _process_surface_treatment : M row unit :=
  has ← has_col "surface_treatment";
  if has then
    treatment ← loc "surface_treatment";
    if eq_str treatment "sand coated" then set_loc "surface_treatment" (VInt 0)
    else if eq_str treatment "Smooth" then set_loc "surface_treatment" (VInt 1)
    else mret tt
  else mret tt.

Definition feature_mappings : list (string * string) :=
  [("condition_time", "time_field");
   ("Temperature", "temperature");
   ("Tensile_strength_retention", "retention1");
   ("Target_parameter", "Target_parameter");
   ("max_strength", "Value1_1");
   ("glass_transition_temperature", "glass_transition_temperature")].

(** The body of the loop of [_process_other_features]. *)
Definition copy_feature (new_col old_col : string) : M row unit :=
  has ← has_col old_col;
  if has then
    value ← loc old_col;
    if bool_decide (new_col = "Target_parameter") then set_loc new_col value
    else if is_real value then set_loc new_col value
    else
      match value with
      | VStr s =>
          if bool_decide (strip s ≠ "") then
            except_value_or_type
              (numeric_value ← lift (float_of_string s);
               if negb (is_nan numeric_value) then set_loc new_col (VFloat numeric_value)
               else mret tt)
              (if bool_decide (new_col ∈ ["Target_parameter"])
               then set_loc new_col value else mret tt)
          else mret tt
      | _ => mret tt
      end
  else mret tt.

Definition _process_other_features : M row unit :=
  for_each feature_mappings (λ m, copy_feature m.1 m.2).

(** The eight rules, in the order the row loop calls them. *)
Definition rules : list (M row unit) :=
  [_process_ph_and_chloride; _process_concrete_indicator; _process_diameter;
   _process_load; _process_fiber_content; _process_material_types;
   _process_surface_treatment; _process_other_features].

(** [for col in feature_columns: if col not in df_new.columns: df_new[col] = np.nan] *)
Definition init_features : M row unit :=
  for_each feature_columns
    (λ col : string,
       has ← has_col col; if has : bool then mret tt else set_loc col NaN).

(** The body of the row loop: [try: rule; ...; rule  except Exception: continue]. *)
Definition derive_row : M row unit :=
  try_except (for_each rules id) (λ _, mret tt).

Definition create_selected_features (df : frame) : frame :=
  exec (init_features;; derive_row) <$> df.

(** ** [create_model_dataset] *)

Definition model_columns : list string :=
  ["Title"; "Target_parameter"; "Tensile_strength_retention";
   "pH_of_condition_enviroment"; "condition_time"; "fiber_content";
   "Temperature"; "diameter"; "Chloride_ion"; "concrete";
   "load_value"; "Glass_or_Basalt"; "Vinyl_ester_or_Epoxy";
   "surface_treatment"; "max_strength"].

Definition final_columns : list string :=
  ["Title"; "Tensile_strength_retention"; "pH_of_condition_enviroment";
   "condition_time"; "fiber_content"; "Temperature"; "diameter";
   "concrete"; "load_value"; "Chloride_ion"; "Glass_or_Basalt";
   "Vinyl_ester_or_Epoxy"; "surface_treatment"; "max_strength"].

Definition final_names : list string :=
  ["Title"; "Tensile strength retention"; "pH of condition environment";
   "Exposure time"; "Fibre content"; "Exposure temperature"; "Diameter";
   "Presence of concrete"; "Load"; "Presence of chloride ion"; "Fibre type";
   "Matrix type"; "Surface treatment"; "Strength of unconditioned rebar"].

(** One row of [model_data]: [Title] falls back on the index label, any other
    missing column on [np.nan]. *)
Definition model_row (idx : nat) (r : row) : row :=
  list_to_map
    ((λ col, (col, if bool_decide (col = "Title")
                   then default (VInt (Z.of_nat idx)) (r !! "Title")
                   else cell_or_nan r col)) <$> model_columns).

(** [tensile_data[final_columns]], as the list of the row's cells. *)
Definition final_cells (r : row) : list value :=
  cell_or_nan r <$> final_columns.

(** [dropna(how='all')] keeps a row unless all its cells are missing. *)
Definition all_missing (cells : list value) : bool := forallb isna cells.

(** [tensile_data['Tensile_strength_retention'].notna()] *)
Definition has_target (r : row) : bool :=
  negb (isna (cell_or_nan r "Tensile_strength_retention")).

(** [final_data.columns = [...]]: the cells under their final names. *)
Definition rename (cells : list value) : row :=
  list_to_map (zip final_names cells).

Definition create_model_dataset (df : frame) : frame :=
  let tensile_data := imap model_row df in
  let final_data := filter (λ cells, negb (all_missing cells)) (final_cells <$> tensile_data) in
  let final_data :=
    if (length final_data <? 100)%nat then
      let final_data := final_cells <$> filter (λ r, has_target r = true) tensile_data in
      if (length final_data <? 50)%nat
      then final_cells <$> filter (λ r, has_target r = true) tensile_data
      else final_data
    else final_data in
  rename <$> final_data.

(** ** [validate_dataframe] (from [utils.py]) and [preprocess_data] *)

Definition validate_dataframe (df : frame) (name : string) : result bool :=
  if empty df then Raise (ValueError (name ++ " is empty")) else Ok true.

Definition preprocess_data (df : frame) : result frame :=
  (validate_dataframe df "Input data";;
   let df_clean := change_smd_to_nan df in
   df_parsed ← parse_range_to_mean df_clean;
   let df_features := create_selected_features df_parsed in
   Ok (create_model_dataset df_features))%stdpp.

End FRPDataPreprocessor.

(* ===================================================================== *)
(** * Part IV. The partitioner: [ModelTrainer.prepare_train_val_test_splits]
      and [utils.train_validation_test_split]                             *)
(* ===================================================================== *)

Module ModelTrainer.
Import Py.

Section Split.
(** [np.random.RandomState(seed).permutation(n)]: scikit-learn shuffles the
    row numbers with it. Which permutation a seed gives is NumPy's business;
    the splitter is read for any. *)
Variable permutation : Z → nat → list nat.

Context {A B : Type}.

(** scikit-learn's [_validate_shuffle_split] for a float [test_size] and no
    [train_size]: the sizes of the two parts. *)
Definition validate_shuffle_split (n_samples : nat) (test_size : float)
    : result (nat * nat) :=
  (if (test_size <=? 0)%float || (1 <=? test_size)%float then
     Raise (ValueError "test_size should be in the (0, 1) range")
   else
     n ← float_of_int (Z.of_nat n_samples);
     n_test ← ceil (test_size * n)%float;
     let n_train := Z.of_nat n_samples - n_test in
     if n_train =? 0 then
       Raise (ValueError "the resulting train set will be empty")
     else Ok (Z.to_nat n_train, Z.to_nat n_test))%stdpp.

(** [ShuffleSplit]: the first [n_test] entries of the permutation are the
    test rows, the next [n_train] the training rows. *)
Definition shuffle_split (n_samples : nat) (test_size : float) (random_state : Z)
    : result (list nat * list nat) :=
  ('(n_train, n_test) ← validate_shuffle_split n_samples test_size;
   let p := permutation random_state n_samples in
   Ok (take n_train (drop n_test p), take n_test p))%stdpp.

(** [a[indices]] *)
Fixpoint select {T} (a : list T) (indices : list nat) : result (list T) :=
  match indices with
  | [] => Ok []
  | i :: rest =>
      match a !! i with
      | Some x => (x ::.) <$> select a rest
      | None => Raise IndexError
      end
  end.

(** [train_test_split(X, y, test_size=..., random_state=...)] *)
Definition train_test_split {T U} (X : list T) (y : list U) (test_size : float)
    (random_state : Z) : result (list T * list T * list U * list U) :=
  (if bool_decide (length X ≠ length y) then
     Raise (ValueError "inconsistent numbers of samples")
   else
     '(train, test) ← shuffle_split (length X) test_size random_state;
     X_train ← select X train; X_test ← select X test;
     y_train ← select y train; y_test ← select y test;
     Ok (X_train, X_test, y_train, y_test))%stdpp.

(** [utils.train_validation_test_split] *)
Definition train_validation_test_split (X : list A) (y : list B)
    (test_size val_size : float) (random_state : Z)
    : result (list A * list A * list A * list B * list B * list B) :=
  ('(X_temp, X_test, y_temp, y_test) ← train_test_split X y test_size random_state;
   let val_size_adjusted := (val_size / (1 - test_size))%float in
   '(X_train, X_val, y_train, y_val) ←
      train_test_split X_temp y_temp val_size_adjusted random_state;
   Ok (X_train, X_val, X_test, y_train, y_val, y_test))%stdpp.

(** [ModelTrainer.prepare_train_val_test_splits] *)
Definition prepare_train_val_test_splits (X : list A) (y : list B)
    : result (list A * list A * list A * list B * list B * list B) :=
  ('(X_temp, X_test, y_temp, y_test) ← train_test_split X y Config.TEST_SIZE 42;
   let val_ratio := (Config.VALIDATION_SIZE / (1 - Config.TEST_SIZE))%float in
   '(X_train, X_val, y_train, y_val) ← train_test_split X_temp y_temp val_ratio 42;
   Ok (X_train, X_val, X_test, y_train, y_val, y_test))%stdpp.

End Split.

(** The integer nearest to [a / b] for [b > 0], halves to the even
    neighbour: Python's [round]. *)
Definition round_div (a b : Z) : Z :=
  let q := a / b in
  let r := a mod b in
  if 2 * r <? b then q
  else if b <? 2 * r then q + 1
  else if Z.even q then q else q + 1.

End ModelTrainer.

(* ===================================================================== *)
(** * Part V. [predictor.py]: [FRPPredictor] and [FRPPredictionPipeline]  *)
(* ===================================================================== *)

Module FRPPredictor.
Import Py Frame.
Local Open Scope py_scope.

(** What a fitted estimator is handed: a frame with named columns (a
    scikit-learn [Pipeline] selects its columns by name) or a bare array. *)
Inductive model_input : Type :=
| FrameInput (columns : list string) (rows : list (list value))
| ArrayInput (rows : list (list value)).

(** A fitted estimator: whether it is a [Pipeline] ([hasattr(model,
    'named_steps')]) and its [predict], which may raise. *)
Record model : Type := {
  named_steps : bool;
  predict : model_input → result (list value)
}.

(** The predictor object: [self.model] and [self.feature_info]. *)
Record predictor : Type := {
  the_model : option model;
  feature_info : option (gmap string (list string))
}.

(** The argument of [predict_single]: a [dict], a [DataFrame], or the
    [Series] that [processed_df.iloc[0]] is. *)
Inductive input_data : Type :=
| Dict (d : row)
| DataFrame (df : frame)
| Series (s : row).

(** The lines the predictor prints. *)
Inductive line : Type :=
| NoModelLoaded
| NoModelLoadedForPrediction
| UsingPipelineModel
| MissingRequiredFeatures (names : list string)
| NoTrainingColumnInformation
| UsingPreprocessedModel
| NoFeatureInformation
| FeatureProcessing (n_numeric n_categorical : nat)
| NoNumericFeaturesAvailable
| FeatureStandardizationFailed (e : exn)
| PredictionFailed (e : exn)
| UsingEmergencyFallback
| NoNumericFeaturesForFallback
| EmergencyPredictionCompleted
| EmergencyFallbackFailed (e : exn).

(** Computations that print. *)
Abbreviation P := (M (list line)).

Definition print (l : line) : P unit := modify (λ out, (out ++ [l])%list).

(** [pd.DataFrame([input_data])] for a dict, [input_data.copy()] otherwise. *)
Inductive copied : Type :=
| AFrame (df : frame)
| ASeries (s : row).

Definition copy_input (x : input_data) : copied :=
  match x with
  | Dict d => AFrame [d]
  | DataFrame df => AFrame df
  | Series s => ASeries s
  end.

(** [input_df.columns]; a [Series] has no such attribute. *)
Definition column_names (df : frame) : list string :=
  match df with
  | r :: _ => (map_to_list r).*1
  | [] => []
  end.

Definition columns (x : copied) : result (list string) :=
  match x with
  | AFrame df => Ok (column_names df)
  | ASeries _ => Raise (AttributeError "columns")
  end.

(** [set(wanted) - set(have)], listed in the order of [wanted]. *)
Definition missing_from (wanted have : list string) : list string :=
  remove_dups (filter (λ c, c ∉ have) wanted).

(** [input_df[cols]] *)
Definition select_columns (cols : list string) (df : frame) : list (list value) :=
  (λ r, cell_or_nan r <$> cols) <$> df.

(** [x.fillna(0)] on a cell *)
Definition fillna0 (v : value) : value := if isna v then VInt 0 else v.

Definition fillna_rows (rows : list (list value)) : list (list value) :=
  (λ cells : list value, fillna0 <$> cells) <$> rows.

(** What [standardize_prediction_features] returns when it is not [None]. *)
Inductive processed : Type :=
| PFrame (columns : list string) (rows : list (list value))
| PArray (rows : list (list value))
| PSeries (s : row).

(** [if self.feature_info]: neither [None] nor an empty dict. *)
Definition truthy (fi : option (gmap string (list string))) : bool :=
  match fi with
  | Some m => negb (bool_decide (m = ∅))
  | None => false
  end.

Definition info_get (fi : option (gmap string (list string))) (key : string)
    : list string :=
  default [] (fi ≫= (.!! key)).

Definition standardize_body (p : predictor) (m : model) (x : input_data)
    : P (option processed) :=
  let input_df := copy_input x in
  if named_steps m then
    print UsingPipelineModel;;
    if truthy (feature_info p)
       && bool_decide (is_Some (feature_info p ≫= (.!! "feature_names"))) then
      let training_columns := info_get (feature_info p) "feature_names" in
      have ← lift (columns input_df);
      let missing_features := missing_from training_columns have in
      if bool_decide (missing_features ≠ []) then
        print (MissingRequiredFeatures missing_features);; mret None
      else
        match input_df with
        | AFrame df =>
            mret (Some (PFrame training_columns (select_columns training_columns df)))
        | ASeries _ => raise (AttributeError "columns")
        end
    else
      print NoTrainingColumnInformation;;
      match input_df with
      | AFrame df =>
          mret (Some (PFrame (column_names df) (select_columns (column_names df) df)))
      | ASeries s => mret (Some (PSeries s))
      end
  else
    print UsingPreprocessedModel;;
    if negb (truthy (feature_info p)) then
      print NoFeatureInformation;; mret None
    else
      let numeric_features := info_get (feature_info p) "numeric_features" in
      let categorical_features := info_get (feature_info p) "categorical_features" in
      let expected_features := (numeric_features ++ categorical_features)%list in
      have ← lift (columns input_df);
      let missing_features := missing_from expected_features have in
      if bool_decide (missing_features ≠ []) then
        print (MissingRequiredFeatures missing_features);; mret None
      else
        match input_df with
        | AFrame df =>
            print (FeatureProcessing (length numeric_features)
                                     (length categorical_features));;
            if bool_decide (numeric_features ≠ []) then
              mret (Some (PArray (fillna_rows (select_columns numeric_features df))))
            else
              print NoNumericFeaturesAvailable;; mret None
        | ASeries _ => raise (AttributeError "columns")
        end.

Definition standardize_prediction_features (p : predictor) (x : input_data)
    : P (option processed) :=
  match the_model p with
  | None => print NoModelLoaded;; mret None
  | Some m =>
      try_except (standardize_body p m x)
        (λ e, print (FeatureStandardizationFailed e);; mret None)
  end.

(** [model.predict(data)[0]], then [float(...)] *)
Definition first_prediction (m : model) (data : model_input) : result float :=
  (predictions ← predict m data;
   match predictions with
   | prediction :: _ => to_float prediction
   | [] => Raise IndexError
   end)%stdpp.

(** [values.reshape(1, -1)]: all cells in one row *)
Definition reshape_1 (rows : list (list value)) : list (list value) :=
  [concat rows].

(** ** [_emergency_prediction_fallback] *)

(** [select_dtypes(include=[np.number])]: the columns all of whose cells are
    numbers. *)
Definition numeric_columns (df : frame) : list string :=
  filter (λ c, forallb (λ r, is_number (cell_or_nan r c)) df = true) (column_names df).

Definition as_float (v : value) : float :=
  match to_float v with Ok f => f | Raise _ => PrimFloat.nan end.

Definition count_float (n : nat) : float := SF2Prim (SF64 (Z.of_nat n)).

(** [Series.mean()] and [Series.std()] (one delta degree of freedom), missing
    cells skipped. *)
Definition column_mean (xs : list float) : float :=
  let ys := filter (λ x, is_nan x = false) xs in
  (fold_left PrimFloat.add ys 0 / count_float (length ys))%float.

Definition column_std (xs : list float) : float :=
  let ys := filter (λ x, is_nan x = false) xs in
  let avg := column_mean xs in
  let sq := fold_left PrimFloat.add ((λ x, (avg - x) * (avg - x))%float <$> ys) 0%float in
  PrimFloat.sqrt (sq / count_float (length ys - 1))%float.

(** [(numeric_df - numeric_df.mean()) / (numeric_df.std() + 1e-8)], then
    [fillna(0)] *)
Definition normalize (df : frame) (cols : list string) : list (list value) :=
  let column c := (λ r, as_float (cell_or_nan r c)) <$> df in
  (λ r, (λ c, fillna0 (VFloat ((as_float (cell_or_nan r c) - column_mean (column c))
                               / (column_std (column c) + 1e-8))%float)) <$> cols) <$> df.

Definition fallback_body (p : predictor) (x : input_data) : P (option float) :=
  print UsingEmergencyFallback;;
  match copy_input x with
  | ASeries _ => raise (AttributeError "select_dtypes")
  | AFrame input_df =>
      let numeric := numeric_columns input_df in
      if bool_decide (numeric = []) then
        print NoNumericFeaturesForFallback;; mret None
      else
        let normalized_data := normalize input_df numeric in
        match the_model p with
        | None => raise (AttributeError "predict")
        | Some m =>
            prediction ← lift (first_prediction m (ArrayInput (reshape_1 normalized_data)));
            print EmergencyPredictionCompleted;;
            mret (Some prediction)
        end
  end.

Definition _emergency_prediction_fallback (p : predictor) (x : input_data)
    : P (option float) :=
  try_except (fallback_body p x)
    (λ e, print (EmergencyFallbackFailed e);; mret None).

(** ** [predict_single] *)

(** The body of the [try] of [predict_single]. *)
Definition predict_body (p : predictor) (m : model) (x : input_data)
    : P (option float) :=
  processed_data ← standardize_prediction_features p x;
  match processed_data with
  | None => _emergency_prediction_fallback p x
  | Some (PFrame cols rows) =>
      prediction ← lift (first_prediction m (FrameInput cols rows));
      mret (Some prediction)
  | Some (PArray rows) =>
      prediction ← lift (first_prediction m (ArrayInput (reshape_1 rows)));
      mret (Some prediction)
  | Some (PSeries _) => raise (AttributeError "reshape")
  end.

Definition predict_single (p : predictor) (x : input_data) : P (option float) :=
  match the_model p with
  | None => print NoModelLoadedForPrediction;; mret None
  | Some m =>
      try_except (predict_body p m x)
        (λ e, print (PredictionFailed e);; _emergency_prediction_fallback p x)
  end.

(** ** [explain_prediction]: the qualitative band *)

Definition durability_assessment (prediction : float) : string :=
  if (0.9 <=? prediction)%float then "Excellent"
  else if (0.8 <=? prediction)%float then "Good"
  else if (0.7 <=? prediction)%float then "Fair"
  else if (0.6 <=? prediction)%float then "Poor"
  else "Very Poor".

End FRPPredictor.

Module FRPPredictionPipeline.
Import Py Frame FRPPredictor.
Local Open Scope py_scope.

(** The ['error'] entry: a fixed text, or [str(e)] of what was caught. *)
Inductive error_text : Type :=
| Text (s : string)
| StrOf (e : exn).

(** The dictionary [predict_from_raw_data] returns. *)
Record outcome : Type := {
  success : bool;
  error : option error_text;
  prediction : option float;
  assessment : option string;
  processed_features : option row
}.

Definition failure (why : error_text) : outcome :=
  {| success := false; error := Some why; prediction := None;
     assessment := None; processed_features := None |}.

(** [raw_df], then [self.preprocessor.preprocess_data(raw_df)]; a [Series]
    has no [columns] for the preprocessor to walk. *)
Definition preprocess_raw (raw_data : input_data) : result frame :=
  match copy_input raw_data with
  | AFrame raw_df => FRPDataPreprocessor.preprocess_data raw_df
  | ASeries _ => Raise (AttributeError "columns")
  end.

Definition predict_from_raw_data (p : predictor) (raw_data : input_data) : P outcome :=
  try_except
    (processed_df ← lift (preprocess_raw raw_data);
     match processed_df with
     | [] => mret (failure (Text "Data preprocessing failed"))
     | first :: _ =>
         prediction ← predict_single p (Series first);
         match prediction with
         | None => mret (failure (Text "Prediction failed"))
         | Some y =>
             mret {| success := true; error := None; prediction := Some y;
                     assessment := Some (durability_assessment y);
                     processed_features := Some first |}
         end
     end)
    (λ e, mret (failure (StrOf e))).

End FRPPredictionPipeline.

(* ===================================================================== *)
(** * Part V, continued. [utils.py], [predict_batch], [load_model] and the
      results of training                                                 *)
(* ===================================================================== *)

(** ** Python objects that are stored and handed on

    What a result dictionary, a pickled file or a predictor's fields hold:
    plain data and fitted models. A [dict] lists its items in insertion
    order, under distinct keys. *)

Set Warnings "-register-all".

Module PyObj.
Import Py.

Inductive obj : Type :=
| ONone
| OBool (b : bool)
| OInt (z : Z)
| OFloat (f : float)
| OStr (s : string)
| OList (xs : list obj)
| ODict (items : list (string * obj))
| OFitted (m : FRPPredictor.model).   (* a fitted estimator or pipeline *)

(** [o is None] *)
Definition is_none (o : obj) : bool :=
  match o with ONone => true | _ => false end.

(** [isinstance(o, dict)] *)
Definition is_dict (o : obj) : bool :=
  match o with ODict _ => true | _ => false end.

(** The value under [key] of a dictionary's items. *)
Fixpoint item (key : string) (items : list (string * obj)) : option obj :=
  match items with
  | [] => None
  | (k, v) :: rest => if bool_decide (k = key) then Some v else item key rest
  end.

(** [key in d], for a dictionary [d] *)
Definition contains_key (key : string) (items : list (string * obj)) : bool :=
  bool_decide (is_Some (item key items)).

(** [d.get(key, default)], for a dictionary [d] *)
Definition get_or (items : list (string * obj)) (key : string) (dflt : obj) : obj :=
  default dflt (item key items).

(** [bool(o)]: the truth value of an object. A fitted model answers for
    itself ([fitted_truth]): by its length where it has one, true otherwise. *)
Definition truth (fitted_truth : FRPPredictor.model → result bool) (o : obj) : result bool :=
  match o with
  | ONone => Ok false
  | OBool b => Ok b
  | OInt z => Ok (negb (z =? 0))
  | OFloat f => Ok (negb (f =? 0)%float)
  | OStr s => Ok (negb (bool_decide (s = "")))
  | OList xs => Ok (negb (bool_decide (xs = [])))
  | ODict items => Ok (negb (bool_decide (items = [])))
  | OFitted m => fitted_truth m
  end.

(** Numbers: [bool], [int] and [float] compare with each other by value. *)
Inductive number : Type :=
| NInt (z : Z)
| NFloat (f : float).

Definition number_of (o : obj) : option number :=
  match o with
  | OBool b => Some (NInt (if b then 1 else 0))
  | OInt z => Some (NInt z)
  | OFloat f => Some (NFloat f)
  | _ => None
  end.

(** An [int] against a [float], exactly; [None] against NaN. *)
Definition compare_int_float (z : Z) (f : float) : option comparison :=
  match Prim2SF f with
  | S754_nan => None
  | S754_infinity s => Some (if s then Gt else Lt)
  | S754_zero _ => Some (z ?= 0)
  | S754_finite s m e =>
      let fm := if s then Z.neg m else Z.pos m in
      Some (if 0 <=? e then z ?= fm * 2 ^ e else z * 2 ^ (- e) ?= fm)
  end.

(** [a > b] on two numbers *)
Definition num_gt (a b : number) : bool :=
  match a, b with
  | NInt x, NInt y => y <? x
  | NFloat x, NFloat y => (y <? x)%float
  | NInt x, NFloat y => bool_decide (compare_int_float x y = Some Gt)
  | NFloat x, NInt y => bool_decide (compare_int_float y x = Some Lt)
  end.

End PyObj.

(** ** [utils.py] *)

Module Utils.
Import Py Frame FRPPredictor PyObj.
Local Open Scope py_scope.

(** What the utilities, the batch predictor, the model loader and the model
    saver print. *)
Inductive entry : Type :=
| FromPredictor (l : line)   (* a line of [standardize_prediction_features] *)
| ValidationPassed (name : string) (shape : nat * nat)
| FeatureProcessingFailedForBatch
| BatchPredictionFailed (e : exn)
| ModelSaved (filepath : string)
| FailedToSaveModel (e : exn)
| ModelLoaded (filepath : string)
| LegacyModelLoaded (filepath : string)
| FailedToLoadModel (e : exn)
| FailedToLoadModelFrom (model_path : string)
| NoValidModelFoundIn (model_path : string)
| ModelLoadedFrom (model_path : string)
| ModelR2Score (r2_score : obj)
| ExpectedFeatures (feature_count : nat)
| ErrorLoadingModel (e : exn)
| FailedToSave (model_name : string) (e : exn)
| SavedModels (saved_count total : nat) (output_path : string).

(** ** [clean_column_names] *)

(** [c.isspace()] for an ASCII character *)
Definition isspace (c : ascii) : bool :=
  let n := N_of_ascii c in
  ((n =? 32) || ((9 <=? n) && (n <=? 13)) || ((28 <=? n) && (n <=? 31)))%N.

Fixpoint str_lstrip (s : string) : string :=
  match s with
  | String c s' => if isspace c then str_lstrip s' else s
  | EmptyString => EmptyString
  end.

Fixpoint str_rstrip (s : string) : string :=
  match s with
  | EmptyString => EmptyString
  | String c s' =>
      match str_rstrip s' with
      | EmptyString => if isspace c then EmptyString else String c EmptyString
      | t => String c t
      end
  end.

(** [s.strip()] *)
Definition str_strip (s : string) : string := str_rstrip (str_lstrip s).

(** [s.replace(a, b)] for single characters *)
Fixpoint replace_char (a b : ascii) (s : string) : string :=
  match s with
  | EmptyString => EmptyString
  | String c s' => String (if bool_decide (c = a) then b else c) (replace_char a b s')
  end.

(** A character of the class [[a-zA-Z0-9_]] *)
Definition is_word (c : ascii) : bool :=
  let n := N_of_ascii c in
  (((48 <=? n) && (n <=? 57)) || ((65 <=? n) && (n <=? 90))
   || ((97 <=? n) && (n <=? 122)) || (n =? 95))%N.

(** [re.sub('[^a-zA-Z0-9_]', '', s)]: the characters of the class, in order *)
Fixpoint keep_chars (P : ascii → bool) (s : string) : string :=
  match s with
  | EmptyString => EmptyString
  | String c s' => if P c then String c (keep_chars P s') else keep_chars P s'
  end.

(** One column name through the three steps. *)
Definition clean_name (name : string) : string :=
  keep_chars is_word (replace_char " " "_" (str_strip name)).

(** [clean_column_names(df)] rewrites [df.columns] and nothing else of the
    frame: the column index before and after. *)
Definition clean_column_names (columns : list string) : list string :=
  clean_name <$> columns.

(** ** [validate_dataframe] *)

Definition say {S} (console : S → list entry) (set_console : list entry → S → S)
    (e : entry) : M S unit :=
  modify (λ w, set_console (console w ++ [e])%list w).

(** Printing when the console is all the state there is. *)
Definition tell (e : entry) : M (list entry) unit := say id (λ c _, c) e.

Section Validate.
(** [str] of a set of column names, for the message; Python fixes no order
    for the elements of a set. *)
Variable set_text : list string → string.

(** [validate_dataframe(df, required_columns, name)]; [None] stands for a
    [df] or a [required_columns] that is [None]. *)
Definition validate_dataframe (df : option frame) (required_columns : option (list string))
    (name : string) : M (list entry) bool :=
  match df with
  | None => raise (ValueError (name ++ " is None"))
  | Some df =>
      if empty df then raise (ValueError (name ++ " is empty"))
      else
        (if bool_decide (default [] required_columns ≠ []) then
           let missing_cols := missing_from (default [] required_columns) (column_names df) in
           if bool_decide (missing_cols ≠ []) then
             raise (ValueError (name ++ " missing required columns: "
                                ++ set_text missing_cols))
           else mret tt
         else mret tt);;
        tell (ValidationPassed name (length df, length (column_names df)));;
        mret true
  end.
End Validate.

(** ** [save_model_safely] and [load_model_safely]

    The file system maps a path to the object pickled there. *)

Record world : Type := {
  self_model : obj;             (* the three fields of an [FRPPredictor] *)
  self_feature_info : obj;
  self_model_metadata : obj;
  files : gmap string obj;
  console : list entry
}.

Definition set_files (f : gmap string obj → gmap string obj) (w : world) : world :=
  {| self_model := self_model w; self_feature_info := self_feature_info w;
     self_model_metadata := self_model_metadata w; files := f (files w);
     console := console w |}.

Definition set_console (c : list entry) (w : world) : world :=
  {| self_model := self_model w; self_feature_info := self_feature_info w;
     self_model_metadata := self_model_metadata w; files := files w; console := c |}.

Definition log (e : entry) : M world unit := say console set_console e.

Section Files.
(** The operating system's verdict on making the directory of a path and
    opening the file for writing ([os.makedirs], [open]): [None] when it goes
    through. Once the file is open, [pickle.dump] of the data and models at
    hand is taken to write it in full. *)
Variable refused : string → option exn.
(** What [open] raises for a path with no file. *)
Variable no_such_file : string → exn.
(** [pd.Timestamp.now()] *)
Variable now : obj.

(** [os.makedirs(...)], [open(filepath, 'wb')], [pickle.dump(save_data, f)] *)
Definition dump (filepath : string) (save_data : obj) : M world unit :=
  match refused filepath with
  | Some e => raise e
  | None => modify (set_files (<[filepath := save_data]>))
  end.

(** [open(filepath, 'rb')], [pickle.load(f)] *)
Definition load (filepath : string) : M world obj :=
  w ← get;
  match files w !! filepath with
  | Some save_data => mret save_data
  | None => raise (no_such_file filepath)
  end.

Definition save_model_safely (model : obj) (filepath : string) (additional_info : obj)
    : M world bool :=
  try_except
    (let save_data := ODict [("model", model); ("additional_info", additional_info);
                             ("timestamp", now)] in
     dump filepath save_data;;
     log (ModelSaved filepath);;
     mret true)
    (λ e, log (FailedToSaveModel e);; mret false).

Definition load_model_safely (filepath : string) : M world (obj * obj) :=
  try_except
    (save_data ← load filepath;
     match save_data with
     | ODict items =>
         if contains_key "model" items then
           log (ModelLoaded filepath);;
           model ← lift (match item "model" items with
                         | Some v => Ok v | None => Raise (KeyError "model") end);
           mret (model, get_or items "additional_info" ONone)
         else
           log (LegacyModelLoaded filepath);; mret (save_data, ONone)
     | _ => log (LegacyModelLoaded filepath);; mret (save_data, ONone)
     end)
    (λ e, log (FailedToLoadModel e);; mret (ONone, ONone)).

End Files.

End Utils.

(** ** [predictor.py]: [predict_batch] and [load_model] *)

Module FRPPredictorMore.
Import Py Frame FRPPredictor PyObj Utils.
Local Open Scope py_scope.

(** A computation of the predictor run on the wider console: what it prints
    is appended, line by line. *)
Definition on_console {A} (m : P A) : M (list entry) A :=
  λ out, let '(r, lines) := m [] in (r, (out ++ (FromPredictor <$> lines))%list).

Section Batch.
Variable set_text : list string → string.

(** [predict_batch(input_data)] for a [DataFrame], as its signature has it.
    [standardize_prediction_features] hands a [Series] back only when it was
    given one, so the last branch of the [match] is never taken for a frame;
    it is there because the [match] must be complete. *)
Definition predict_batch (p : predictor) (input_data : frame)
    : M (list entry) (option (list value)) :=
  match the_model p with
  | None => tell (FromPredictor NoModelLoadedForPrediction);; mret None
  | Some m =>
      try_except
        (validate_dataframe set_text (Some input_data) None "Input data";;
         processed_data ←
           on_console (standardize_prediction_features p (DataFrame input_data));
         match processed_data with
         | None => tell FeatureProcessingFailedForBatch;; mret None
         | Some (PFrame cols rows) =>
             predictions ← lift (predict m (FrameInput cols rows));
             mret (Some predictions)
         | Some (PArray rows) =>
             predictions ← lift (predict m (ArrayInput rows));
             mret (Some predictions)
         | Some (PSeries _) => raise (AttributeError "columns")
         end)
        (λ e, tell (BatchPredictionFailed e);; mret None)
  end.
End Batch.

Section Load.
Variable no_such_file : string → exn.
(** [len(m)] for a fitted model: the number of steps of a pipeline, a
    [TypeError] for a bare estimator. *)
Variable fitted_len : model → result nat.
(** [bool(m)] for a fitted model *)
Variable fitted_truth : model → result bool.

(** [len(o)] *)
Definition len (o : obj) : result nat :=
  match o with
  | OStr s => Ok (String.length s)
  | OList xs => Ok (length xs)
  | ODict items => Ok (length items)
  | OFitted m => fitted_len m
  | _ => Raise TypeError
  end.

(** [o.get(key, default)]: only a [dict] has it. *)
Definition get_attr (o : obj) (key : string) (dflt : obj) : result obj :=
  match o with
  | ODict items => Ok (get_or items key dflt)
  | _ => Raise (AttributeError "get")
  end.

Definition set_fields (model feature_info model_metadata : obj) (w : world) : world :=
  {| self_model := model; self_feature_info := feature_info;
     self_model_metadata := model_metadata; files := files w; console := console w |}.

Definition load_model (model_path : string) : M world bool :=
  try_except
    (loaded ← load_model_safely no_such_file model_path;
     let '(model_data, additional_info) := loaded in
     if is_none model_data then
       log (FailedToLoadModelFrom model_path);; mret false
     else
       modify (λ w,
         match model_data with
         | ODict items =>
             set_fields (get_or items "model" ONone) (get_or items "feature_info" ONone)
                        (get_or items "metrics" ONone) w
         | _ => set_fields model_data additional_info (self_model_metadata w) w
         end);;
       w ← get;
       if is_none (self_model w) then
         log (NoValidModelFoundIn model_path);; mret false
       else
         log (ModelLoadedFrom model_path);;
         has_metadata ← lift (truth fitted_truth (self_model_metadata w));
         (if has_metadata : bool then
            r2_score ← lift (get_attr (self_model_metadata w) "r2" (OStr "Unknown"));
            log (ModelR2Score r2_score)
          else mret tt);;
         has_feature_info ← lift (truth fitted_truth (self_feature_info w));
         (if has_feature_info : bool then
            names ← lift (get_attr (self_feature_info w) "feature_names" (OList []));
            feature_count ← lift (len names);
            log (ExpectedFeatures feature_count)
          else mret tt);;
         mret true)
    (λ e, log (ErrorLoadingModel e);; mret false).

End Load.

(** ** [create_sample_input] *)

(** [create_sample_input()] *)
Definition create_sample_input : row :=
  list_to_map
    [("pH_of_condition_enviroment", VFloat 7); ("condition_time", VInt 365);
     ("fiber_content", VFloat 60); ("Temperature", VFloat 25); ("diameter", VFloat 12);
     ("concrete", VInt 0); ("load_value", VFloat 0.3); ("Chloride_ion", VInt 0);
     ("Glass_or_Basalt", VInt 1); ("Vinyl_ester_or_Epoxy", VInt 1);
     ("surface_treatment", VInt 0); ("max_strength", VFloat 1200)].

End FRPPredictorMore.

(** ** [model_trainer.py]: the results of training *)

Module ModelTrainerResults.
Import Py Frame FRPPredictor PyObj Utils.
Local Open Scope py_scope.

(** What [train_model_with_hyperopt] returns: on success the scores and
    sizes, on failure the error. *)
Definition hyperopt_result (model_name : string) (r2 mse mae rmse : float)
    (test_size train_size val_size : Z) (hyperparameter_optimized : bool) : obj :=
  ODict [("model_name", OStr model_name); ("r2_score", OFloat r2); ("mse", OFloat mse);
         ("mae", OFloat mae); ("rmse", OFloat rmse); ("test_size", OInt test_size);
         ("train_size", OInt train_size); ("val_size", OInt val_size);
         ("hyperparameter_optimized", OBool hyperparameter_optimized)].

Definition failed_result (model_name error : string) : obj :=
  ODict [("model_name", OStr model_name); ("error", OStr error);
         ("status", OStr "failed")].

(** What [train_model] and [_create_ensemble_model] return. *)
Definition trained_result (model train_metrics test_metrics cv_scores cv_mean cv_std
    feature_info : obj) : obj :=
  ODict [("model", model); ("train_metrics", train_metrics);
         ("test_metrics", test_metrics); ("cv_scores", cv_scores);
         ("cv_mean", cv_mean); ("cv_std", cv_std); ("feature_info", feature_info)].

Section Results.
(** [m[key]] for a fitted model: a step of a pipeline, or an exception. *)
Variable fitted_item : model → string → result obj.

(** [o[key]] for a string [key] *)
Definition getitem (o : obj) (key : string) : result obj :=
  match o with
  | ODict items =>
      match item key items with Some v => Ok v | None => Raise (KeyError key) end
  | OFitted m => fitted_item m key
  | _ => Raise TypeError
  end.

(** [score > best_score], and [score] as the new best when it holds;
    [best_score] is a number from the start. *)
Definition exceeds (score : obj) (best_score : number) : result (option number) :=
  match number_of score with
  | Some n => Ok (if num_gt n best_score then Some n else None)
  | None => Raise TypeError
  end.

(** The loop of [get_best_model]. *)
Fixpoint best_of (items : list (string * obj)) (best_score : number)
    (best_model_name : option string) : result (option string) :=
  match items with
  | [] => Ok best_model_name
  | (model_name, result) :: rest =>
      (test_metrics ← getitem result "test_metrics";
       score ← getitem test_metrics "r2";
       better ← exceeds score best_score;
       match better with
       | Some new_best => best_of rest new_best (Some model_name)
       | None => best_of rest best_score best_model_name
       end)%stdpp
  end.

(** The rows [compare_models] collects, before it builds and sorts the
    table. *)
Definition comparison_row (model_name : string) (result : obj) : Py.result obj :=
  (test_metrics ← getitem result "test_metrics";
   r2 ← getitem test_metrics "r2";
   rmse ← getitem test_metrics "rmse";
   mae ← getitem test_metrics "mae";
   cv_mean ← getitem result "cv_mean";
   cv_std ← getitem result "cv_std";
   Ok (ODict [("Model", OStr model_name); ("R²", r2); ("RMSE", rmse); ("MAE", mae);
              ("CV_Mean", cv_mean); ("CV_Std", cv_std)]))%stdpp.

Fixpoint comparison_data (items : list (string * obj)) : Py.result (list obj) :=
  match items with
  | [] => Ok []
  | (model_name, result) :: rest =>
      (row ← comparison_row model_name result;
       rows ← comparison_data rest;
       Ok (row :: rows))%stdpp
  end.

(** [get_best_model()], on [self.evaluation_results]; [(None, None)] is
    [(None, ONone)]. *)
Definition get_best_model (evaluation_results : list (string * obj))
    : result (option string * obj) :=
  if bool_decide (evaluation_results = []) then Ok (None, ONone)
  else
    (best_model_name ← best_of evaluation_results (NFloat neg_infinity) None;
     match best_model_name with
     | Some name =>
         match item name evaluation_results with
         | Some result => Ok (Some name, result)
         | None => Raise (KeyError name)
         end
     | None => Raise (KeyError "None")
     end)%stdpp.

(** ** [save_models] *)

Variable refused : string → option exn.
Variable now : obj.
(** [output_path / name], as text, and [output_path.mkdir(exist_ok=True)] *)
Variable joinpath : string → string → string.
Variable mkdir_refused : string → option exn.
(** [config.MODELS_DIR] *)
Variable MODELS_DIR : string.

(** The dictionary [save_models] builds for one result. *)
Definition save_data_of (result : obj) : Py.result obj :=
  (model ← getitem result "model";
   feature_info ← getitem result "feature_info";
   metrics ← getitem result "test_metrics";
   cv_scores ← getitem result "cv_scores";
   Ok (ODict [("model", model); ("feature_info", feature_info);
              ("metrics", metrics); ("cv_scores", cv_scores)]))%stdpp.

Fixpoint save_each (output_path : string) (items : list (string * obj))
    (saved_count : nat) : M world nat :=
  match items with
  | [] => mret saved_count
  | (model_name, result) :: rest =>
      saved_count ←
        try_except
          (let model_file := joinpath output_path (model_name ++ "_model.pkl") in
           save_data ← lift (save_data_of result);
           saved ← save_model_safely refused now save_data model_file ONone;
           mret (if saved : bool then S saved_count else saved_count))
          (λ e, log (FailedToSave model_name e);; mret saved_count);
      save_each output_path rest saved_count
  end.

Definition save_models (evaluation_results : list (string * obj))
    (output_dir : option string) : M world unit :=
  let output_path := default MODELS_DIR output_dir in
  (match mkdir_refused output_path with Some e => raise e | None => mret tt end);;
  saved_count ← save_each output_path evaluation_results 0%nat;
  log (SavedModels saved_count (length evaluation_results) output_path).

End Results.

End ModelTrainerResults.

(* ===================================================================== *)
(** * Part VI. Facts about the runtime                                    *)
(* ===================================================================== *)

Module PyFacts.
Import Py.

(** ** The monad *)

Lemma bind_ok {S A B} (m : M S A) (k : A → M S B) s a s' :
  m s = (Ok a, s') → bind m k s = k a s'.
Proof. unfold bind. now intros ->. Qed.

Lemma bind_raise {S A B} (m : M S A) (k : A → M S B) s e s' :
  m s = (Raise e, s') → bind m k s = (Raise e, s').
Proof. unfold bind. now intros ->. Qed.

Lemma try_except_ok {S A} (m : M S A) h s a s' :
  m s = (Ok a, s') → try_except m h s = (Ok a, s').
Proof. unfold try_except. now intros ->. Qed.

Lemma try_except_ok_or {S A} (m : M S A) h s :
  (∃ a s', m s = (Ok a, s')) → try_except m h s = m s.
Proof. intros (a & s' & H). unfold try_except. now rewrite H. Qed.

Lemma try_except_raise {S A} (m : M S A) h s e s' :
  m s = (Raise e, s') → try_except m h s = h e s'.
Proof. unfold try_except. now intros ->. Qed.

Lemma for_each_app {S A} (xs ys : list A) (body : A → M S unit) s :
  for_each (xs ++ ys) body s = bind (for_each xs body) (λ _, for_each ys body) s.
Proof.
  revert s. induction xs as [|x xs IH]; intros s; simpl.
  - reflexivity.
  - unfold bind in *. destruct (body x s) as [[[]|e] s1]; [|reflexivity].
    apply IH.
Qed.

(** ** Strings that start with a backslash are not numbers *)

Lemma rstrip_backslash t : ∃ u, rstrip (String "\" t) = String "\" u.
Proof. simpl. destruct (rstrip t); eauto. Qed.

Lemma float_of_backslash t :
  float_of_string (String "\" t) = Raise (ValueError "could not convert string to float").
Proof.
  unfold float_of_string, strip.
  change (lstrip (String "\" t)) with (String "\" t).
  destruct (rstrip_backslash t) as [u ->].
  reflexivity.
Qed.

(** ** What a match leaves is never longer than what it was given *)

Definition shrinking (k : string → option string) : Prop :=
  ∀ s r, k s = Some r → (String.length r ≤ String.length s)%nat.

Lemma star_shrinking a k : shrinking k → shrinking (star a k).
Proof.
  intros Hk s. induction s as [|c s IH]; intros r; simpl.
  - apply Hk.
  - destruct (atom_matches a c).
    + destruct (star a k s) as [r'|] eqn:E.
      * intros [= <-]. specialize (IH _ eq_refl). lia.
      * apply Hk.
    + apply Hk.
Qed.

Lemma one_shrinking a k : shrinking k → shrinking (one a k).
Proof.
  intros Hk [|c s] r; simpl; [discriminate|].
  destruct (atom_matches a c); [|discriminate].
  intros H. apply Hk in H. lia.
Qed.

Lemma match_here_shrinking p : shrinking (match_here p).
Proof.
  induction p as [|[a|a|a|a] p IH]; simpl.
  - intros s r [= <-]. lia.
  - now apply one_shrinking.
  - now apply one_shrinking, star_shrinking.
  - now apply star_shrinking.
  - intros s r. destruct (one a (match_here p) s) eqn:E.
    + intros [= <-]. eapply one_shrinking; eauto.
    + apply IH.
Qed.

(** A pattern that opens with a literal character only matches texts that
    open with it, and its matches are not empty. *)
Lemma match_here_literal c p s rest :
  match_here (One (Chr c) :: p) s = Some rest →
  ∃ s', s = String c s' ∧ (String.length rest ≤ String.length s')%nat.
Proof.
  destruct s as [|c' s']; simpl; [discriminate|].
  case_bool_decide; [subst c'|discriminate].
  intros H. exists s'. split; [reflexivity|].
  now apply match_here_shrinking in H.
Qed.

Lemma findall_from_literal c p fuel s :
  Forall (λ x, ∃ t, x = String c t) (findall_from fuel (One (Chr c) :: p) s).
Proof.
  revert s. induction fuel as [|fuel IH]; intros s; [constructor|].
  cbn [findall_from].
  destruct (match_here (One (Chr c) :: p) s) as [rest|] eqn:E.
  - apply match_here_literal in E as (s' & -> & Hlen).
    cbn [String.length].
    replace (S (String.length s') - String.length rest)%nat
      with (S (String.length s' - String.length rest)) by lia.
    cbn [String.substring].
    case_bool_decide; [discriminate|].
    constructor; eauto.
  - case_bool_decide; [constructor|apply IH].
Qed.

End PyFacts.

(* ===================================================================== *)
(** * Part VII. The preprocessor: normaliser, range resolver              *)
(* ===================================================================== *)

Module NormalizerFacts.
Import Py Frame FRPDataPreprocessor PyFacts.

(** ** [change_smd_to_nan] *)

(** No replacement value is itself a marker, so a replaced cell is stable. *)
Lemma replace_cell_idempotent (v : value) :
  replace_cell missing_markers (replace_cell missing_markers v)
  = replace_cell missing_markers v.
Proof.
  destruct v as [z|f|s]; try reflexivity.
  unfold replace_cell at 2. simpl.
  repeat (case_bool_decide; [reflexivity|]).
  simpl. unfold replace_cell. simpl.
  repeat (case_bool_decide; [congruence|]).
  reflexivity.
Qed.

(** C7. The Missing-Value Normalizer is idempotent: on every frame,
    [change_smd_to_nan] applied twice gives the frame it gives when applied
    once. *)
Theorem change_smd_to_nan_idempotent (df : frame) :
  change_smd_to_nan (change_smd_to_nan df) = change_smd_to_nan df.
Proof.
  unfold change_smd_to_nan.
  rewrite <- list_fmap_compose.
  apply list_fmap_ext. intros _ r _. simpl.
  rewrite <- map_fmap_compose.
  apply map_fmap_ext. intros c v _. simpl.
  apply replace_cell_idempotent.
Qed.

(** Cells that are not markers pass through untouched. *)
Lemma replace_cell_other (v : value) :
  (∀ s, v = VStr s → s ∉ missing_markers.*1) →
  replace_cell missing_markers v = v.
Proof.
  destruct v as [z|f|s]; try reflexivity.
  intros H. specialize (H s eq_refl).
  unfold replace_cell. simpl.
  repeat (case_bool_decide; [exfalso; apply H; subst s; set_solver|]).
  reflexivity.
Qed.

(** ** [parse_range_to_mean] *)

(** What Python's [re] makes of the source's pattern: a backslash, the
    letter [d] once or more, a backslash, any one character or none, a
    backslash, the letter [d] any number of times. No digit class is left. *)
Lemma range_pattern_compiled :
  compile range_pattern
  = Some [One (Chr "\"); OneOrMore (Chr "d"); One (Chr "\");
          Optional AnyChar; One (Chr "\"); ZeroOrMore (Chr "d")].
Proof. reflexivity. Qed.

(** Whatever the cell, the resolver leaves the row as it found it: every
    match of the pattern starts with a backslash, and [float] refuses it. *)
Lemma resolve_range_unchanged (col : string) (r : row) :
  is_Some (r !! col) → resolve_range_with range_pattern col r = (Ok tt, r).
Proof.
  intros [v Hv].
  unfold resolve_range_with, bind, loc. rewrite Hv.
  destruct v as [z|f|s]; try reflexivity.
  destruct (contains "," s && negb (contains ":" s)); [|reflexivity].
  unfold except_value_or_type, try_except, bind, lift, findall.
  rewrite range_pattern_compiled.
  pose proof (findall_from_literal "\" 
    [OneOrMore (Chr "d"); One (Chr "\"); Optional AnyChar; One (Chr "\");
     ZeroOrMore (Chr "d")] (S (String.length s)) s) as Hall.
  destruct (findall_from _ _ s) as [|x xs]; [reflexivity|].
  apply Forall_cons in Hall as [[t ->] _].
  rewrite bool_decide_true by discriminate.
  cbn [floats_of]. rewrite float_of_backslash. reflexivity.
Qed.

Lemma for_each_unchanged {A} (xs : list A) (body : A → M row unit) (r : row) :
  (∀ x, body x r = (Ok tt, r)) → for_each xs body r = (Ok tt, r).
Proof.
  intros H. induction xs as [|x xs IH]; [reflexivity|].
  simpl. unfold bind. now rewrite H.
Qed.

Lemma parse_range_row_unchanged (r : row) :
  parse_range_row_with range_pattern r = (Ok tt, r).
Proof.
  apply for_each_unchanged. intros col.
  unfold bind, has_col. case_bool_decide; [|reflexivity].
  now apply resolve_range_unchanged.
Qed.

Lemma parse_range_to_mean_unchanged (df : frame) :
  parse_range_to_mean df = Ok df.
Proof.
  unfold parse_range_to_mean.
  induction df as [|r df IH]; [reflexivity|].
  simpl. rewrite parse_range_row_unchanged, IH. reflexivity.
Qed.

(** C1. At the range string ["20,30"] in the numeric-bearing column
    [diameter], [parse_range_to_mean] returns the frame unchanged, the text
    still in place, whereas the same loop read with the digit pattern
    [\d+\.?\d*] puts the mean 25.0 there. *)
Theorem parse_range_leaves_range_string :
  parse_range_to_mean [{["diameter" := VStr "20,30"]}]
    = Ok [{["diameter" := VStr "20,30"]}]
  ∧ for_rows (parse_range_row_with "\d+\.?\d*") [{["diameter" := VStr "20,30"]}]
    = Ok [{["diameter" := VFloat 25]}].
Proof. split; vm_compute; reflexivity. Qed.

End NormalizerFacts.

(* ===================================================================== *)
(** * Part VIII. The feature derivation engine                            *)
(* ===================================================================== *)

Module DerivationFacts.
Import Py Frame FRPDataPreprocessor PyFacts.
Local Open Scope py_scope.

(** ** Properties of the row that every step keeps

    [preserves I m]: if [I] holds of the row before [m], it holds of the row
    [m] leaves, whether [m] returns or raises. *)

Definition preserves {A} (I : row → Prop) (m : M row A) : Prop :=
  ∀ r, I r → I (m r).2.

Section Preserves.
Context (I : row → Prop).

Lemma preserves_ret {A} (a : A) : preserves I (mret a).
Proof. now intros r. Qed.

Lemma preserves_raise {A} (e : exn) : preserves I (raise (A:=A) e).
Proof. now intros r. Qed.

Lemma preserves_lift {A} (x : result A) : preserves I (lift x).
Proof. now intros r. Qed.

Lemma preserves_has_col col : preserves I (has_col col).
Proof. now intros r. Qed.

Lemma preserves_loc col : preserves I (loc col).
Proof. now intros r. Qed.

Lemma preserves_bind {A B} (m : M row A) (k : A → M row B) :
  preserves I m → (∀ a, preserves I (k a)) → preserves I (bind m k).
Proof.
  intros Hm Hk r Hr. unfold bind.
  specialize (Hm r Hr). destruct (m r) as [[a|e] s]; simpl in *.
  - now apply Hk.
  - assumption.
Qed.

Lemma preserves_try_except {A} (m : M row A) (h : exn → M row A) :
  preserves I m → (∀ e, preserves I (h e)) → preserves I (try_except m h).
Proof.
  intros Hm Hh r Hr. unfold try_except.
  specialize (Hm r Hr). destruct (m r) as [[a|e] s]; simpl in *.
  - assumption.
  - now apply Hh.
Qed.

Lemma preserves_except_value_or_type {A} (m h : M row A) :
  preserves I m → preserves I h → preserves I (except_value_or_type m h).
Proof.
  intros Hm Hh. apply preserves_try_except; [assumption|].
  intros []; first [assumption | apply preserves_raise].
Qed.

Lemma preserves_for_each {A} (xs : list A) (body : A → M row unit) :
  (∀ x, x ∈ xs → preserves I (body x)) → preserves I (for_each xs body).
Proof.
  induction xs as [|x xs IH]; intros H; simpl.
  - apply preserves_ret.
  - apply preserves_bind.
    + apply H. left.
    + intros _. apply IH. intros y Hy. apply H. now right.
Qed.

Lemma preserves_first_cell P cols : preserves I (first_cell P cols).
Proof.
  induction cols as [|c cols IH]; simpl.
  - apply preserves_ret.
  - apply preserves_bind; [apply preserves_has_col|]. intros [].
    + apply preserves_bind; [apply preserves_loc|]. intros v.
      destruct (P v); [apply preserves_ret|apply IH].
    + apply IH.
Qed.

Lemma preserves_lower_text col : preserves I (lower_text col).
Proof.
  apply preserves_bind; [apply preserves_loc|]. intros v. apply preserves_ret.
Qed.

Lemma preserves_set_loc col v :
  (∀ r, I r → I (<[col := v]> r)) → preserves I (set_loc col v).
Proof. intros H r Hr. now apply H. Qed.

Lemma preserves_loc_or_unknown col : preserves I (loc_or_unknown col).
Proof.
  apply preserves_bind; [apply preserves_has_col|].
  intros []; [apply preserves_loc|apply preserves_ret].
Qed.
End Preserves.

Create HintDb pres.
#[export] Hint Resolve preserves_ret preserves_raise preserves_lift preserves_has_col
  preserves_loc preserves_first_cell preserves_lower_text preserves_loc_or_unknown : pres.

(** Walks a computation down to its writes; [side] settles each write. *)
Ltac pres_walk side :=
  lazymatch goal with
  | |- preserves _ (bind _ _) =>
      apply preserves_bind; [pres_walk side | intros ?; pres_walk side]
  | |- preserves _ (if ?b then _ else _) =>
      destruct b eqn:?; pres_walk side
  | |- preserves _ (match ?x with _ => _ end) =>
      destruct x eqn:?; pres_walk side
  | |- preserves _ (except_value_or_type _ _) =>
      apply preserves_except_value_or_type; pres_walk side
  | |- preserves _ (try_except _ _) =>
      apply preserves_try_except; [pres_walk side | intros ?; pres_walk side]
  | |- preserves _ (set_loc _ _) =>
      apply preserves_set_loc; side
  | |- preserves _ _ => solve [auto with pres]
  end.

(** The rules with their helpers unfolded, ready to be walked. *)
Ltac open_rule :=
  unfold _process_ph_and_chloride, is_concrete_environment, concrete_ph, solution_ph,
    _process_concrete_indicator, _process_diameter, _process_load,
    stress_or_strain_load, _process_fiber_content, _process_material_types,
    _process_surface_treatment, _process_other_features, copy_feature, init_features;
  cbn [for_each feature_mappings fst snd].

(** ** Frame properties: a column no rule writes keeps its cell *)

Definition keeps (col : string) (cell : option value) (r : row) : Prop :=
  r !! col = cell.

Lemma keeps_insert col cell c v r :
  c ≠ col → keeps col cell r → keeps col cell (<[c := v]> r).
Proof. unfold keeps. intros Hne <-. now apply lookup_insert_ne. Qed.

Ltac other_column :=
  intros; apply keeps_insert; [discriminate | assumption].

(** [type_of_load] is read, never written, up to the load rule. *)
Lemma before_load_keeps_type_of_load cell :
  preserves (keeps "type_of_load" cell)
    (_process_ph_and_chloride;; _process_concrete_indicator;; _process_diameter).
Proof. open_rule. pres_walk other_column. Qed.

(** No rule after the load rule writes [load_value]. *)
Lemma after_load_keeps_load_value cell :
  preserves (keeps "load_value" cell)
    (_process_fiber_content;; _process_material_types;;
     _process_surface_treatment;; _process_other_features).
Proof. open_rule. pres_walk other_column. Qed.

End DerivationFacts.

Module LoadFacts.
Import Py Frame FRPDataPreprocessor PyFacts DerivationFacts.
Local Open Scope py_scope.

(** ** The row after [init_features] *)

Lemma init_columns (cols : list string) (r : row) (c : string) :
  let out := for_each cols
               (λ col : string,
                  has ← has_col col; if has : bool then mret tt else set_loc col NaN) r in
  out.1 = Ok tt ∧
  out.2 !! c = if bool_decide (c ∈ cols) then Some (cell_or_nan r c) else r !! c.
Proof.
  revert r. induction cols as [|x cols IH]; intros r; simpl.
  - now split.
  - assert (Hstep : ∃ s,
      bind (has_col x) (λ has : bool, if has then mret tt else set_loc x NaN) r = (Ok tt, s)
      ∧ s !! x = Some (cell_or_nan r x) ∧ ∀ c', c' ≠ x → s !! c' = r !! c').
    { unfold bind, has_col, cell_or_nan. destruct (r !! x) as [v|] eqn:Hx.
      - rewrite bool_decide_true by eauto. exists r. now rewrite Hx.
      - rewrite bool_decide_false by (now intros [? ?]).
        exists (<[x := NaN]> r).
        split; [reflexivity|]. split; [apply lookup_insert_eq|].
        intros c' Hc'. now apply lookup_insert_ne. }
    destruct Hstep as (s & Hstep & Hsx & Hs).
    rewrite (bind_ok _ _ _ _ _ Hstep).
    destruct (IH s) as [Hok Hlook]. split; [exact Hok|].
    rewrite Hlook. clear IH Hok Hlook Hstep.
    destruct (decide (c = x)) as [->|Hne].
    + rewrite (bool_decide_true (x ∈ x :: cols)) by set_solver.
      case_bool_decide; [|assumption].
      unfold cell_or_nan. now rewrite Hsx.
    + unfold cell_or_nan. rewrite Hs by assumption.
      rewrite (bool_decide_ext (c ∈ x :: cols) (c ∈ cols))
        by (rewrite elem_of_cons; tauto).
      reflexivity.
Qed.

Lemma init_features_ok (r : row) : (init_features r).1 = Ok tt.
Proof. apply (init_columns feature_columns r ""). Qed.

Lemma init_features_lookup (r : row) (c : string) :
  exec init_features r !! c
  = if bool_decide (c ∈ feature_columns) then Some (cell_or_nan r c) else r !! c.
Proof. apply (init_columns feature_columns r c). Qed.

Lemma exec_init_then {A} (m : M row A) (r : row) :
  exec (init_features;; m) r = exec m (exec init_features r).
Proof.
  unfold exec, bind. pose proof (init_features_ok r) as H.
  destruct (init_features r) as [[[]|e] s]; [reflexivity|discriminate].
Qed.

(** ** The row loop: what the [try] leaves *)

Lemma exec_try_continue (m : M row unit) (r : row) :
  exec (try_except m (λ _, mret tt)) r = exec m r.
Proof. unfold exec, try_except. now destruct (m r) as [[[]|e] s]. Qed.

Definition before_load : M row unit :=
  _process_ph_and_chloride;; _process_concrete_indicator;; _process_diameter.

Definition after_load : M row unit :=
  _process_fiber_content;; _process_material_types;;
  _process_surface_treatment;; _process_other_features.

Lemma rules_around_load (r : row) :
  for_each rules id r = (before_load;; _process_load;; after_load) r.
Proof.
  unfold before_load, after_load, rules. cbn [for_each]. unfold bind, id.
  repeat match goal with
         | |- context [match ?m ?s with _ => _ end] =>
             lazymatch m with
             | _process_ph_and_chloride => idtac | _process_concrete_indicator => idtac
             | _process_diameter => idtac | _process_load => idtac
             | _process_fiber_content => idtac | _process_material_types => idtac
             | _process_surface_treatment => idtac | _process_other_features => idtac
             end;
             destruct (m s) as [[[]|?] ?]; try reflexivity
         end.
Qed.

(** ** The load rule *)

(** C8. On every row whose [type_of_load] cell is the string ["preloading"],
    [_process_load] returns normally and writes exactly 0 to [load_value],
    whatever the stress/strain mode, the load value, the modulus and the
    ultimate tensile strength in the row are; it touches nothing else. *)
Theorem preloading_load_is_zero (r : row) :
  r !! "type_of_load" = Some (VStr "preloading") →
  _process_load r = (Ok tt, <["load_value" := VInt 0]> r).
Proof.
  intros H. unfold _process_load, bind, has_col, loc.
  rewrite bool_decide_true by (rewrite H; eauto).
  cbn. rewrite H. reflexivity.
Qed.

Definition preloaded_row : row :=
  list_to_map [("type_of_load", VStr "preloading"); ("stress_or_strain", VStr "stress");
               ("value_load", VFloat 300); ("ultimate_tensile_strength", VFloat 1000)].

Lemma preloading_load_is_zero_witness :
  preloaded_row !! "type_of_load" = Some (VStr "preloading")
  ∧ _process_load preloaded_row = (Ok tt, <["load_value" := VInt 0]> preloaded_row).
Proof.
  split; [reflexivity|].
  apply (preloading_load_is_zero preloaded_row). reflexivity.
Defined.

(** Without the preloading mark the same row gets the stress ratio. *)
Example stress_load_example :
  exec _process_load (delete "type_of_load" preloaded_row) !! "load_value"
  = Some (VFloat 0.3).
Proof. vm_compute. reflexivity. Qed.

(** In the whole derivation: when the three rules that run before the load
    rule return normally on a record marked as preloading, the derived record
    has load fraction 0, whatever the later rules do. *)
Lemma preloading_load_in_derived_record (raw s : row) :
  raw !! "type_of_load" = Some (VStr "preloading") →
  before_load (exec init_features raw) = (Ok tt, s) →
  exec (init_features;; derive_row) raw !! "load_value" = Some (VInt 0).
Proof.
  intros Hraw Hbefore.
  rewrite exec_init_then. unfold derive_row. rewrite exec_try_continue.
  unfold exec at 1. rewrite rules_around_load.
  rewrite (bind_ok _ _ _ _ _ Hbefore).
  assert (Hs : s !! "type_of_load" = Some (VStr "preloading")).
  { pose proof (before_load_keeps_type_of_load (Some (VStr "preloading"))
                  (exec init_features raw)) as Hk.
    fold before_load in Hk. rewrite Hbefore in Hk. apply Hk.
    unfold keeps. rewrite init_features_lookup.
    rewrite bool_decide_false; [assumption|].
    vm_compute. intros H. repeat (apply elem_of_cons in H as [H|H]; [discriminate|]).
    now apply elem_of_nil in H. }
  rewrite (bind_ok _ _ _ _ _ (preloading_load_is_zero s Hs)).
  apply (after_load_keeps_load_value (Some (VInt 0))).
  apply lookup_insert_eq.
Qed.

End LoadFacts.

Module CanonicalFacts.
Import Py Frame FRPDataPreprocessor PyFacts DerivationFacts LoadFacts.
Local Open Scope py_scope.

(** ** Arithmetic on cells yields numbers *)

Lemma result_bind_ok {A B} (m : result A) (f : A → result B) (b : B) :
  m ≫= f = Ok b → ∃ a, m = Ok a ∧ f a = Ok b.
Proof. destruct m as [a|e]; [eauto|discriminate]. Qed.

Lemma arith_number iop fop a b v :
  (∀ x y w, iop x y = Ok w → is_number w = true) →
  (∀ x y w, fop x y = Ok w → is_number w = true) →
  arith iop fop a b = Ok v → is_number v = true.
Proof.
  intros Hi Hf. unfold arith.
  destruct a as [x|x|x], b as [y|y|y]; try discriminate; eauto;
    intros H; apply result_bind_ok in H as (? & _ & H);
    apply result_bind_ok in H as (? & _ & H); eauto.
Qed.

Lemma add_number a b v : add a b = Ok v → is_number v = true.
Proof. apply arith_number; now intros ? ? ? [= <-]. Qed.

Lemma sub_number a b v : sub a b = Ok v → is_number v = true.
Proof. apply arith_number; now intros ? ? ? [= <-]. Qed.

Lemma mul_number a b v : mul a b = Ok v → is_number v = true.
Proof. apply arith_number; now intros ? ? ? [= <-]. Qed.

Lemma truediv_number a b v : truediv a b = Ok v → is_number v = true.
Proof.
  apply arith_number; intros x y w.
  - destruct (int_truediv x y); simpl; [now intros [= <-]|discriminate].
  - destruct (y =? 0)%float; [discriminate|now intros [= <-]].
Qed.

Lemma weight_of_volume_number V df dm v :
  weight_of_volume V df dm = Ok v → is_number v = true.
Proof.
  unfold weight_of_volume. intros H.
  repeat (apply result_bind_ok in H as (? & _ & H)).
  now apply truediv_number in H.
Qed.

Lemma is_real_number v : is_real v = true → is_number v = true.
Proof. unfold is_real. now intros [? _]%andb_true_iff. Qed.

(** ** What a row computation returns

    [returns Q m]: whenever [m] returns normally, what it returns satisfies [Q]. *)

Definition returns {A} (Q : A → Prop) (m : M row A) : Prop :=
  ∀ r a, (m r).1 = Ok a → Q a.

Lemma returns_ret {A} (Q : A → Prop) (a : A) : Q a → returns Q (mret a).
Proof. intros H r b [= <-]. exact H. Qed.

Lemma returns_lift {A} (Q : A → Prop) (x : result A) :
  (∀ a, x = Ok a → Q a) → returns Q (lift x).
Proof. intros H r a Ha. now apply H. Qed.

Lemma returns_bind {A B} (Q : B → Prop) (m : M row A) (k : A → M row B) :
  (∀ a, returns Q (k a)) → returns Q (bind m k).
Proof.
  intros Hk r b. unfold bind. destruct (m r) as [[a|e] s]; [apply Hk|discriminate].
Qed.

Ltac returns_walk side :=
  lazymatch goal with
  | |- returns _ (bind _ _) => apply returns_bind; intros ?; returns_walk side
  | |- returns _ (if ?b then _ else _) => destruct b eqn:?; returns_walk side
  | |- returns _ (mret _) => apply returns_ret; side
  | |- returns _ (lift _) => apply returns_lift; side
  end.

(** The value [stress_or_strain_load] hands to [load_value] is a number. *)
Lemma stress_or_strain_load_number : returns (λ v, is_number v = true) stress_or_strain_load.
Proof.
  unfold stress_or_strain_load.
  returns_walk ltac:(first
    [ reflexivity
    | intros ? H; repeat (apply result_bind_ok in H as (? & _ & H));
      now apply truediv_number in H ]).
Qed.

(** ** What the rules write into the canonical fields *)

Definition flag_columns : list string :=
  ["Chloride_ion"; "concrete"; "Glass_or_Basalt"; "Vinyl_ester_or_Epoxy";
   "surface_treatment"].

(** A value a rule writes into canonical field [c]: 0 or 1 for the five flag
    fields, an [int] or a [float] for the other nine. *)
Definition written (c : string) (v : value) : Prop :=
  if bool_decide (c ∈ flag_columns) then v = VInt 0 ∨ v = VInt 1
  else is_number v = true.

(** The initial content of a canonical field: the raw cell of the column of
    that name, or [np.nan] when the raw record has no such column. *)
Definition canonical (raw : row) (c : string) (d : row) : Prop :=
  ∃ v, d !! c = Some v ∧ (written c v ∨ v = cell_or_nan raw c).

Definition canonical_inv (raw d : row) : Prop :=
  Forall (λ c, canonical raw c d) feature_columns.

Lemma canonical_inv_insert raw c v d :
  (bool_decide (c ∈ feature_columns) = true → written c v) →
  canonical_inv raw d → canonical_inv raw (<[c := v]> d).
Proof.
  intros Hw. unfold canonical_inv. rewrite !Forall_forall.
  intros Hd c' Hc'. destruct (decide (c = c')) as [<-|Hne].
  - exists v. split; [apply lookup_insert_eq|]. left. apply Hw.
    now apply bool_decide_eq_true.
  - destruct (Hd c' Hc') as (w & Hw' & Hor). exists w.
    split; [|assumption]. now rewrite lookup_insert_ne.
Qed.

Lemma canonical_inv_init raw : canonical_inv raw (exec init_features raw).
Proof.
  unfold canonical_inv. rewrite Forall_forall. intros c Hc.
  exists (cell_or_nan raw c). split; [|now right].
  rewrite init_features_lookup. now rewrite bool_decide_true.
Qed.

Ltac absurd_branch :=
  match goal with
  | H : true = false |- _ => discriminate H
  | H : false = true |- _ => discriminate H
  | H : bool_decide _ = _ |- _ => vm_compute in H; discriminate H
  end.

(** Settles a write [df.loc[idx, c] = v]: either [c] is no canonical field,
    or [v] is a value of the kind the field takes. *)
Ltac write_ok :=
  intros; apply canonical_inv_insert; [|assumption];
  first
    [ absurd_branch
    | let Hc := fresh in
      intros Hc; first [ vm_compute in Hc; discriminate Hc | clear Hc ];
      unfold written;
      match goal with
      | |- context [bool_decide (?c ∈ flag_columns)] =>
          let b := eval vm_compute in (bool_decide (c ∈ flag_columns)) in
          change (bool_decide (c ∈ flag_columns)) with b
      end;
      cbn iota;
      solve [ reflexivity
            | now left | now right
            | now apply is_real_number
            | assumption
            | case_bool_decide; auto ] ].

Section Rules.
Context (raw : row).

Lemma preserves_bind_post {A B} (I : row → Prop) (m : M row A) (k : A → M row B)
    (Q : A → Prop) :
  preserves I m → (∀ r a, (m r).1 = Ok a → Q a) →
  (∀ a, Q a → preserves I (k a)) → preserves I (bind m k).
Proof.
  intros Hm HQ Hk r Hr. unfold bind.
  specialize (Hm r Hr). specialize (HQ r).
  destruct (m r) as [[a|e] s]; simpl in *; [|assumption].
  apply Hk; auto.
Qed.

Lemma ph_rule_canonical : preserves (canonical_inv raw) _process_ph_and_chloride.
Proof. open_rule. pres_walk write_ok. Qed.

Lemma concrete_rule_canonical : preserves (canonical_inv raw) _process_concrete_indicator.
Proof. open_rule. pres_walk write_ok. Qed.

Lemma diameter_rule_canonical : preserves (canonical_inv raw) _process_diameter.
Proof.
  open_rule.
  apply preserves_bind; [auto with pres|]. intros has.
  apply preserves_bind; [pres_walk write_ok|]. intros [|]; [auto with pres|].
  apply preserves_bind; [auto with pres|]. intros [|]; [|auto with pres].
  apply preserves_bind; [auto with pres|]. intros area.
  destruct (_ && _); [|auto with pres].
  apply (preserves_bind_post _ _ _ (λ v, is_number v = true)); [auto with pres| |].
  - intros r v H. cbn in H.
    repeat (apply result_bind_ok in H as (? & _ & H)).
    first [now apply mul_number in H | now injection H as <-].
  - intros v Hv. apply preserves_set_loc. intros. apply canonical_inv_insert; auto.
Qed.

Lemma load_rule_canonical : preserves (canonical_inv raw) _process_load.
Proof.
  unfold _process_load.
  apply preserves_bind; [auto with pres|]. intros has.
  apply preserves_bind; [pres_walk write_ok|]. intros [|]; [pres_walk write_ok|].
  apply (preserves_bind_post _ _ _ (λ v, is_number v = true)).
  - unfold stress_or_strain_load. pres_walk write_ok.
  - exact stress_or_strain_load_number.
  - intros v Hv. apply preserves_set_loc. intros. apply canonical_inv_insert; auto.
Qed.

Lemma fiber_rule_canonical : preserves (canonical_inv raw) _process_fiber_content.
Proof.
  open_rule.
  apply preserves_bind; [auto with pres|]. intros has.
  apply preserves_bind; [pres_walk write_ok|]. intros [|]; [auto with pres|].
  apply preserves_bind; [auto with pres|]. intros [|]; [|auto with pres].
  apply preserves_bind; [auto with pres|]. intros V.
  destruct (is_real V); [|auto with pres].
  apply preserves_bind; [auto with pres|]. intros ft.
  apply preserves_bind; [auto with pres|]. intros mt.
  apply (preserves_bind_post _ _ _ (λ v, is_number v = true)); [auto with pres| |].
  - intros r v H. cbn in H. now apply weight_of_volume_number in H.
  - intros v Hv. apply preserves_set_loc. intros. apply canonical_inv_insert; auto.
Qed.

Lemma material_rule_canonical : preserves (canonical_inv raw) _process_material_types.
Proof. open_rule. pres_walk write_ok. Qed.

Lemma surface_rule_canonical : preserves (canonical_inv raw) _process_surface_treatment.
Proof. open_rule. pres_walk write_ok. Qed.

Lemma other_rule_canonical : preserves (canonical_inv raw) _process_other_features.
Proof. open_rule. pres_walk write_ok. Qed.

Lemma derive_row_canonical : preserves (canonical_inv raw) derive_row.
Proof.
  unfold derive_row. apply preserves_try_except; [|auto with pres].
  apply preserves_for_each. unfold rules, id. intros rule Hrule.
  repeat (apply elem_of_cons in Hrule as [->|Hrule];
          [auto using ph_rule_canonical, concrete_rule_canonical,
             diameter_rule_canonical, load_rule_canonical, fiber_rule_canonical,
             material_rule_canonical, surface_rule_canonical, other_rule_canonical|]).
  now apply elem_of_nil in Hrule.
Qed.
End Rules.

End CanonicalFacts.

Module DerivedRecordFacts.
Import Py Frame FRPDataPreprocessor PyFacts DerivationFacts LoadFacts CanonicalFacts.
Local Open Scope py_scope.

(** ** The canonical fields of a derived record *)

(** C2 (as amended). After feature derivation every canonical field of
    every record exists and holds either a value its rule wrote (0 or 1 in
    the five flag fields, an [int] or [float] number in the other nine) or
    its initial content: the raw cell of the input column of the same name,
    [np.nan] when the input has no such column. *)
Theorem canonical_fields_written_or_initial (df : frame) :
  Forall2
    (λ raw d,
       Forall (λ c, ∃ v, d !! c = Some v ∧ (written c v ∨ v = cell_or_nan raw c))
              feature_columns)
    df (create_selected_features df).
Proof.
  unfold create_selected_features.
  apply Forall2_fmap_r, Forall_Forall2_diag, Forall_forall.
  intros raw _. unfold compose. rewrite exec_init_then.
  apply (derive_row_canonical raw), canonical_inv_init.
Qed.

(** What the claim lets a canonical field hold: a finite number (the flags
    0 and 1 among them) or the missing marker. *)
Definition finite_or_missing (v : value) : bool :=
  match v with
  | VInt _ => true
  | VFloat f => negb (is_infinity f)
  | VStr _ => false
  end.

Definition ribbed_row : row :=
  list_to_map [("surface_treatment", VStr "ribbed"); ("time_field", VFloat 30)].

Definition not_reported_row : row :=
  list_to_map [("surface_treatment", VStr "Not reported"); ("time_field", VFloat 30)].

(** A surface treatment that is neither ["sand coated"] nor ["Smooth"] stays
    in the canonical field [surface_treatment] as the raw text; and the
    sentinel ["Not reported"], which the normaliser turns into ["Unknown"],
    stays there as that token. *)
Lemma raw_text_survives_derivation :
  "surface_treatment" ∈ feature_columns
  ∧ create_selected_features [ribbed_row] !! 0%nat ≫= (.!! "surface_treatment")
    = Some (VStr "ribbed")
  ∧ finite_or_missing (VStr "ribbed") = false
  ∧ create_selected_features (change_smd_to_nan [not_reported_row]) !! 0%nat
      ≫= (.!! "surface_treatment")
    = Some (VStr "Unknown")
  ∧ finite_or_missing (VStr "Unknown") = false.
Proof.
  split; [|repeat split; vm_compute; reflexivity].
  unfold feature_columns. rewrite !elem_of_cons. tauto.
Qed.

(** ** One [try] around the eight rules *)

(** C3 (as amended). When a rule raises on a record, the record is left as
    it was at that moment: the rules before it have written their fields, the
    rules after it do not run. The other records of the frame are derived as
    they would be without the failure. *)
Theorem exception_ends_the_record_only
    (df1 df2 : frame) (r s t : row) (before after : list (M row unit))
    (rule : M row unit) (e : exn) :
  rules = (before ++ rule :: after)%list →
  for_each before id (exec init_features r) = (Ok tt, s) →
  rule s = (Raise e, t) →
  create_selected_features (df1 ++ r :: df2)%list
  = (create_selected_features df1 ++ t :: create_selected_features df2)%list.
Proof.
  intros Hrules Hbefore Hrule.
  unfold create_selected_features. rewrite fmap_app, fmap_cons. do 2 f_equal.
  rewrite exec_init_then. unfold derive_row. rewrite exec_try_continue.
  unfold exec at 1. rewrite Hrules, for_each_app.
  rewrite (bind_ok _ _ _ _ _ Hbefore). cbn [for_each].
  unfold id at 1. now rewrite (bind_raise _ _ _ _ _ Hrule).
Qed.

(** A record whose fibre volume makes the conversion divide by zero:
    with the default densities 2.0 and 1.2,
    [-150 * 2.0 + (100 - -150) * 1.2 = 0.0]. *)
Definition negative_volume_row : row :=
  list_to_map [("Fiber_content_volume", VFloat (-150));
               ("surface_treatment", VStr "sand coated");
               ("time_field", VFloat 30)].

Definition first_four_rules_done : row :=
  exec (for_each (take 4 rules) id) (exec init_features negative_volume_row).

Lemma exception_ends_the_record_only_witness :
  (rules = (take 4 rules ++ _process_fiber_content :: drop 5 rules)%list
   ∧ for_each (take 4 rules) id (exec init_features negative_volume_row)
     = (Ok tt, first_four_rules_done)
   ∧ _process_fiber_content first_four_rules_done
     = (Raise ZeroDivisionError, first_four_rules_done))
  ∧ create_selected_features ([ribbed_row] ++ negative_volume_row :: [preloaded_row])%list
    = (create_selected_features [ribbed_row] ++ first_four_rules_done
        :: create_selected_features [preloaded_row])%list.
Proof.
  assert (H1 : rules = (take 4 rules ++ _process_fiber_content :: drop 5 rules)%list)
    by reflexivity.
  assert (H2 : for_each (take 4 rules) id (exec init_features negative_volume_row)
               = (Ok tt, first_four_rules_done)) by (vm_compute; reflexivity).
  assert (H3 : _process_fiber_content first_four_rules_done
               = (Raise ZeroDivisionError, first_four_rules_done))
    by (vm_compute; reflexivity).
  split; [auto|].
  exact (exception_ends_the_record_only [ribbed_row] [preloaded_row]
           negative_volume_row first_four_rules_done first_four_rules_done
           (take 4 rules) (drop 5 rules) _process_fiber_content ZeroDivisionError
           H1 H2 H3).
Defined.

(** The derivation the claim describes: each rule under a [try] of its own,
    so that a failure in one leaves the others to run. *)
Definition derive_row_isolated : M row unit :=
  for_each rules (λ rule, try_except rule (λ _, mret tt)).

(** On [negative_volume_row] the fibre-content rule raises, and the two
    rules after it that have something to write do not run:
    [surface_treatment] keeps its text and [condition_time] stays missing,
    where rule-by-rule isolation would have written 0 and 30. *)
Lemma failure_skips_later_rules :
  let d := exec (init_features;; derive_row) negative_volume_row in
  let d' := exec (init_features;; derive_row_isolated) negative_volume_row in
  (d !! "surface_treatment" = Some (VStr "sand coated")
   ∧ d !! "condition_time" = Some NaN)
  ∧ (d' !! "surface_treatment" = Some (VInt 0)
     ∧ d' !! "condition_time" = Some (VFloat 30))
  ∧ d ≠ d'.
Proof.
  cbv zeta.
  assert (H1 : exec (init_features;; derive_row) negative_volume_row
                 !! "surface_treatment" = Some (VStr "sand coated"))
    by (vm_compute; reflexivity).
  assert (H2 : exec (init_features;; derive_row_isolated) negative_volume_row
                 !! "surface_treatment" = Some (VInt 0))
    by (vm_compute; reflexivity).
  repeat split; try assumption; try (vm_compute; reflexivity).
  intros Heq. rewrite Heq in H1. rewrite H1 in H2. discriminate H2.
Qed.

End DerivedRecordFacts.

(* ===================================================================== *)
(** * Part IX. Floating-point facts                                       *)
(* ===================================================================== *)

Module FloatFacts.
Import Py.

(** ** Numeric equality with a given double is equality, zero apart *)



End FloatFacts.

Module FiberContentFacts.
Import Py Frame FRPDataPreprocessor PyFacts FloatFacts.
Local Open Scope py_scope.















End FiberContentFacts.

(* ===================================================================== *)
(** * Part X. The predictor                                               *)
(* ===================================================================== *)

Module PredictorFacts.
Import Py Frame FRPPredictor PyFacts.
Local Open Scope py_scope.

Lemma print_eq (l : line) (out : list line) : print l out = (Ok tt, (out ++ [l])%list).
Proof. reflexivity. Qed.

(** ** No exception leaves the fallback, nor [predict_single] *)

Lemma emergency_fallback_returns (p : predictor) (x : input_data) (out : list line) :
  ∃ o out', _emergency_prediction_fallback p x out = (Ok o, out').
Proof.
  unfold _emergency_prediction_fallback, try_except.
  destruct (fallback_body p x out) as [[o|e] out1]; eauto.
Qed.

Lemma emergency_fallback_failed (p : predictor) (x : input_data) (out out1 : list line) e :
  fallback_body p x out = (Raise e, out1) →
  _emergency_prediction_fallback p x out
  = (Ok None, (out1 ++ [EmergencyFallbackFailed e])%list).
Proof.
  intros H. unfold _emergency_prediction_fallback.
  now rewrite (try_except_raise _ _ _ _ _ H).
Qed.

(** C10. [predict_single] never lets an exception reach its caller: for
    every predictor state, input and console, it returns a float or [None].
    It returns [None] when no model is loaded, and when the emergency
    fallback fails while the standard path has not produced a prediction. *)
Theorem predict_single_never_raises (p : predictor) (x : input_data) (out : list line) :
  (∃ o out', predict_single p x out = (Ok o, out'))
  ∧ (the_model p = None →
     predict_single p x out = (Ok None, (out ++ [NoModelLoadedForPrediction])%list))
  ∧ (∀ m, the_model p = Some m →
     (∀ out0, ∃ e out1, fallback_body p x out0 = (Raise e, out1)) →
     (∀ y out1, predict_body p m x out ≠ (Ok (Some y), out1)) →
     (predict_single p x out).1 = Ok None).
Proof.
  unfold predict_single. destruct (the_model p) as [m|] eqn:Hm.
  - assert (Hcases : ∀ e out1,
      bind (print (PredictionFailed e)) (λ _, _emergency_prediction_fallback p x) out1
      = _emergency_prediction_fallback p x (out1 ++ [PredictionFailed e])%list)
      by reflexivity.
    split; [|split; [discriminate|]].
    + unfold try_except. destruct (predict_body p m x out) as [[o|e] out1]; [eauto|].
      rewrite Hcases. apply emergency_fallback_returns.
    + intros m' [= <-] Hfallback Hstandard. unfold try_except.
      destruct (predict_body p m x out) as [[[y|]|e] out1] eqn:Hbody.
      * now destruct (Hstandard y out1).
      * reflexivity.
      * rewrite Hcases.
        destruct (Hfallback (out1 ++ [PredictionFailed e])%list) as (e' & out2 & H).
        now rewrite (emergency_fallback_failed _ _ _ _ _ H).
  - split; [eauto|]. split; [reflexivity|discriminate].
Qed.

(** ** Missing features *)

(** What the loaded artifact requires of the input, as
    [standardize_prediction_features] reads it: the [feature_names] of a
    pipeline, the numeric and categorical features of a bare model; [None]
    when the feature information does not say. *)
Definition required_features (p : predictor) (m : model) : option (list string) :=
  if named_steps m then
    if truthy (feature_info p)
       && bool_decide (is_Some (feature_info p ≫= (.!! "feature_names")))
    then Some (info_get (feature_info p) "feature_names")
    else None
  else
    if truthy (feature_info p)
    then Some (info_get (feature_info p) "numeric_features"
               ++ info_get (feature_info p) "categorical_features")%list
    else None.

Lemma missing_from_spec (wanted have : list string) (c : string) :
  c ∈ missing_from wanted have ↔ c ∈ wanted ∧ c ∉ have.
Proof.
  unfold missing_from. rewrite elem_of_remove_dups, list_elem_of_filter. tauto.
Qed.

Lemma standardize_reports_missing (p : predictor) (m : model) (x : input_data)
    (df : frame) (req : list string) (out : list line) :
  the_model p = Some m →
  copy_input x = AFrame df →
  required_features p m = Some req →
  missing_from req (column_names df) ≠ [] →
  standardize_prediction_features p x out
  = (Ok None,
     (out ++ [if named_steps m then UsingPipelineModel else UsingPreprocessedModel;
              MissingRequiredFeatures (missing_from req (column_names df))])%list).
Proof.
  intros Hm Hx Hreq Hmissing.
  unfold standardize_prediction_features. rewrite Hm.
  unfold required_features in Hreq.
  assert (Hbody : standardize_body p m x out
    = (Ok None,
       (out ++ [if named_steps m then UsingPipelineModel else UsingPreprocessedModel;
                MissingRequiredFeatures (missing_from req (column_names df))])%list)).
  { unfold standardize_body. rewrite Hx.
    destruct (named_steps m).
    - rewrite (bind_ok _ _ _ _ _ (print_eq _ _)).
      destruct (truthy (feature_info p) && _); [|discriminate].
      injection Hreq as <-.
      erewrite bind_ok by reflexivity. cbn beta zeta.
      rewrite bool_decide_true by assumption.
      rewrite (bind_ok _ _ _ _ _ (print_eq _ _)).
      cbn. now rewrite <- app_assoc.
    - rewrite (bind_ok _ _ _ _ _ (print_eq _ _)).
      destruct (truthy (feature_info p)); [|discriminate].
      injection Hreq as <-. cbn [negb].
      erewrite bind_ok by reflexivity. cbn beta zeta.
      rewrite bool_decide_true by assumption.
      rewrite (bind_ok _ _ _ _ _ (print_eq _ _)).
      cbn. now rewrite <- app_assoc. }
  now rewrite (try_except_ok _ _ _ _ _ Hbody).
Qed.


End PredictorFacts.

Module PredictorExamples.
Import Py Frame FRPPredictor PyFacts PredictorFacts.
Local Open Scope py_scope.

(** A bare model fitted on two features, [0.5 + x1 + x2]; like a
    scikit-learn estimator it refuses an array of another width. *)
Definition two_feature_model : model := {|
  named_steps := false;
  predict := λ data,
    match data with
    | ArrayInput [[x1; x2]] => Ok [VFloat (0.5 + as_float x1 + as_float x2)%float]
    | _ => Raise (ModelError "X has a different number of features")
    end
|}.

Definition two_feature_predictor : predictor := {|
  the_model := Some two_feature_model;
  feature_info := Some {["numeric_features" := ["a"; "b"]]}
|}.

(** Feature [b] is missing, a column [c] nobody asked for is there. *)
Definition input_without_b : row :=
  list_to_map [("a", VFloat 1); ("c", VFloat 2)].



(** [predict_single] at work: the features all there, the model answers;
    an array of the wrong width, both paths fail and the answer is [None]. *)
Example predict_single_complete_input :
  predict_single two_feature_predictor
    (Dict (list_to_map [("a", VFloat 1); ("b", VFloat 2)])) []
  = (Ok (Some 3.5%float), [UsingPreprocessedModel; FeatureProcessing 2 0]).
Proof. vm_compute. reflexivity. Qed.

Example predict_single_both_paths_fail :
  predict_single two_feature_predictor (Dict (list_to_map [("a", VFloat 1)])) []
  = (Ok None,
     [UsingPreprocessedModel; MissingRequiredFeatures ["b"]; UsingEmergencyFallback;
      EmergencyFallbackFailed (ModelError "X has a different number of features")]).
Proof. vm_compute. reflexivity. Qed.

End PredictorExamples.

Module PipelineFacts.
Import Py Frame FRPDataPreprocessor FRPPredictor FRPPredictionPipeline.
Import PyFacts NormalizerFacts DerivationFacts LoadFacts.
Local Open Scope py_scope.

(** A new record to predict for: exposure and material data, and, as it is
    the quantity asked for, no retention. *)
Definition new_record : row :=
  list_to_map [("time_field", VFloat 365); ("temperature", VFloat 25);
               ("diameter", VFloat 12); ("Fiber_type", VStr "Glass");
               ("Matrix_type", VStr "Epoxy")].

(** C5. On the new record, which has no retention value, feature derivation
    does give a canonical vector, but [preprocess_data] then drops the row
    for want of a target, and [predict_from_raw_data] answers, for every
    predictor, ["Data preprocessing failed"] with no prediction. *)
Theorem no_prediction_for_new_record (p : predictor) (out : list line) :
  (create_selected_features [new_record] !! 0%nat ≫= (.!! "condition_time")
     = Some (VFloat 365)
   ∧ preprocess_data [new_record] = Ok [])
  ∧ predict_from_raw_data p (Dict new_record) out
    = (Ok (failure (Text "Data preprocessing failed")), out).
Proof.
  assert (H : preprocess_data [new_record] = Ok []) by (vm_compute; reflexivity).
  split; [split; [vm_compute; reflexivity|exact H]|].
  unfold predict_from_raw_data, try_except, bind, lift, preprocess_raw. cbn [copy_input].
  now rewrite H.
Qed.

(** ** The same for every record without a retention value *)

Definition no_target (r : row) : Prop :=
  r !! "Tensile_strength_retention" = Some NaN ∧ r !! "retention1" = None.

Lemma no_target_insert c v r :
  c ≠ "Tensile_strength_retention" → c ≠ "retention1" →
  no_target r → no_target (<[c := v]> r).
Proof.
  intros H1 H2 [Ht Hr]. split.
  - now rewrite lookup_insert_ne.
  - now rewrite lookup_insert_ne.
Qed.

Ltac not_the_target :=
  intros; apply no_target_insert; [discriminate | discriminate | assumption].

Lemma copy_target_skipped :
  preserves no_target (copy_feature "Tensile_strength_retention" "retention1").
Proof.
  intros r [Ht Hr]. unfold copy_feature, bind, has_col.
  rewrite bool_decide_false by (rewrite Hr; now intros [? ?]).
  now split.
Qed.

Lemma copy_feature_elsewhere new_col old_col :
  new_col ≠ "Tensile_strength_retention" → new_col ≠ "retention1" →
  preserves no_target (copy_feature new_col old_col).
Proof.
  intros H1 H2. unfold copy_feature.
  pres_walk ltac:(intros; apply no_target_insert; assumption).
Qed.

Lemma derive_row_no_target : preserves no_target derive_row.
Proof.
  unfold derive_row. apply preserves_try_except; [|auto with pres].
  apply preserves_for_each. unfold rules, id. intros rule Hrule.
  repeat (apply elem_of_cons in Hrule as [->|Hrule];
          [first [ solve [open_rule; pres_walk not_the_target] | idtac ]|]).
  - unfold _process_other_features. apply preserves_for_each.
    intros [new_col old_col] Hin. unfold feature_mappings in Hin. cbn [fst snd].
    repeat (apply elem_of_cons in Hin as [[= -> ->]|Hin];
            [first [ apply copy_target_skipped
                   | apply copy_feature_elsewhere; discriminate ]|]).
    now apply elem_of_nil in Hin.
  - now apply elem_of_nil in Hrule.
Qed.

Lemma derived_has_no_target (r : row) :
  r !! "retention1" = None → r !! "Tensile_strength_retention" = None →
  no_target (exec (init_features;; derive_row) r).
Proof.
  intros Hr Ht. rewrite exec_init_then. apply derive_row_no_target.
  split; rewrite init_features_lookup.
  - rewrite bool_decide_true by (apply (bool_decide_unpack _); vm_compute; reflexivity).
    unfold cell_or_nan. now rewrite Ht.
  - rewrite bool_decide_false; [assumption|].
    apply (bool_decide_unpack _). vm_compute. reflexivity.
Qed.

Lemma model_row_target (idx : nat) (d : row) :
  cell_or_nan (model_row idx d) "Tensile_strength_retention"
  = cell_or_nan d "Tensile_strength_retention".
Proof.
  unfold model_row, model_columns, cell_or_nan at 1. cbn [fmap list_fmap list_to_map foldr].
  cbn [bool_decide decide_rel]. 
  rewrite lookup_insert_ne by discriminate.
  rewrite lookup_insert_ne by discriminate.
  now rewrite lookup_insert_eq.
Qed.

(** A single record without target leaves [create_model_dataset] empty. *)
Lemma dataset_of_targetless_record (d : row) :
  no_target d → create_model_dataset [d] = [].
Proof.
  intros [Ht _]. unfold create_model_dataset. cbn [imap].
  assert (Hfilter : filter (λ r : row, has_target r = true) [model_row 0 d] = []).
  { rewrite filter_cons, filter_nil.
    rewrite decide_False; [reflexivity|].
    unfold has_target. rewrite model_row_target. unfold cell_or_nan.
    rewrite Ht. cbn. discriminate. }
  rewrite Hfilter. cbn [fmap list_fmap length].
  change ((0 <? 50)%nat) with true. cbn iota.
  destruct (length _ <? 100)%nat eqn:Hlen; [reflexivity|].
  exfalso. apply Nat.ltb_ge in Hlen.
  pose proof (length_filter (λ cells : list value, negb (all_missing cells))
                [final_cells (model_row 0 d)]) as Hle.
  cbn [length] in Hle. cbn [fmap list_fmap] in Hlen. lia.
Qed.

(** For every single new record that brings no retention value, whatever
    else it holds and whatever predictor is loaded, [predict_from_raw_data]
    answers with a failure and no prediction. *)
Lemma no_prediction_without_target (p : predictor) (r : row) (out : list line) :
  r !! "retention1" = None → r !! "Tensile_strength_retention" = None →
  ∃ why, predict_from_raw_data p (Dict r) out = (Ok (failure why), out).
Proof.
  intros Hr Ht.
  unfold predict_from_raw_data, preprocess_raw. cbn [copy_input].
  unfold preprocess_data, validate_dataframe.
  destruct (empty [r]).
  - eexists. reflexivity.
  - cbn [mbind result_bind]. rewrite parse_range_to_mean_unchanged.
    cbn [mbind result_bind change_smd_to_nan fmap list_fmap].
    unfold create_selected_features. cbn [fmap list_fmap].
    rewrite dataset_of_targetless_record.
    + eexists. reflexivity.
    + apply derived_has_no_target; rewrite lookup_fmap.
      * now rewrite Hr.
      * now rewrite Ht.
Qed.

End PipelineFacts.

(* ===================================================================== *)
(** * Part XI. The partitioner: sizes and parts of the two splits         *)
(* ===================================================================== *)

(** scikit-learn sizes a part as [ceil(test_size * n_samples)], in binary
    floating point. [RoundingFacts] follows the rounding of that product
    through [SpecFloat]; [PartitionFacts] takes the sizes from there. *)

Module RoundingFacts.
Import Py.

(** ** Binary digits *)

Lemma digits2_pos_bounds (p : positive) :
  2 ^ (Z.pos (digits2_pos p) - 1) <= Z.pos p < 2 ^ Z.pos (digits2_pos p).
Proof.
  induction p as [p IH|p IH|]; cbn [digits2_pos].
  - rewrite Pos2Z.inj_succ.
    replace (Z.succ (Z.pos (digits2_pos p)) - 1) with (Z.succ (Z.pos (digits2_pos p) - 1)) by lia.
    rewrite !Z.pow_succ_r by lia.
    destruct IH as [IH1 IH2]. revert IH1 IH2.
    generalize (2 ^ (Z.pos (digits2_pos p) - 1)) (2 ^ Z.pos (digits2_pos p)). lia.
  - rewrite Pos2Z.inj_succ.
    replace (Z.succ (Z.pos (digits2_pos p)) - 1) with (Z.succ (Z.pos (digits2_pos p) - 1)) by lia.
    rewrite !Z.pow_succ_r by lia.
    destruct IH as [IH1 IH2]. revert IH1 IH2.
    generalize (2 ^ (Z.pos (digits2_pos p) - 1)) (2 ^ Z.pos (digits2_pos p)). lia.
  - cbn. lia.
Qed.

Lemma digits2_pos_unique (p : positive) (k : Z) :
  2 ^ (k - 1) <= Z.pos p < 2 ^ k → Z.pos (digits2_pos p) = k.
Proof.
  intros [Hlo Hhi]. pose proof (digits2_pos_bounds p) as [Hlo' Hhi'].
  set (d := Z.pos (digits2_pos p)) in *.
  assert (Hd : 0 < d) by (subst d; lia).
  destruct (Z.lt_trichotomy d k) as [Hlt|[Heq|Hgt]]; [|assumption|].
  - assert (2 ^ d <= 2 ^ (k - 1)) by (apply Z.pow_le_mono_r; lia).
    exfalso. revert Hlo Hhi' H. generalize (2 ^ d) (2 ^ (k - 1)). lia.
  - destruct (Z.le_gt_cases 0 k) as [Hk|Hk].
    + assert (2 ^ k <= 2 ^ (d - 1)) by (apply Z.pow_le_mono_r; lia).
      exfalso. revert Hhi Hlo' H. generalize (2 ^ k) (2 ^ (d - 1)). lia.
    + rewrite (Z.pow_neg_r 2 k) in Hhi by lia. lia.
Qed.

Lemma iter_xO (p d : positive) : Z.pos (Pos.iter xO p d) = Z.pos p * 2 ^ Z.pos d.
Proof.
  induction d as [|d IH] using Pos.peano_ind.
  - cbn. lia.
  - rewrite Pos.iter_succ, Pos2Z.inj_xO, IH, Pos2Z.inj_succ, Z.pow_succ_r by lia. lia.
Qed.

(** ** Shifting right *)

Lemma shr_1_m (mrs : shr_record) :
  0 <= shr_m mrs → shr_m (shr_1 mrs) = shr_m mrs / 2 ∧ 0 <= shr_m (shr_1 mrs).
Proof.
  destruct mrs as [m r s]. cbn [shr_m]. intros Hm.
  destruct m as [|[p|p|]|p]; cbn [shr_1 shr_m]; try lia; (split; [|lia]).
  - reflexivity.
  - apply Z.div_unique with 1; lia.
  - apply Z.div_unique with 0; lia.
  - reflexivity.
Qed.

Lemma pow2_xI (n : positive) : 2 ^ Z.pos n~1 = 2 * (2 ^ Z.pos n * 2 ^ Z.pos n).
Proof.
  replace (Z.pos n~1) with (1 + (Z.pos n + Z.pos n)) by lia.
  rewrite Z.pow_add_r by lia. rewrite Z.pow_add_r by lia. reflexivity.
Qed.

Lemma pow2_xO (n : positive) : 2 ^ Z.pos n~0 = 2 ^ Z.pos n * 2 ^ Z.pos n.
Proof.
  replace (Z.pos n~0) with (Z.pos n + Z.pos n) by lia.
  now rewrite Z.pow_add_r by lia.
Qed.

Lemma pow2_pos (k : Z) : 0 <= k → 0 < 2 ^ k.
Proof. intros. now apply Z.pow_pos_nonneg. Qed.

Lemma iter_pos_shr_1 (n : positive) (mrs : shr_record) :
  0 <= shr_m mrs →
  shr_m (SpecFloat.iter_pos shr_1 n mrs) = shr_m mrs / 2 ^ Z.pos n
  ∧ 0 <= shr_m (SpecFloat.iter_pos shr_1 n mrs).
Proof.
  revert mrs. induction n as [n IH|n IH|]; intros mrs Hm; cbn [SpecFloat.iter_pos].
  - destruct (shr_1_m mrs Hm) as [E1 P1].
    destruct (IH _ P1) as [E2 P2]. destruct (IH _ P2) as [E3 P3].
    split; [|assumption]. rewrite E3, E2, E1, pow2_xI.
    pose proof (pow2_pos (Z.pos n) ltac:(lia)).
    rewrite !Z.div_div by lia. reflexivity.
  - destruct (IH _ Hm) as [E2 P2]. destruct (IH _ P2) as [E3 P3].
    split; [|assumption]. rewrite E3, E2, pow2_xO.
    pose proof (pow2_pos (Z.pos n) ltac:(lia)).
    rewrite !Z.div_div by lia. reflexivity.
  - destruct (shr_1_m mrs Hm) as [E1 P1]. split; [|assumption]. now rewrite E1.
Qed.

Lemma round_nearest_even_cases (m : Z) (l : location) :
  round_nearest_even m l = m ∨ round_nearest_even m l = m + 1.
Proof.
  destruct l as [|[]]; cbn; auto. destruct (Z.even m); auto.
Qed.


Lemma pow2_split (a b : Z) : 0 <= a → 0 <= b → 2 ^ (a + b) = 2 ^ a * 2 ^ b.
Proof. intros. now apply Z.pow_add_r. Qed.

Lemma shr_exact (m e n : Z) :
  0 <= m → 0 <= n →
  ∃ mrs, shr (shr_record_of_loc m loc_Exact) e n = (mrs, e + n)
         ∧ shr_m mrs = m / 2 ^ n
         ∧ (n = 0 → mrs = shr_record_of_loc m loc_Exact).
Proof.
  intros Hm Hn. destruct n as [|p|p]; [| |lia].
  - eexists. split; [|split; [|reflexivity]].
    + cbn [shr]. f_equal. lia.
    + cbn. now rewrite Z.div_1_r.
  - destruct (iter_pos_shr_1 p (shr_record_of_loc m loc_Exact)) as [E _]; [exact Hm|].
    eexists. split; [|split; [|lia]].
    + cbn [shr]. reflexivity.
    + exact E.
Qed.

Lemma shr_fexp_pos (m : positive) (e : Z) (l : location) :
  -1074 <= Z.pos (digits2_pos m) + e - 53 →
  shr_fexp prec emax (Z.pos m) e l
  = shr (shr_record_of_loc (Z.pos m) l) e (Z.pos (digits2_pos m) - 53).
Proof.
  intros H. unfold shr_fexp, fexp, emin, Zdigits2, prec, emax.
  rewrite Z.max_l by lia. f_equal. lia.
Qed.

(** Rounding an exact positive mantissa of at least 53 binary digits: the
    result is finite and its mantissa, at the scale of the shifted input, is
    the quotient or the quotient plus one. *)
Lemma binary_round_aux_spec (P : positive) (e : Z) :
  let sh := Z.pos (digits2_pos P) - 53 in
  0 <= sh → -1074 <= e + sh → e + sh < 971 →
  ∃ m e', binary_round_aux prec emax false (Z.pos P) e loc_Exact = S754_finite false m e'
    ∧ e + sh <= e'
    ∧ Z.pos P / 2 ^ sh <= Z.pos m * 2 ^ (e' - (e + sh)) <= Z.pos P / 2 ^ sh + 1
    ∧ (sh = 0 → m = P ∧ e' = e).
Proof.
  intros sh Hsh Hlo Hhi.
  pose proof (digits2_pos_bounds P) as [HP1 HP2].
  replace (Z.pos (digits2_pos P) - 1) with (sh + 52) in HP1 by (subst sh; lia).
  replace (Z.pos (digits2_pos P)) with (sh + 53) in HP2 by (subst sh; lia).
  rewrite pow2_split in HP1, HP2 by lia.
  pose proof (pow2_pos sh Hsh) as Hpow.
  assert (Hq1 : 2 ^ 52 <= Z.pos P / 2 ^ sh) by (apply Z.div_le_lower_bound; lia).
  assert (Hq2 : Z.pos P / 2 ^ sh < 2 ^ 53) by (apply Z.div_lt_upper_bound; lia).
  unfold binary_round_aux.
  rewrite shr_fexp_pos by (subst sh; lia). fold sh.
  destruct (shr_exact (Z.pos P) e sh) as (mrs & -> & Hm & Hexact); [lia|exact Hsh|].
  set (q := Z.pos P / 2 ^ sh) in *.
  assert (Hround : (round_nearest_even (shr_m mrs) (loc_of_shr_record mrs) = q
                    ∨ round_nearest_even (shr_m mrs) (loc_of_shr_record mrs) = q + 1)
                   ∧ (sh = 0 → round_nearest_even (shr_m mrs) (loc_of_shr_record mrs) = Z.pos P)).
  { split.
    - rewrite <- Hm. apply round_nearest_even_cases.
    - intros H0. rewrite (Hexact H0). reflexivity. }
  destruct Hround as [Hround Hround0].
  set (m1 := round_nearest_even (shr_m mrs) (loc_of_shr_record mrs)) in *.
  change (2 ^ 52) with 4503599627370496 in *.
  change (2 ^ 53) with 9007199254740992 in *.
  destruct m1 as [|p1|p1] eqn:Em1; [lia| |lia].
  destruct (Z.eq_dec (Z.pos p1) 9007199254740992) as [Hcarry|Hno].
  - (* the rounded mantissa is 2^53: one more shift *)
    assert (Hd : Z.pos (digits2_pos p1) = 54).
    { apply digits2_pos_unique. rewrite Hcarry. cbn. lia. }
    rewrite shr_fexp_pos by lia. rewrite Hd.
    destruct (shr_exact (Z.pos p1) (e + sh) (54 - 53)) as (mrs2 & -> & Hm2 & _); [lia|lia|].
    rewrite Hm2, Hcarry.
    change (9007199254740992 / 2 ^ (54 - 53)) with 4503599627370496.
    replace (e + sh + (54 - 53) <=? emax - prec) with true
      by (symmetry; apply Z.leb_le; unfold emax, prec; lia).
    eexists _, _. split; [reflexivity|]. split; [lia|]. split.
    + replace (e + sh + (54 - 53) - (e + sh)) with 1 by lia. lia.
    + intros H0. specialize (Hround0 H0).
      assert (q = Z.pos P) by (unfold q; rewrite H0; apply Z.div_1_r). lia.
  - assert (Hd : Z.pos (digits2_pos p1) = 53).
    { apply digits2_pos_unique. change (2 ^ (53 - 1)) with 4503599627370496.
      change (2 ^ 53) with 9007199254740992. lia. }
    rewrite shr_fexp_pos by lia. rewrite Hd.
    destruct (shr_exact (Z.pos p1) (e + sh) (53 - 53)) as (mrs2 & -> & Hm2 & _); [lia|lia|].
    rewrite Hm2. change (2 ^ (53 - 53)) with 1. rewrite Z.div_1_r.
    replace (e + sh + (53 - 53) <=? emax - prec) with true
      by (symmetry; apply Z.leb_le; unfold emax, prec; lia).
    eexists _, _. split; [reflexivity|]. split; [lia|]. split.
    + replace (e + sh + (53 - 53) - (e + sh)) with 0 by lia. lia.
    + intros H0. specialize (Hround0 H0). split; [congruence|lia].
Qed.


(** ** [math.ceil] of a positive finite float *)

Lemma ceil_finite_pos (f : float) (m : positive) (e E : Z) :
  Prim2SF f = S754_finite false m e → 0 <= E → - E <= e →
  ceil f = Ok (- ((- (Z.pos m * 2 ^ (e + E))) / 2 ^ E)).
Proof.
  intros Hf HE He. unfold ceil. rewrite Hf.
  pose proof (pow2_pos E HE) as HpE.
  destruct (0 <=? e) eqn:Hsign; f_equal.
  - apply Z.leb_le in Hsign. rewrite pow2_split by lia.
    rewrite Z.mul_assoc, <- Z.mul_opp_l, Z.div_mul by lia. lia.
  - apply Z.leb_gt in Hsign.
    replace (2 ^ E) with (2 ^ (- e) * 2 ^ (e + E))
      by (rewrite <- pow2_split by lia; f_equal; lia).
    pose proof (pow2_pos (- e) ltac:(lia)). pose proof (pow2_pos (e + E) ltac:(lia)).
    rewrite <- Z.mul_opp_l, Z.div_mul_cancel_r by lia. reflexivity.
Qed.

(** ** [float(n)] for an integer that fits the mantissa *)

Lemma float_of_int_exact (n : Z) :
  1 <= n < 2 ^ 53 →
  ∃ fn mn en, float_of_int n = Ok fn
    ∧ Prim2SF fn = S754_finite false mn en
    ∧ -52 <= en <= 0
    ∧ Z.pos mn = n * 2 ^ (- en)
    ∧ 2 ^ 52 <= Z.pos mn < 2 ^ 53.
Proof.
  intros [Hn1 Hn2]. destruct n as [|p|p]; [lia| |lia].
  pose proof (digits2_pos_bounds p) as [Hp1 Hp2].
  set (d := Z.pos (digits2_pos p)) in *.
  assert (Hd : 1 <= d <= 53).
  { split; [subst d; lia|].
    destruct (Z.le_gt_cases d 53) as [|Hgt]; [assumption|exfalso].
    assert (2 ^ 53 <= 2 ^ (d - 1)) by (apply Z.pow_le_mono_r; lia). lia. }
  assert (Haligned : ∃ mz, shl_align p 0 (fexp prec emax (d + 0)) = (mz, d - 53)
                     ∧ Z.pos mz = Z.pos p * 2 ^ (53 - d)).
  { unfold shl_align, fexp, emin, prec, emax. rewrite Z.max_l by lia.
    destruct (d + 0 - 53 - 0) as [|s|s] eqn:Es; [|lia|].
    - exists p. split; [f_equal; lia|]. replace (53 - d) with 0 by lia. lia.
    - eexists. split; [f_equal; lia|]. rewrite iter_xO. do 2 f_equal. lia. }
  destruct Haligned as (mz & Halign & Hmz).
  assert (Hmz_range : 2 ^ 52 <= Z.pos mz < 2 ^ 53).
  { rewrite Hmz.
    replace (2 ^ 52) with (2 ^ (d - 1) * 2 ^ (53 - d))
      by (rewrite <- pow2_split by lia; f_equal; lia).
    replace (2 ^ 53) with (2 ^ d * 2 ^ (53 - d))
      by (rewrite <- pow2_split by lia; f_equal; lia).
    pose proof (pow2_pos (53 - d) ltac:(lia)). nia. }
  assert (Hdz : Z.pos (digits2_pos mz) = 53) by (apply digits2_pos_unique; exact Hmz_range).
  destruct (binary_round_aux_spec mz (d - 53)) as (m & e' & Hround & _ & _ & Hsame);
    [lia|lia|lia|].
  destruct Hsame as [-> ->]; [lia|].
  assert (HSF : SF64 (Z.pos p) = S754_finite false mz (d - 53)).
  { unfold SF64, binary_normalize, binary_round. fold d. rewrite Halign. exact Hround. }
  exists (SF2Prim (S754_finite false mz (d - 53))), mz, (d - 53).
  split; [unfold float_of_int; now rewrite HSF|].
  split.
  { apply Prim2SF_SF2Prim. unfold valid_binary, bounded, canonical_mantissa.
    rewrite Hdz. unfold fexp, emin, prec, emax.
    apply andb_true_intro. split; [apply Z.eqb_eq|apply Z.leb_le]; lia. }
  split; [lia|]. split; [|exact Hmz_range].
  rewrite Hmz. do 2 f_equal. lia.
Qed.

(** ** [ceil(c * float(n))] for a float constant [c] below one *)

Lemma ceil_of_scaled_count (c : float) (mc : positive) (ec n : Z) :
  Prim2SF c = S754_finite false mc ec →
  2 ^ 52 <= Z.pos mc < 2 ^ 53 → -1074 <= ec <= -53 →
  1 <= n < 2 ^ 53 →
  ∃ fn T, float_of_int n = Ok fn ∧ ceil (c * fn) = Ok T
    ∧ Z.pos mc * n / 2 ^ (- ec) <= T <= Z.pos mc * n / 2 ^ (- ec) + 1
    ∧ 1 <= T.
Proof.
  intros Hc Hmc Hec Hn.
  destruct (float_of_int_exact n Hn) as (fn & mn & en & Hfn & HSF & Hen & Hmn & Hmn_range).
  exists fn.
  set (P := (mc * mn)%positive).
  set (sh := Z.pos (digits2_pos P) - 53).
  assert (HP : 2 ^ 104 <= Z.pos P < 2 ^ 106).
  { subst P. rewrite Pos2Z.inj_mul.
    change (2 ^ 104) with (2 ^ 52 * 2 ^ 52). change (2 ^ 106) with (2 ^ 53 * 2 ^ 53).
    split; [apply Z.mul_le_mono_nonneg|apply Z.mul_lt_mono_nonneg]; lia. }
  assert (Hsh : 52 <= sh <= 53).
  { pose proof (digits2_pos_bounds P) as [H1 H2]. subst sh.
    set (d := Z.pos (digits2_pos P)) in *. split.
    - destruct (Z.le_gt_cases 105 d) as [|Hlt]; [lia|exfalso].
      assert (2 ^ d <= 2 ^ 104) by (apply Z.pow_le_mono_r; lia). lia.
    - destruct (Z.le_gt_cases d 106) as [|Hgt]; [lia|exfalso].
      assert (2 ^ 106 <= 2 ^ (d - 1)) by (apply Z.pow_le_mono_r; lia). lia. }
  destruct (binary_round_aux_spec P (ec + en)) as (m & e' & Hround & He' & Hval & _);
    fold sh; [lia|lia|lia|]. fold sh in He', Hval.
  assert (Hprod : Prim2SF (c * fn) = S754_finite false m e').
  { rewrite mul_spec, Hc, HSF. exact Hround. }
  set (E := - (ec + en + sh)).
  assert (HE : 0 <= E) by (subst E; lia).
  exists (- ((- (Z.pos m * 2 ^ (e' + E))) / 2 ^ E)).
  split; [exact Hfn|]. split; [apply (ceil_finite_pos _ _ _ _ Hprod); subst E; lia|].
  replace (e' + E) with (e' - (ec + en + sh)) by (subst E; lia).
  set (m1 := Z.pos m * 2 ^ (e' - (ec + en + sh))) in *.
  set (q := Z.pos P / 2 ^ sh) in *.
  assert (Hk : Z.pos mc * n / 2 ^ (- ec) = q / 2 ^ E).
  { subst q. pose proof (pow2_pos sh ltac:(lia)). pose proof (pow2_pos E HE).
    pose proof (pow2_pos (- en) ltac:(lia)). pose proof (pow2_pos (- ec) ltac:(lia)).
    rewrite Z.div_div by lia. rewrite <- pow2_split by lia.
    replace (sh + E) with (- ec + - en) by (subst E; lia).
    rewrite pow2_split by lia. subst P. rewrite Pos2Z.inj_mul, Hmn, Z.mul_assoc.
    now rewrite Z.div_mul_cancel_r by lia. }
  rewrite Hk.
  assert (Hq : 2 ^ 52 <= q).
  { subst q. apply Z.div_le_lower_bound; [apply pow2_pos; lia|].
    pose proof (digits2_pos_bounds P) as [H1 _].
    replace (Z.pos (digits2_pos P) - 1) with (sh + 52) in H1 by (subst sh; lia).
    rewrite pow2_split in H1 by lia. lia. }
  pose proof (pow2_pos E HE) as HpE.
  change (2 ^ 52) with 4503599627370496 in Hq.
  pose proof (Z.div_mod q (2 ^ E) ltac:(lia)) as Hdm.
  pose proof (Z.mod_pos_bound q (2 ^ E) HpE) as Hmod.
  pose proof (Z.div_mod (- m1) (2 ^ E) ltac:(lia)) as Hdm1.
  pose proof (Z.mod_pos_bound (- m1) (2 ^ E) HpE) as Hmod1.
  revert Hdm Hmod Hdm1 Hmod1.
  generalize (q / 2 ^ E) (q mod 2 ^ E) (- m1 / 2 ^ E) (- m1 mod 2 ^ E).
  revert HpE. generalize (2 ^ E). intros b Hb k r t u. nia.
Qed.

End RoundingFacts.

Module PartitionFacts.
Import Py ModelTrainer RoundingFacts.

(** ** The sizes of the two parts of one split *)

Lemma validate_shuffle_split_sizes (c : float) (mc : positive) (ec : Z) (n : nat) :
  Prim2SF c = S754_finite false mc ec →
  2 ^ 52 <= Z.pos mc < 2 ^ 53 → -1074 <= ec <= -53 →
  ((c <=? 0) || (1 <=? c))%float = false →
  1 <= Z.of_nat n < 2 ^ 53 →
  ∃ T, Z.pos mc * Z.of_nat n / 2 ^ (- ec) <= T <= Z.pos mc * Z.of_nat n / 2 ^ (- ec) + 1
       ∧ 1 <= T
       ∧ (T < Z.of_nat n →
          validate_shuffle_split n c = Ok (Z.to_nat (Z.of_nat n - T), Z.to_nat T)).
Proof.
  intros Hc Hmc Hec Hrange Hn.
  destruct (ceil_of_scaled_count c mc ec (Z.of_nat n) Hc Hmc Hec Hn)
    as (fn & T & Hfn & Hceil & Hk & HT).
  exists T. split; [exact Hk|]. split; [exact HT|]. intros Hlt.
  unfold validate_shuffle_split. rewrite Hrange, Hfn. cbn [mbind result_bind].
  rewrite Hceil. cbn [mbind result_bind].
  destruct (Z.eqb_spec (Z.of_nat n - T) 0); [lia|reflexivity].
Qed.

Definition val_ratio : float := (Config.VALIDATION_SIZE / (1 - Config.TEST_SIZE))%float.

(** The test part: [ceil(0.1 * N)] is [N / 10] or one more. *)
Lemma test_part_size (n : nat) :
  2 <= Z.of_nat n < 2 ^ 53 →
  ∃ T, validate_shuffle_split n Config.TEST_SIZE = Ok (Z.to_nat (Z.of_nat n - T), Z.to_nat T)
       ∧ Z.of_nat n / 10 <= T <= Z.of_nat n / 10 + 1 ∧ 1 <= T < Z.of_nat n.
Proof.
  intros Hn.
  destruct (validate_shuffle_split_sizes Config.TEST_SIZE 7205759403792794 (-56) n)
    as (T & Hk & HT & Hok); [reflexivity|cbn; lia|lia|reflexivity|lia|].
  change (2 ^ 53) with 9007199254740992 in Hn.
  change (2 ^ (- -56)) with 72057594037927936 in Hk.
  assert (Hdiv : 7205759403792794 * Z.of_nat n / 72057594037927936 = Z.of_nat n / 10).
  { pose proof (Z.div_mod (Z.of_nat n) 10 ltac:(lia)).
    pose proof (Z.mod_pos_bound (Z.of_nat n) 10 ltac:(lia)).
    symmetry. apply Z.div_unique_pos
      with (r := 7205759403792794 * Z.of_nat n - 72057594037927936 * (Z.of_nat n / 10));
      lia. }
  rewrite Hdiv in Hk.
  assert (HT' : T < Z.of_nat n).
  { pose proof (Z.div_mod (Z.of_nat n) 10 ltac:(lia)).
    pose proof (Z.mod_pos_bound (Z.of_nat n) 10 ltac:(lia)). lia. }
  exists T. split; [now apply Hok|]. lia.
Qed.

(** The validation part: [ceil(val_ratio * N')] is two ninths of [N'], up to
    one row. *)
Lemma validation_part_size (n : nat) :
  2 <= Z.of_nat n < 2 ^ 53 →
  ∃ V, validate_shuffle_split n val_ratio = Ok (Z.to_nat (Z.of_nat n - V), Z.to_nat V)
       ∧ 2 * Z.of_nat n - 8 <= 9 * V <= 2 * Z.of_nat n + 10 ∧ 1 <= V < Z.of_nat n.
Proof.
  intros Hn.
  destruct (validate_shuffle_split_sizes val_ratio 8006399337547549 (-55) n)
    as (V & Hk & HV & Hok); [reflexivity|cbn; lia|lia|reflexivity|lia|].
  change (2 ^ 53) with 9007199254740992 in Hn.
  change (2 ^ (- -55)) with 36028797018963968 in Hk.
  pose proof (Z.div_mod (8006399337547549 * Z.of_nat n) 36028797018963968 ltac:(lia)) as Hdm.
  pose proof (Z.mod_pos_bound (8006399337547549 * Z.of_nat n) 36028797018963968 ltac:(lia)) as Hmod.
  revert Hk Hdm Hmod.
  generalize (8006399337547549 * Z.of_nat n / 36028797018963968)
             ((8006399337547549 * Z.of_nat n) mod 36028797018963968).
  intros k r Hk Hdm Hmod.
  assert (HV' : 2 * Z.of_nat n - 8 <= 9 * V <= 2 * Z.of_nat n + 10) by lia.
  exists V. split; [apply Hok; lia|]. lia.
Qed.

(** ** Rows picked by position *)

(** [out] holds the rows of [a] at the positions [idx], in that order. *)
Definition rows {T} (a : list T) (idx : list nat) (out : list T) : Prop :=
  Forall2 (λ i x, a !! i = Some x) idx out.

Lemma select_rows {T} (a : list T) (idx : list nat) :
  Forall (λ i, (i < length a)%nat) idx → ∃ out, select a idx = Ok out ∧ rows a idx out.
Proof.
  induction 1 as [|i idx Hi _ (out & Hsel & Hrows)].
  - exists []. split; [reflexivity|constructor].
  - destruct (lookup_lt_is_Some_2 a i Hi) as [x Hx].
    exists (x :: out). split.
    + cbn [select]. now rewrite Hx, Hsel.
    + now constructor.
Qed.

Lemma rows_length {T} (a : list T) idx out : rows a idx out → length out = length idx.
Proof. intros H. symmetry. exact (Forall2_length _ _ _ H). Qed.

Lemma rows_app {T} (a : list T) idx1 idx2 out1 out2 :
  rows a idx1 out1 → rows a idx2 out2 → rows a (idx1 ++ idx2) (out1 ++ out2).
Proof. apply Forall2_app. Qed.

Lemma rows_lookups {T} (a : list T) idx out :
  rows a idx out → (a !!.) <$> idx = Some <$> out.
Proof. induction 1 as [|i x idx out Hx _ IH]; [reflexivity|]. cbn. now rewrite Hx, IH. Qed.

Lemma all_lookups {T} (a : list T) : (a !!.) <$> seq 0 (length a) = Some <$> a.
Proof.
  apply list_eq. intros i. rewrite !list_lookup_fmap.
  destruct (decide (i < length a)%nat) as [Hi|Hi].
  - rewrite lookup_seq_lt by exact Hi. cbn.
    destruct (lookup_lt_is_Some_2 a i Hi) as [x Hx]. now rewrite Hx.
  - rewrite lookup_seq_ge by lia. now rewrite (lookup_ge_None_2 a i) by lia.
Qed.

Lemma omap_Some {T} (l : list T) : omap id (Some <$> l) = l.
Proof. induction l as [|x l IH]; [reflexivity|]. cbn. now rewrite IH. Qed.

(** Picking every position once gives the rows back, in some order. *)
Lemma rows_of_permutation {T} (a : list T) idx out :
  rows a idx out → idx ≡ₚ seq 0 (length a) → out ≡ₚ a.
Proof.
  intros Hrows Hperm. apply rows_lookups in Hrows.
  rewrite <- (omap_Some out), <- (omap_Some a), <- Hrows, <- all_lookups.
  now rewrite Hperm.
Qed.

(** Positions in a part are positions in the whole. *)
Lemma rows_through {T} (a b : list T) (idx js idx' : list nat) (out : list T) :
  rows a idx b → rows idx js idx' → rows b js out → rows a idx' out.
Proof.
  intros Hab Hjs. revert out. induction Hjs as [|j i js idx' Hj _ IH]; intros out Hout.
  - apply Forall2_nil_inv_l in Hout as ->. constructor.
  - apply Forall2_cons_inv_l in Hout as (x & out' & Hx & Hout & ->).
    constructor; [|now apply IH].
    exact (Forall2_lookup_lr _ _ _ _ _ _ Hab Hj Hx).
Qed.

Lemma rows_exist {T} (a : list T) (idx : list nat) :
  Forall (λ i, (i < length a)%nat) idx → ∃ out, rows a idx out.
Proof. intros H. destruct (select_rows a idx H) as (out & _ & Hout). eauto. Qed.

Lemma positions_in_range (idx : list nat) (n : nat) :
  idx ≡ₚ seq 0 n → Forall (λ i, (i < n)%nat) idx.
Proof.
  intros Hperm. apply Forall_forall. intros i Hi.
  rewrite Hperm in Hi. apply elem_of_seq in Hi. lia.
Qed.

(** ** One shuffled split *)

Section Shuffled.
Variable permutation : Z → nat → list nat.
Hypothesis permutation_perm : ∀ seed n, permutation seed n ≡ₚ seq 0 n.

Lemma train_test_split_parts {T U} (X : list T) (y : list U) (c : float) (seed : Z)
    (n_train n_test : nat) :
  length X = length y →
  validate_shuffle_split (length X) c = Ok (n_train, n_test) →
  (n_train + n_test = length X)%nat →
  ∃ itrain itest X_train X_test y_train y_test,
    train_test_split permutation X y c seed = Ok (X_train, X_test, y_train, y_test)
    ∧ itrain ++ itest ≡ₚ seq 0 (length X)
    ∧ length itrain = n_train ∧ length itest = n_test
    ∧ rows X itrain X_train ∧ rows X itest X_test
    ∧ rows y itrain y_train ∧ rows y itest y_test.
Proof using permutation_perm.
  intros Hlen Hsizes Hsum.
  set (p := permutation seed (length X)).
  assert (Hp : p ≡ₚ seq 0 (length X)) by apply permutation_perm.
  assert (Hplen : length p = length X) by (now rewrite Hp, length_seq).
  set (itrain := take n_train (drop n_test p)).
  set (itest := take n_test p).
  assert (Hall : itrain ++ itest ≡ₚ p).
  { subst itrain itest. rewrite take_ge by (rewrite length_drop; lia).
    rewrite (comm (++)). now rewrite take_drop. }
  assert (Hin : Forall (λ i, (i < length X)%nat) (itrain ++ itest)).
  { apply positions_in_range. now rewrite Hall. }
  apply Forall_app in Hin as [Htrain Htest].
  destruct (select_rows X itrain Htrain) as (X_train & HX1 & HX1').
  destruct (select_rows X itest Htest) as (X_test & HX2 & HX2').
  rewrite Hlen in Htrain, Htest.
  destruct (select_rows y itrain Htrain) as (y_train & Hy1 & Hy1').
  destruct (select_rows y itest Htest) as (y_test & Hy2 & Hy2').
  exists itrain, itest, X_train, X_test, y_train, y_test.
  split.
  { unfold train_test_split, shuffle_split.
    rewrite bool_decide_false by (intros Hne; now apply Hne).
    rewrite Hsizes. cbn [mbind result_bind]. fold p itrain itest.
    rewrite HX1. cbn [mbind result_bind]. rewrite HX2. cbn [mbind result_bind].
    rewrite Hy1. cbn [mbind result_bind]. rewrite Hy2. reflexivity. }
  split; [now rewrite Hall|].
  split; [subst itrain; rewrite length_take, length_drop; lia|].
  split; [subst itest; rewrite length_take; lia|].
  auto.
Qed.

(** C6. For every dataset of [N] rows with at least three rows (and fewer
    than [2^53], so that the row count is a float without rounding), and
    for every shuffle that is a permutation, [prepare_train_val_test_splits]
    returns three parts: they take their rows at positions [itrain], [ival]
    and [itest] that together are every position of the dataset exactly
    once (so the parts are pairwise disjoint and their union is the dataset),
    the three sizes add up to [N], no part is empty, the test part is within
    one row of [round(0.10 N)] and the validation part within one row of
    [round(0.20 N)]. [utils.train_validation_test_split] with its default
    sizes returns the same parts. *)
Theorem splits_partition_the_rows {A B} (X : list A) (y : list B) :
  length X = length y → (3 <= length X)%nat → Z.of_nat (length X) < 2 ^ 53 →
  ∃ X_train X_val X_test y_train y_val y_test (itrain ival itest : list nat),
    prepare_train_val_test_splits permutation X y
      = Ok (X_train, X_val, X_test, y_train, y_val, y_test)
    ∧ train_validation_test_split permutation X y 0.1 0.2 42
      = Ok (X_train, X_val, X_test, y_train, y_val, y_test)
    ∧ itrain ++ ival ++ itest ≡ₚ seq 0 (length X)
    ∧ NoDup (itrain ++ ival ++ itest)
    ∧ rows X itrain X_train ∧ rows X ival X_val ∧ rows X itest X_test
    ∧ rows y itrain y_train ∧ rows y ival y_val ∧ rows y itest y_test
    ∧ X_train ++ X_val ++ X_test ≡ₚ X
    ∧ (length X_train + length X_val + length X_test = length X)%nat
    ∧ (1 <= length X_train)%nat ∧ (1 <= length X_val)%nat ∧ (1 <= length X_test)%nat
    ∧ Z.abs (Z.of_nat (length X_test) - round_div (Z.of_nat (length X)) 10) <= 1
    ∧ Z.abs (Z.of_nat (length X_val) - round_div (2 * Z.of_nat (length X)) 10) <= 1.
Proof using permutation_perm.
  intros Hlen HN3 HN.
  set (N := length X) in *.
  (* the first split: the test part *)
  destruct (test_part_size N) as (T & Hsizes1 & HT & HT1); [lia|].
  destruct (train_test_split_parts X y Config.TEST_SIZE 42 _ _ Hlen Hsizes1)
    as (itemp & itest & X_temp & X_test & y_temp & y_test
        & Hsplit1 & Hperm1 & Hltemp & Hltest & HXtemp & HXtest & Hytemp & Hytest);
    [lia|].
  fold N in Hperm1.
  pose proof (rows_length _ _ _ HXtemp) as HlX. pose proof (rows_length _ _ _ Hytemp) as Hly.
  pose proof (rows_length _ _ _ HXtest) as HlXt.
  pose proof (Z.div_mod (Z.of_nat N) 10 ltac:(lia)) as Hdm10.
  pose proof (Z.mod_pos_bound (Z.of_nat N) 10 ltac:(lia)) as Hmod10.
  (* the second split: the validation part *)
  destruct (validation_part_size (length X_temp)) as (V & Hsizes2 & HV & HV1); [lia|].
  destruct (train_test_split_parts X_temp y_temp val_ratio 42 _ _ ltac:(lia) Hsizes2)
    as (train2 & val2 & X_train & X_val & y_train & y_val
        & Hsplit2 & Hperm2 & Hltrain & Hlval & HXtrain & HXval & Hytrain & Hyval);
    [lia|].
  (* the positions of the second split, as positions of the dataset *)
  assert (Hin2 : Forall (λ i, (i < length itemp)%nat) (train2 ++ val2)).
  { rewrite <- HlX. now apply positions_in_range. }
  apply Forall_app in Hin2 as [Hin_train Hin_val].
  destruct (rows_exist itemp train2 Hin_train) as (itrain & Hitrain).
  destruct (rows_exist itemp val2 Hin_val) as (ival & Hival).
  assert (Hparts : itrain ++ ival ≡ₚ itemp).
  { apply (rows_of_permutation itemp (train2 ++ val2)); [now apply rows_app|].
    now rewrite <- HlX. }
  assert (Hall : itrain ++ ival ++ itest ≡ₚ seq 0 N).
  { now rewrite (assoc (++)), Hparts. }
  assert (HXrows : rows X (itrain ++ ival ++ itest) (X_train ++ X_val ++ X_test)).
  { repeat apply rows_app; eauto using rows_through. }
  pose proof (rows_length _ _ _ HXtrain) as HlXtr.
  pose proof (rows_length _ _ _ HXval) as HlXv.
  exists X_train, X_val, X_test, y_train, y_val, y_test, itrain, ival, itest.
  assert (Hsplits : prepare_train_val_test_splits permutation X y
                    = Ok (X_train, X_val, X_test, y_train, y_val, y_test)).
  { unfold prepare_train_val_test_splits. rewrite Hsplit1. cbn [mbind result_bind].
    change (Config.VALIDATION_SIZE / (1 - Config.TEST_SIZE))%float with val_ratio.
    now rewrite Hsplit2. }
  split; [exact Hsplits|]. split; [exact Hsplits|].
  split; [exact Hall|].
  split; [rewrite Hall; apply NoDup_seq|].
  repeat (split; [now eauto using rows_through|]).
  split; [now apply (rows_of_permutation X _ _ HXrows)|].
  split; [lia|]. split; [lia|]. split; [lia|]. split; [lia|].
  assert (HlenT : Z.of_nat (length X_test) = T) by lia.
  assert (HlenV : Z.of_nat (length X_val) = V) by lia.
  assert (HlenN' : Z.of_nat (length X_temp) = Z.of_nat N - T) by lia.
  rewrite HlenT, HlenV. rewrite HlenN' in HV.
  pose proof (Z.div_mod (2 * Z.of_nat N) 10 ltac:(lia)) as Hdm5.
  pose proof (Z.mod_pos_bound (2 * Z.of_nat N) 10 ltac:(lia)) as Hmod5.
  unfold round_div. split.
  - repeat case Z.ltb_spec; intros; try destruct (Z.even _); lia.
  - repeat case Z.ltb_spec; intros; try destruct (Z.even _); lia.
Qed.

End Shuffled.

(** The splitter on thirty rows, shuffled by reversing them. *)
Lemma splits_partition_the_rows_witness :
  ∃ X_train X_val X_test y_train y_val y_test (itrain ival itest : list nat),
    prepare_train_val_test_splits (λ _ n, reverse (seq 0 n))
        (seq 100 30) (seq 200 30)
      = Ok (X_train, X_val, X_test, y_train, y_val, y_test)
    ∧ train_validation_test_split (λ _ n, reverse (seq 0 n))
        (seq 100 30) (seq 200 30) 0.1 0.2 42
      = Ok (X_train, X_val, X_test, y_train, y_val, y_test)
    ∧ itrain ++ ival ++ itest ≡ₚ seq 0 30
    ∧ NoDup (itrain ++ ival ++ itest)
    ∧ rows (seq 100 30) itrain X_train ∧ rows (seq 100 30) ival X_val
    ∧ rows (seq 100 30) itest X_test
    ∧ rows (seq 200 30) itrain y_train ∧ rows (seq 200 30) ival y_val
    ∧ rows (seq 200 30) itest y_test
    ∧ X_train ++ X_val ++ X_test ≡ₚ seq 100 30
    ∧ (length X_train + length X_val + length X_test = 30)%nat
    ∧ (1 <= length X_train)%nat ∧ (1 <= length X_val)%nat ∧ (1 <= length X_test)%nat
    ∧ Z.abs (Z.of_nat (length X_test) - round_div 30 10) <= 1
    ∧ Z.abs (Z.of_nat (length X_val) - round_div (2 * 30) 10) <= 1.
Proof.
  apply (splits_partition_the_rows (λ _ n, reverse (seq 0 n))
           (λ _ n, reverse_Permutation (seq 0 n)) (seq 100 30) (seq 200 30)).
  - reflexivity.
  - simpl. lia.
  - vm_compute. reflexivity.
Defined.

(** Three rows is the least: with two, the second split has no row left for
    training and scikit-learn refuses. *)
Example two_rows_are_too_few :
  prepare_train_val_test_splits (λ _ n, seq 0 n) [1; 2] [10; 20]
  = Raise (ValueError "the resulting train set will be empty").
Proof. vm_compute. reflexivity. Qed.

Example three_rows_split :
  prepare_train_val_test_splits (λ _ n, seq 0 n) [1; 2; 3] [10; 20; 30]
  = Ok ([3], [2], [1], [30], [20], [10]).
Proof. vm_compute. reflexivity. Qed.

End PartitionFacts.

(* ===================================================================== *)
(** * Part XII. The preprocessor as a whole                            *)
(* ===================================================================== *)

Module PreprocessFacts.
Import Py Frame FRPDataPreprocessor PyFacts NormalizerFacts DerivationFacts LoadFacts.
Local Open Scope py_scope.

(** ** [preprocess_data] *)

(** [preprocess_data] has one way to fail: an empty frame, refused with a
    [ValueError]. On every other frame it returns the model dataset of the
    derived features of the normalised frame; the range step in between
    neither fails nor changes a cell. *)
Theorem preprocess_data_fails_on_empty_only (df : frame) :
  preprocess_data df
  = if empty df then Raise (ValueError "Input data is empty")
    else Ok (create_model_dataset (create_selected_features (change_smd_to_nan df))).
Proof.
  unfold preprocess_data, validate_dataframe.
  destruct (empty df); [reflexivity|].
  cbn [mbind result_bind]. now rewrite parse_range_to_mean_unchanged.
Qed.

(** ** [change_smd_to_nan] *)

(** The normaliser keeps the shape of the frame; no cell of its result is one
    of the six marker strings, and every cell that was not a marker is the
    cell it was. *)
Theorem change_smd_to_nan_clears_markers (df : frame) :
  Forall2
    (λ r r', ∀ c,
       match r !! c with
       | None => r' !! c = None
       | Some v =>
           ∃ v', r' !! c = Some v'
                 ∧ (∀ s, v' = VStr s → s ∉ missing_markers.*1)
                 ∧ ((∀ s, v = VStr s → s ∉ missing_markers.*1) → v' = v)
       end)
    df (change_smd_to_nan df).
Proof.
  unfold change_smd_to_nan.
  apply Forall2_fmap_r, Forall_Forall2_diag, Forall_forall.
  intros r _ c. rewrite lookup_fmap.
  destruct (r !! c) as [v|]; [|reflexivity].
  exists (replace_cell missing_markers v). split; [reflexivity|].
  split; [|apply replace_cell_other].
  intros s Hs Hin.
  assert (Hfix : replace_cell missing_markers (VStr s) = VStr s).
  { rewrite <- Hs. apply replace_cell_idempotent. }
  revert Hin Hfix. unfold missing_markers. cbn [fmap list_fmap fst].
  rewrite !elem_of_cons, elem_of_nil.
  intros [-> |[-> |[-> |[-> |[-> |[-> |[]]]]]]]; vm_compute; discriminate.
Qed.

(** ** [create_selected_features] *)

(** Feature derivation keeps the number of records, and in every record it
    leaves each raw column alone that is neither one of the fourteen
    canonical fields nor [Target_parameter]. *)
Theorem raw_columns_survive_derivation (df : frame) :
  Forall2
    (λ raw d, ∀ c, c ∉ feature_columns → c ≠ "Target_parameter" → d !! c = raw !! c)
    df (create_selected_features df).
Proof.
  unfold create_selected_features.
  apply Forall2_fmap_r, Forall_Forall2_diag, Forall_forall.
  intros raw _ c Hc Htarget. unfold compose. rewrite exec_init_then.
  assert (Hwrite : ∀ w v r, (w ∈ feature_columns ∨ w = "Target_parameter") →
            keeps c (raw !! c) r → keeps c (raw !! c) (<[w := v]> r)).
  { intros w v r Hw. apply keeps_insert. intros ->. destruct Hw; congruence. }
  assert (Hrules : preserves (keeps c (raw !! c)) derive_row).
  { unfold derive_row. apply preserves_try_except; [|auto with pres].
    apply preserves_for_each. unfold rules, id. intros rule Hrule.
    repeat (apply elem_of_cons in Hrule as [->|Hrule];
      [open_rule;
       pres_walk ltac:(intros; apply Hwrite;
                       [first [ right; reflexivity
                              | left; unfold feature_columns; set_solver ]
                       | assumption ])|]).
    now apply elem_of_nil in Hrule. }
  apply Hrules. unfold keeps. rewrite init_features_lookup.
  now rewrite bool_decide_false.
Qed.

(** ** [create_model_dataset] *)

(** The row of the model dataset made from the raw record at position [idx]. *)
Definition dataset_row (idx : nat) (raw : row) : row :=
  rename (final_cells (model_row idx raw)).

Lemma final_cells_model_row (idx : nat) (raw : row) :
  final_cells (model_row idx raw)
  = default (VInt (Z.of_nat idx)) (raw !! "Title")
    :: (cell_or_nan raw <$> List.tl final_columns).
Proof. reflexivity. Qed.

Lemma dataset_row_columns (idx : nat) (raw : row) :
  dom (dataset_row idx raw) = list_to_set final_names
  ∧ dataset_row idx raw !! "Title" = Some (default (VInt (Z.of_nat idx)) (raw !! "Title"))
  ∧ Forall2 (λ name col, dataset_row idx raw !! name = Some (cell_or_nan raw col))
            (List.tl final_names) (List.tl final_columns).
Proof.
  unfold dataset_row. rewrite final_cells_model_row. split; [|split].
  - unfold rename. rewrite dom_list_to_map_L. reflexivity.
  - reflexivity.
  - repeat constructor.
Qed.

Lemma model_row_has_target (idx : nat) (raw : row) :
  has_target (model_row idx raw)
  = negb (isna (cell_or_nan raw "Tensile_strength_retention")).
Proof. reflexivity. Qed.

Lemma dataset_row_target (idx : nat) (raw : row) :
  dataset_row idx raw !! "Tensile strength retention"
  = Some (cell_or_nan raw "Tensile_strength_retention").
Proof. reflexivity. Qed.

(** Every row of the model dataset is the renamed copy of a record of the
    input, and the rows come in the order of the records: the dataset is a
    sublist of the renamed copies of all records. A copy has exactly the
    fourteen final column names; [Title] holds the record's title, or its
    position when it has none, and each other column holds the cell of the
    canonical field it renames, [np.nan] when the record lacks the field. *)
Theorem model_dataset_rows_are_renamed_records (df : frame) :
  sublist (create_model_dataset df) (imap dataset_row df)
  ∧ ∀ idx raw,
      dom (dataset_row idx raw) = list_to_set final_names
      ∧ dataset_row idx raw !! "Title"
        = Some (default (VInt (Z.of_nat idx)) (raw !! "Title"))
      ∧ Forall2 (λ name col, dataset_row idx raw !! name = Some (cell_or_nan raw col))
                (List.tl final_names) (List.tl final_columns).
Proof.
  split; [|apply dataset_row_columns].
  assert (Hall : imap dataset_row df = rename <$> (final_cells <$> imap model_row df)).
  { rewrite <- list_fmap_compose, fmap_imap. reflexivity. }
  rewrite Hall. unfold create_model_dataset. cbv zeta.
  apply fmap_sublist.
  assert (Htarget : sublist (final_cells <$> filter (λ r, has_target r = true)
                                                   (imap model_row df))
                            (final_cells <$> imap model_row df))
    by apply fmap_sublist, sublist_filter.
  repeat case_match; first [assumption | apply sublist_filter].
Qed.

Lemma filter_all {A} (P : A → Prop) `{!∀ a, Decision (P a)} (l : list A) :
  Forall P l → filter P l = l.
Proof.
  induction 1 as [|a l Ha _ IH]; [reflexivity|].
  rewrite filter_cons_True by assumption. now rewrite IH.
Qed.

Lemma filter_imap_length {A B} (f : nat → A → B) (P : B → Prop) (Q : A → Prop)
    `{!∀ b, Decision (P b)} `{!∀ a, Decision (Q a)} (l : list A) :
  (∀ i a, P (f i a) ↔ Q a) →
  length (filter P (imap f l)) = length (filter Q l).
Proof.
  revert f. induction l as [|a l IH]; intros f Hiff; [reflexivity|].
  rewrite imap_cons, !filter_cons.
  pose proof (Hiff 0%nat a) as Hhead.
  assert (Hrest : length (filter P (imap (f ∘ S) l)) = length (filter Q l))
    by (apply IH; intros i b; apply Hiff).
  destruct (decide (P (f 0%nat a))), (decide (Q a)); cbn [length]; tauto || lia.
Qed.

(** A frame of fewer than a hundred records: the model dataset has exactly
    the records whose [Tensile_strength_retention] is not missing, so every
    one of its rows has a target. *)
Theorem small_dataset_keeps_records_with_target (df : frame) :
  (length df < 100)%nat →
  Forall (λ o, ∃ v, o !! "Tensile strength retention" = Some v ∧ isna v = false)
         (create_model_dataset df)
  ∧ length (create_model_dataset df)
    = length (filter (λ raw, isna (cell_or_nan raw "Tensile_strength_retention") = false) df).
Proof.
  intros Hsmall.
  assert (Heq : create_model_dataset df
                = rename <$> (final_cells <$> filter (λ r, has_target r = true)
                                                     (imap model_row df))).
  { unfold create_model_dataset. cbv zeta.
    rewrite (proj2 (Nat.ltb_lt _ 100)); [now destruct (_ <? 50)%nat|].
    eapply Nat.le_lt_trans; [apply length_filter|].
    now rewrite length_fmap, length_imap. }
  rewrite Heq. split.
  - rewrite <- list_fmap_compose. apply Forall_fmap, Forall_forall.
    intros r [Hr Hin]%list_elem_of_filter.
    apply list_elem_of_lookup in Hin as [i Hi].
    rewrite list_lookup_imap in Hi.
    destruct (df !! i) as [raw|]; [|discriminate]. injection Hi as <-.
    exists (cell_or_nan raw "Tensile_strength_retention").
    split; [apply dataset_row_target|].
    rewrite model_row_has_target in Hr. now apply negb_true_iff in Hr.
  - rewrite !length_fmap. apply filter_imap_length.
    intros i raw. rewrite model_row_has_target. apply negb_true_iff.
Qed.

Lemma small_dataset_keeps_records_with_target_witness :
  let df : frame := [{["retention1" := VFloat 0.9]}; {["Tensile_strength_retention" := VFloat 0.8]}] in
  (length df < 100)%nat
  ∧ Forall (λ o, ∃ v, o !! "Tensile strength retention" = Some v ∧ isna v = false)
           (create_model_dataset df)
  ∧ length (create_model_dataset df)
    = length (filter (λ raw, isna (cell_or_nan raw "Tensile_strength_retention") = false) df).
Proof.
  cbv zeta. split; [simpl; lia|].
  apply small_dataset_keeps_records_with_target. simpl. lia.
Defined.

(** A frame of a hundred records or more, none with a [Title]: the position
    stands in for the title, so no row counts as empty, and the model dataset
    has a row for every record, with or without a target. *)
Theorem large_dataset_keeps_every_record (df : frame) :
  (100 <= length df)%nat →
  Forall (λ raw, raw !! "Title" = None) df →
  create_model_dataset df = imap dataset_row df.
Proof.
  intros Hlarge Htitle.
  assert (Hkeep : filter (λ cells, negb (all_missing cells))
                         (final_cells <$> imap model_row df)
                  = final_cells <$> imap model_row df).
  { apply filter_all, Forall_fmap, Forall_forall.
    intros r [i Hi]%list_elem_of_lookup. rewrite list_lookup_imap in Hi.
    destruct (df !! i) as [raw|] eqn:Hraw; [|discriminate]. injection Hi as <-.
    cbn [compose]. rewrite final_cells_model_row.
    rewrite (Forall_lookup_1 _ _ _ _ Htitle Hraw). reflexivity. }
  unfold create_model_dataset. cbv zeta. rewrite Hkeep.
  rewrite (proj2 (Nat.ltb_ge _ 100)) by now rewrite length_fmap, length_imap.
  rewrite <- list_fmap_compose, fmap_imap. reflexivity.
Qed.

Lemma large_dataset_keeps_every_record_witness :
  let df : frame := replicate 100 {["temperature" := VFloat 20]} in
  ((100 <= length df)%nat ∧ Forall (λ raw, raw !! "Title" = None) df)
  ∧ create_model_dataset df = imap dataset_row df.
Proof.
  cbv zeta.
  assert (H1 : (100 <= length (replicate 100 ({["temperature" := VFloat 20]} : row)))%nat)
    by (vm_compute; repeat constructor).
  assert (H2 : Forall (λ raw : row, raw !! "Title" = None)
                      (replicate 100 {["temperature" := VFloat 20]}))
    by (apply Forall_replicate; reflexivity).
  split; [auto|]. exact (large_dataset_keeps_every_record _ H1 H2).
Defined.

End PreprocessFacts.

Module RuleFacts.
Import Py Frame FRPDataPreprocessor PyFacts DerivationFacts.
Local Open Scope py_scope.

(** ** Running a rule on a given row, step by step *)

Lemma run_has_col {A} (c : string) (k : bool → M row A) (r : row) :
  bind (has_col c) k r = k (bool_decide (is_Some (r !! c))) r.
Proof. reflexivity. Qed.

Lemma run_loc {A} (c : string) (k : value → M row A) (r : row) (v : value) :
  r !! c = Some v → bind (loc c) k r = k v r.
Proof. intros H. unfold bind, loc. now rewrite H. Qed.

Lemma run_set_loc {A} (c : string) (v : value) (k : unit → M row A) (r : row) :
  bind (set_loc c v) k r = k tt (<[c := v]> r).
Proof. reflexivity. Qed.

Lemma run_ret {A B} (a : A) (k : A → M row B) (r : row) : bind (mret a) k r = k a r.
Proof. reflexivity. Qed.

Lemma run_assoc {A B C} (m : M row A) (k : A → M row B) (k' : B → M row C) (r : row) :
  bind (bind m k) k' r = bind m (λ a, bind (k a) k') r.
Proof. unfold bind. now destruct (m r) as [[a|e] s]. Qed.

Lemma is_Some_true {A} (x : A) : bool_decide (is_Some (Some x)) = true.
Proof. apply bool_decide_true. eauto. Qed.

Lemma is_Some_false {A} : bool_decide (is_Some (@None A)) = false.
Proof. apply bool_decide_false. now intros [? ?]. Qed.

(** Is the column there? *)
Ltac column r c v H :=
  rewrite run_has_col;
  destruct (r !! c) as [v|] eqn:H;
  [rewrite is_Some_true, ?(run_loc _ _ _ _ H) | rewrite is_Some_false].




(** ** The concrete indicator *)


(** ** Rules that cannot raise *)






(** Each of the other four can raise: an [int] beyond the range of [float]
    in a cell they convert, or a fibre volume that makes the conversion
    divide by zero. *)
Example the_other_four_rules_can_raise :
  let huge := VInt (10 ^ 400) in
  (_process_ph_and_chloride {["pHafter" := huge]}).1 = Raise OverflowError
  ∧ (_process_diameter {["nominal_area" := huge]}).1 = Raise OverflowError
  ∧ (_process_load (list_to_map [("stress_or_strain", VStr "stress"); ("value_load", huge);
                                 ("ultimate_tensile_strength", VFloat 1)])).1
    = Raise OverflowError
  ∧ (_process_fiber_content {["Fiber_content_volume" := VFloat (-150)]}).1
    = Raise ZeroDivisionError.
Proof. repeat split; vm_compute; reflexivity. Qed.

(** ** Chloride *)

(** [ensures I Q m]: from a row where [I] holds, a normal return of [m]
    leaves a row where [Q] holds. *)
Definition ensures {A} (I Q : row → Prop) (m : M row A) : Prop :=
  ∀ r, I r → ∀ a r', m r = (Ok a, r') → Q r'.

Lemma ensures_bind {A B} (I Q : row → Prop) (m : M row A) (k : A → M row B) :
  preserves I m → (∀ a, ensures I Q (k a)) → ensures I Q (bind m k).
Proof.
  intros Hm Hk r Hr b r' H. unfold bind in H.
  specialize (Hm r Hr). destruct (m r) as [[a|e] s]; [|discriminate].
  exact (Hk a s Hm b r' H).
Qed.

(** Whenever [_process_ph_and_chloride] returns normally on a record whose
    [ingredient_1], lower-cased, contains one of the chloride keywords
    ([cl], [chloride], [nacl], [cacl2], [mgcl2], [salt]), it leaves
    [Chloride_ion] at 1, whatever the environment and the pH columns are. *)
Theorem chloride_keyword_sets_the_flag (r r' : row) (v : value) :
  r !! "ingredient_1" = Some v →
  any_in chloride_keywords (lower (str v)) = true →
  _process_ph_and_chloride r = (Ok tt, r') →
  r' !! "Chloride_ion" = Some (VInt 1).
Proof.
  intros Hv Hkey Hrun.
  assert (H : ensures (keeps "ingredient_1" (Some v))
                      (λ d, d !! "Chloride_ion" = Some (VInt 1))
                      _process_ph_and_chloride).
  { open_rule.
    do 6 (apply ensures_bind; [pres_walk other_column|intros ?]).
    intros s Hs [] s' Hs'. unfold keeps in Hs.
    rewrite run_has_col, bool_decide_true in Hs' by (rewrite Hs; eauto).
    unfold lower_text in Hs'. rewrite run_assoc, (run_loc _ _ _ _ Hs), run_ret, Hkey in Hs'.
    injection Hs' as <-. apply lookup_insert_eq. }
  exact (H r Hv tt r' Hrun).
Qed.

Definition cleaning_row : row :=
  list_to_map [("Condition_environment", VStr "concrete cover");
               ("ingredient_1", VStr "Cleaning agent")].

Lemma chloride_keyword_sets_the_flag_witness :
  (cleaning_row !! "ingredient_1" = Some (VStr "Cleaning agent")
   ∧ any_in chloride_keywords (lower (str (VStr "Cleaning agent"))) = true
   ∧ _process_ph_and_chloride cleaning_row
     = (Ok tt, exec _process_ph_and_chloride cleaning_row))
  ∧ exec _process_ph_and_chloride cleaning_row !! "Chloride_ion" = Some (VInt 1).
Proof.
  assert (H1 : cleaning_row !! "ingredient_1" = Some (VStr "Cleaning agent")) by reflexivity.
  assert (H2 : any_in chloride_keywords (lower (str (VStr "Cleaning agent"))) = true)
    by reflexivity.
  assert (H3 : _process_ph_and_chloride cleaning_row
               = (Ok tt, exec _process_ph_and_chloride cleaning_row))
    by (vm_compute; reflexivity).
  split; [auto|].
  exact (chloride_keyword_sets_the_flag _ _ _ H1 H2 H3).
Defined.

End RuleFacts.

(* ===================================================================== *)
(** * Part XIII. The predictor: standardised features, where a prediction
      comes from                                                          *)
(* ===================================================================== *)

Module StandardizeFacts.
Import Py Frame FRPPredictor FRPPredictionPipeline PyFacts PredictorFacts.
Local Open Scope py_scope.

(** ** What [standardize_prediction_features] hands on *)

Lemma fillna0_not_missing (v : value) : isna (fillna0 v) = false.
Proof. unfold fillna0. destruct (isna v) eqn:H; [reflexivity|exact H]. Qed.

Lemma select_columns_shape (cols : list string) (df : frame) :
  length (select_columns cols df) = length df
  ∧ Forall (λ cells, length cells = length cols) (select_columns cols df).
Proof.
  unfold select_columns. split; [apply length_fmap|].
  apply Forall_fmap, Forall_forall. intros r _. apply length_fmap.
Qed.

Lemma standardize_body_result (p : predictor) (m : model) (x : input_data)
    (out out' : list line) (o : processed) :
  standardize_body p m x out = (Ok (Some o), out') →
  match o with
  | PArray rows =>
      named_steps m = false
      ∧ ∃ df, copy_input x = AFrame df
              ∧ rows = fillna_rows
                         (select_columns (info_get (feature_info p) "numeric_features") df)
  | PFrame cols rows =>
      named_steps m = true
      ∧ ∃ df, copy_input x = AFrame df ∧ rows = select_columns cols df
              ∧ (cols = info_get (feature_info p) "feature_names" ∨ cols = column_names df)
  | PSeries s => named_steps m = true ∧ x = Series s
  end.
Proof.
  unfold standardize_body, bind, print, modify, lift, columns, raise.
  destruct x as [d|df|s]; cbn [copy_input];
    destruct (named_steps m); cbn;
    repeat (first [ case_bool_decide | case_match ]; cbn);
    intros Hres; try discriminate Hres; injection Hres as <- <-; eauto 10.
Qed.

Lemma standardize_returns (p : predictor) (x : input_data) (out : list line) :
  ∃ o out', standardize_prediction_features p x out = (Ok o, out').
Proof.
  unfold standardize_prediction_features.
  destruct (the_model p) as [m|]; [|eexists _, _; reflexivity].
  unfold try_except.
  destruct (standardize_body p m x out) as [[o|e] out1]; eexists _, _; reflexivity.
Qed.

Lemma standardize_result (p : predictor) (x : input_data) (out out' : list line)
    (o : processed) :
  standardize_prediction_features p x out = (Ok (Some o), out') →
  ∃ m out0, the_model p = Some m ∧ standardize_body p m x out = (Ok (Some o), out0).
Proof.
  unfold standardize_prediction_features.
  destruct (the_model p) as [m|]; [|discriminate].
  unfold try_except.
  destruct (standardize_body p m x out) as [[o'|e] out1] eqn:Hbody; [|cbn; discriminate].
  intros [= -> ->]. eauto.
Qed.

(** [standardize_prediction_features] never raises. What it returns for a
    bare model is an array with a row for every row of the input, as wide
    as the list of numeric features, and with no missing cell; for a
    pipeline it is a frame with a row for every row of the input under the
    training columns (or, without feature information, the input's own
    columns); a [Series] is only ever handed back as it came. *)
Theorem standardized_features_shape (p : predictor) (x : input_data) (out : list line) :
  ∃ o out', standardize_prediction_features p x out = (Ok o, out')
    ∧ match o with
      | None => True
      | Some (PArray rows) =>
          ∃ df, copy_input x = AFrame df ∧ length rows = length df
                ∧ Forall (λ cells,
                     length cells = length (info_get (feature_info p) "numeric_features")
                     ∧ Forall (λ v, isna v = false) cells) rows
      | Some (PFrame cols rows) =>
          ∃ df, copy_input x = AFrame df ∧ length rows = length df
                ∧ Forall (λ cells, length cells = length cols) rows
                ∧ (cols = info_get (feature_info p) "feature_names"
                   ∨ cols = column_names df)
      | Some (PSeries s) => x = Series s
      end.
Proof.
  unfold standardize_prediction_features.
  destruct (the_model p) as [m|]; [|eexists _, _; split; [reflexivity|exact I]].
  unfold try_except.
  destruct (standardize_body p m x out) as [[[o|]|e] out1] eqn:Hbody;
    try (eexists _, _; split; [reflexivity|exact I]).
  apply standardize_body_result in Hbody.
  eexists _, _. split; [reflexivity|].
  destruct o as [cols rows|rows|s].
  - destruct Hbody as (_ & df & Hx & -> & Hcols). exists df.
    destruct (select_columns_shape cols df) as [Hlen Hwide]. auto.
  - destruct Hbody as (_ & df & Hx & ->). exists df.
    destruct (select_columns_shape (info_get (feature_info p) "numeric_features") df)
      as [Hlen Hwide].
    split; [exact Hx|]. unfold fillna_rows. split; [now rewrite length_fmap|].
    apply Forall_fmap. eapply Forall_impl; [exact Hwide|].
    intros cells Hcells. cbn. split; [now rewrite length_fmap|].
    apply Forall_fmap, Forall_forall. intros v _. apply fillna0_not_missing.
  - apply Hbody.
Qed.

(** ** Where a prediction comes from *)

Lemma first_prediction_source (m : model) (data : model_input) (y : float) :
  first_prediction m data = Ok y →
  ∃ v vs, predict m data = Ok (v :: vs) ∧ to_float v = Ok y.
Proof.
  unfold first_prediction.
  destruct (predict m data) as [[|v vs]|e]; cbn; try discriminate. eauto.
Qed.

Lemma fallback_source (p : predictor) (x : input_data) (out out' : list line) (y : float) :
  _emergency_prediction_fallback p x out = (Ok (Some y), out') →
  ∃ m data, the_model p = Some m ∧ first_prediction m data = Ok y.
Proof.
  unfold _emergency_prediction_fallback, try_except, fallback_body, bind, print, modify,
    raise, lift.
  destruct (copy_input x) as [df|s]; cbn; [|discriminate].
  case_bool_decide; cbn; [discriminate|].
  destruct (the_model p) as [m|]; cbn; [|discriminate].
  destruct (first_prediction m _) as [y'|e] eqn:Hfirst; cbn; [|discriminate].
  intros [= -> _]. eauto.
Qed.

(** A number that [predict_single] returns is always the first value the
    loaded model itself predicted, for some input it was handed, taken
    through [float]: no path of [predict_single] or of the emergency fallback
    makes a prediction up. *)
Theorem prediction_comes_from_the_model (p : predictor) (x : input_data)
    (out out' : list line) (y : float) :
  predict_single p x out = (Ok (Some y), out') →
  ∃ m data v vs, the_model p = Some m ∧ predict m data = Ok (v :: vs) ∧ to_float v = Ok y.
Proof.
  intros H.
  assert (Hsrc : ∃ m data, the_model p = Some m ∧ first_prediction m data = Ok y).
  { unfold predict_single in H. destruct (the_model p) as [m|] eqn:Hm; [|discriminate].
    unfold try_except in H.
    destruct (predict_body p m x out) as [[o|e] out1] eqn:Hbody.
    - injection H as -> ->. unfold predict_body, bind in Hbody.
      destruct (standardize_prediction_features p x out) as [[[[cols rows|rows|s]|]|e] out2];
        try discriminate.
      + unfold lift in Hbody.
        destruct (first_prediction m _) as [y'|e] eqn:Hfirst; [|discriminate].
        injection Hbody as -> _. eauto.
      + unfold lift in Hbody.
        destruct (first_prediction m _) as [y'|e] eqn:Hfirst; [|discriminate].
        injection Hbody as -> _. eauto.
      + rewrite <- Hm. eapply fallback_source. exact Hbody.
    - rewrite <- Hm. eapply fallback_source. exact H. }
  destruct Hsrc as (m & data & Hm & Hfirst).
  apply first_prediction_source in Hfirst as (v & vs & Hpred & Hv). eauto 10.
Qed.

Lemma prediction_comes_from_the_model_witness :
  let p := PredictorExamples.two_feature_predictor in
  let x := Dict (list_to_map [("a", VFloat 1); ("b", VFloat 2)]) in
  predict_single p x [] = (Ok (Some 3.5%float), [UsingPreprocessedModel; FeatureProcessing 2 0])
  ∧ ∃ m data v vs, the_model p = Some m ∧ predict m data = Ok (v :: vs)
                   ∧ to_float v = Ok 3.5%float.
Proof.
  cbv zeta.
  assert (H : predict_single PredictorExamples.two_feature_predictor
                (Dict (list_to_map [("a", VFloat 1); ("b", VFloat 2)])) []
              = (Ok (Some 3.5%float), [UsingPreprocessedModel; FeatureProcessing 2 0]))
    by (vm_compute; reflexivity).
  split; [exact H|]. exact (prediction_comes_from_the_model _ _ _ _ _ H).
Defined.

(** ** A [Series] as input *)

Lemma fallback_on_series (p : predictor) (s : row) (out : list line) :
  _emergency_prediction_fallback p (Series s) out
  = (Ok None, (out ++ [UsingEmergencyFallback;
                       EmergencyFallbackFailed (AttributeError "select_dtypes")])%list).
Proof.
  unfold _emergency_prediction_fallback, try_except, fallback_body, bind, print, modify, raise.
  cbn. now rewrite <- app_assoc.
Qed.

(** On a [Series], which has neither [columns] nor [reshape] nor
    [select_dtypes], [predict_single] returns [None] for every predictor:
    the standard path and the fallback both end in an [AttributeError]. *)

Lemma standardize_on_series (p : predictor) (m : model) (s : row) (out : list line) :
  the_model p = Some m →
  ∃ out', standardize_prediction_features p (Series s) out = (Ok None, out')
          ∨ standardize_prediction_features p (Series s) out = (Ok (Some (PSeries s)), out').
Proof.
  intros Hm. unfold standardize_prediction_features. rewrite Hm.
  unfold try_except, standardize_body, bind, print, modify, lift, columns, raise.
  cbn [copy_input].
  destruct (named_steps m), (truthy (feature_info p));
    try destruct (bool_decide (is_Some (feature_info p ≫= lookup "feature_names")));
    cbn; eauto.
Qed.

Lemma predict_single_on_series (p : predictor) (s : row) (out : list line) :
  ∃ out', predict_single p (Series s) out = (Ok None, out').
Proof.
  unfold predict_single. destruct (the_model p) as [m|] eqn:Hm; [|eexists; reflexivity].
  unfold try_except, predict_body, bind.
  destruct (standardize_on_series p m s out Hm) as [out1 [-> | ->]].
  - rewrite fallback_on_series. eauto.
  - cbn. eexists. reflexivity.
Qed.

(** [predict_from_raw_data] never reports success, and never raises: it
    hands [predict_single] the first row of the preprocessed frame, a
    [Series], on which no path of the predictor yields a number. Whatever
    the predictor and the raw data, the answer is a failure with no
    prediction. *)
Theorem predict_from_raw_data_always_fails (p : predictor) (raw_data : input_data)
    (out : list line) :
  ∃ why out', predict_from_raw_data p raw_data out = (Ok (failure why), out').
Proof.
  unfold predict_from_raw_data, try_except, bind, lift.
  destruct (preprocess_raw raw_data) as [[|first rest]|e]; try (eexists _, _; reflexivity).
  destruct (predict_single_on_series p first out) as [out' ->].
  eexists _, _. reflexivity.
Qed.

End StandardizeFacts.

(* ===================================================================== *)
(** * Part XIV. The utilities                                          *)
(* ===================================================================== *)

Module UtilsFacts.
Import Py Frame FRPPredictor PyObj Utils PyFacts PredictorFacts.
Local Open Scope py_scope.

(** ** [clean_column_names] *)

Fixpoint all_chars (P : ascii → bool) (s : string) : bool :=
  match s with
  | EmptyString => true
  | String c s' => P c && all_chars P s'
  end.

Lemma keep_chars_all (P : ascii → bool) (s : string) : all_chars P (keep_chars P s) = true.
Proof.
  induction s as [|c s IH]; [reflexivity|]. cbn [keep_chars].
  destruct (P c) eqn:Hc; [cbn; now rewrite Hc|exact IH].
Qed.

Lemma keep_chars_id (P : ascii → bool) (s : string) :
  all_chars P s = true → keep_chars P s = s.
Proof.
  induction s as [|c s IH]; [reflexivity|]. cbn.
  intros [-> Hs]%andb_true_iff. now rewrite IH.
Qed.

Lemma word_is_no_space (c : ascii) :
  is_word c = true → isspace c = false ∧ c ≠ " "%char.
Proof.
  destruct c as [[] [] [] [] [] [] [] []]; vm_compute; intros H;
    first [discriminate H | split; [reflexivity|discriminate]].
Qed.

Lemma replace_char_id (b : ascii) (s : string) :
  all_chars is_word s = true → replace_char " " b s = s.
Proof.
  induction s as [|c s IH]; [reflexivity|]. cbn.
  intros [Hc Hs]%andb_true_iff. apply word_is_no_space in Hc as [_ Hc].
  rewrite bool_decide_false by assumption. now rewrite IH.
Qed.

Lemma str_rstrip_id (s : string) : all_chars is_word s = true → str_rstrip s = s.
Proof.
  induction s as [|c s IH]; [reflexivity|]. cbn.
  intros [Hc Hs]%andb_true_iff. apply word_is_no_space in Hc as [Hc _].
  rewrite (IH Hs), Hc. now destruct s.
Qed.

Lemma str_strip_id (s : string) : all_chars is_word s = true → str_strip s = s.
Proof.
  intros Hs. unfold str_strip.
  assert (Hl : str_lstrip s = s).
  { destruct s as [|c s]; [reflexivity|]. cbn in *.
    apply andb_true_iff in Hs as [Hc _]. apply word_is_no_space in Hc as [Hc _].
    now rewrite Hc. }
  rewrite Hl. now apply str_rstrip_id.
Qed.

Lemma clean_name_word_only (name : string) : all_chars is_word (clean_name name) = true.
Proof. apply keep_chars_all. Qed.

Lemma clean_name_fixed (name : string) :
  all_chars is_word name = true → clean_name name = name.
Proof.
  intros H. unfold clean_name.
  rewrite (str_strip_id _ H), (replace_char_id _ _ H). now apply keep_chars_id.
Qed.

(** After [clean_column_names] the frame has as many columns as before,
    every name is made of letters, digits and underscores only, and cleaning
    again changes nothing. *)
Theorem clean_column_names_word_only (columns : list string) :
  length (clean_column_names columns) = length columns
  ∧ Forall (λ name, all_chars is_word name = true) (clean_column_names columns)
  ∧ clean_column_names (clean_column_names columns) = clean_column_names columns.
Proof.
  unfold clean_column_names. split; [apply length_fmap|]. split.
  - apply Forall_fmap, Forall_forall. intros name _. apply clean_name_word_only.
  - rewrite <- list_fmap_compose. apply list_fmap_ext. intros _ name _.
    apply clean_name_fixed, clean_name_word_only.
Qed.

(** Cleaning can make two columns share a name, and leave a column with no
    name at all. *)
Example clean_column_names_collide :
  clean_column_names [" pH (after) "; "pH_after"; "%"] = ["pH_after"; "pH_after"; ""].
Proof. reflexivity. Qed.

(** ** [validate_dataframe] *)

(** [validate_dataframe] returns [True] exactly on a frame that is not empty
    and has every required column; on any other it raises a [ValueError],
    and prints nothing. It never returns [False]. *)
Theorem validate_dataframe_true_or_value_error (set_text : list string → string)
    (df : option frame) (required_columns : option (list string)) (name : string)
    (out : list entry) :
  match df with
  | Some f =>
      if negb (empty f)
         && forallb (λ c, bool_decide (c ∈ column_names f)) (default [] required_columns)
      then validate_dataframe set_text df required_columns name out
           = (Ok true, (out ++ [ValidationPassed name (length f, length (column_names f))])%list)
      else ∃ msg, validate_dataframe set_text df required_columns name out
                  = (Raise (ValueError msg), out)
  | None => validate_dataframe set_text df required_columns name out
            = (Raise (ValueError (name ++ " is None")), out)
  end.
Proof.
  destruct df as [f|]; [|reflexivity].
  unfold validate_dataframe. destruct (empty f); cbn [negb andb]; [eauto|].
  set (req := default [] required_columns).
  assert (Hmissing : missing_from req (column_names f) = []
                     ↔ forallb (λ c, bool_decide (c ∈ column_names f)) req = true).
  { rewrite forallb_forall. split.
    - intros Hnil c Hc%list_elem_of_In. apply bool_decide_eq_true.
      destruct (decide (c ∈ column_names f)) as [|Hnot]; [assumption|exfalso].
      assert (Hin : c ∈ missing_from req (column_names f)) by now apply missing_from_spec.
      rewrite Hnil in Hin. now apply elem_of_nil in Hin.
    - intros Hall. apply elem_of_nil_inv. intros c [Hc Hnot]%missing_from_spec.
      apply Hnot. apply list_elem_of_In, Hall in Hc. now apply bool_decide_eq_true in Hc. }
  destruct (forallb _ req) eqn:Hall.
  - assert (Hnil : missing_from req (column_names f) = []) by now apply Hmissing.
    unfold bind. case_bool_decide; [|reflexivity].
    rewrite Hnil. rewrite bool_decide_false by auto. reflexivity.
  - assert (Hne : missing_from req (column_names f) ≠ []).
    { intros Hnil. apply Hmissing in Hnil. congruence. }
    unfold bind. rewrite bool_decide_true.
    + rewrite bool_decide_true by assumption. eexists. reflexivity.
    + intros Hreq. apply Hne. unfold missing_from. now rewrite Hreq.
Qed.

End UtilsFacts.

(* ===================================================================== *)
(** * Part XV. Batch prediction; saved and loaded models               *)
(* ===================================================================== *)

Module BatchFacts.
Import Py Frame FRPPredictor PyObj Utils FRPPredictorMore.
Import PyFacts PredictorFacts StandardizeFacts.
Local Open Scope py_scope.

Lemma validate_no_requirements (set_text : list string → string) (df : frame)
    (name : string) (out : list entry) :
  validate_dataframe set_text (Some df) None name out
  = if empty df then (Raise (ValueError (name ++ " is empty")), out)
    else (Ok true, (out ++ [ValidationPassed name (length df, length (column_names df))])%list).
Proof. unfold validate_dataframe. now destruct (empty df). Qed.

Lemma standardize_frame_not_series (p : predictor) (df : frame) (out out' : list line)
    (s : row) :
  standardize_prediction_features p (DataFrame df) out ≠ (Ok (Some (PSeries s)), out').
Proof.
  intros H. apply standardize_result in H as (m & out0 & _ & H).
  apply standardize_body_result in H as [_ H]. discriminate H.
Qed.

Section Batch.
Variable set_text : list string → string.

(** [predict_batch] never raises. On an empty frame it returns [None]. When
    it returns predictions, they are what the loaded model predicted for the
    standardised frame (a pipeline) or for the standardised array of numeric
    features, all rows at once (a bare model). *)
Theorem batch_predictions_come_from_the_model (p : predictor) (df : frame)
    (out : list entry) :
  ∃ o out', predict_batch set_text p df out = (Ok o, out')
    ∧ (empty df = true → o = None)
    ∧ (∀ predictions, o = Some predictions →
         ∃ m proc lines,
           the_model p = Some m
           ∧ standardize_prediction_features p (DataFrame df) [] = (Ok (Some proc), lines)
           ∧ match proc with
             | PFrame cols rows => predict m (FrameInput cols rows) = Ok predictions
             | PArray rows => predict m (ArrayInput rows) = Ok predictions
             | PSeries _ => False
             end).
Proof.
  unfold predict_batch.
  destruct (the_model p) as [m|] eqn:Hm.
  2:{ eexists _, _. split; [reflexivity|]. split; [reflexivity|discriminate]. }
  unfold try_except, bind. rewrite validate_no_requirements.
  destruct (empty df) eqn:Hempty.
  { eexists _, _. split; [reflexivity|]. split; [reflexivity|discriminate]. }
  unfold on_console.
  destruct (standardize_returns p (DataFrame df) []) as (o & lines & Hstd).
  rewrite Hstd.
  destruct o as [[cols rows|rows|s]|].
  - unfold lift. destruct (predict m (FrameInput cols rows)) as [preds|e] eqn:Hpred;
      eexists _, _; (split; [reflexivity|]); (split; [discriminate|]); intros ? [= <-].
    exists m, (PFrame cols rows), lines. auto.
  - unfold lift. destruct (predict m (ArrayInput rows)) as [preds|e] eqn:Hpred;
      eexists _, _; (split; [reflexivity|]); (split; [discriminate|]); intros ? [= <-].
    exists m, (PArray rows), lines. auto.
  - now apply standardize_frame_not_series in Hstd.
  - eexists _, _. split; [reflexivity|]. split; [reflexivity|discriminate].
Qed.

(** When the frame lacks a feature the loaded artifact requires,
    [predict_batch] prints the missing names and returns [None]: unlike
    [predict_single] it has no fallback, and the model is not consulted. *)
Theorem batch_refuses_missing_features (p : predictor) (m : model) (df : frame)
    (req : list string) (out : list entry) :
  the_model p = Some m →
  empty df = false →
  required_features p m = Some req →
  (∃ c, c ∈ req ∧ c ∉ column_names df) →
  predict_batch set_text p df out
  = (Ok None,
     (out ++ [ValidationPassed "Input data" (length df, length (column_names df));
              FromPredictor (if named_steps m then UsingPipelineModel
                             else UsingPreprocessedModel);
              FromPredictor (MissingRequiredFeatures (missing_from req (column_names df)));
              FeatureProcessingFailedForBatch])%list).
Proof.
  intros Hm Hempty Hreq (c & Hc & Hnc).
  assert (Hne : missing_from req (column_names df) ≠ []).
  { intros Hnil. assert (Hin : c ∈ missing_from req (column_names df))
      by now apply missing_from_spec.
    rewrite Hnil in Hin. now apply elem_of_nil in Hin. }
  pose proof (standardize_reports_missing p m (DataFrame df) df req [] Hm eq_refl Hreq Hne)
    as Hstd.
  unfold predict_batch. rewrite Hm.
  unfold try_except, bind. rewrite validate_no_requirements, Hempty.
  unfold on_console. rewrite Hstd. cbn.
  now rewrite <- !app_assoc.
Qed.
End Batch.

Lemma batch_refuses_missing_features_witness :
  let p := PredictorExamples.two_feature_predictor in
  let df : frame := [PredictorExamples.input_without_b] in
  (the_model p = Some PredictorExamples.two_feature_model
   ∧ empty df = false
   ∧ required_features p PredictorExamples.two_feature_model = Some ["a"; "b"]
   ∧ ∃ c, c ∈ ["a"; "b"] ∧ c ∉ column_names df)
  ∧ predict_batch (λ _, "") p df []
    = (Ok None,
       ([] ++ [ValidationPassed "Input data" (length df, length (column_names df));
               FromPredictor (if named_steps PredictorExamples.two_feature_model
                              then UsingPipelineModel else UsingPreprocessedModel);
               FromPredictor (MissingRequiredFeatures
                                (missing_from ["a"; "b"] (column_names df)));
               FeatureProcessingFailedForBatch])%list).
Proof.
  cbv zeta.
  assert (H1 : the_model PredictorExamples.two_feature_predictor
               = Some PredictorExamples.two_feature_model) by reflexivity.
  assert (H2 : empty [PredictorExamples.input_without_b] = false) by (vm_compute; reflexivity).
  assert (H3 : required_features PredictorExamples.two_feature_predictor
                 PredictorExamples.two_feature_model = Some ["a"; "b"]) by reflexivity.
  assert (H4 : ∃ c, c ∈ ["a"; "b"] ∧ c ∉ column_names [PredictorExamples.input_without_b]).
  { exists "b". split.
    - apply (bool_decide_unpack _). vm_compute. reflexivity.
    - apply (bool_decide_unpack _). vm_compute. reflexivity. }
  split; [auto|].
  exact (batch_refuses_missing_features (λ _, "") _ _ _ _ [] H1 H2 H3 H4).
Defined.

End BatchFacts.

(** ** The sample input *)

Module SampleInputFacts.
Import Py Frame FRPDataPreprocessor FRPPredictor FRPPredictorMore PyFacts PredictorFacts
  PreprocessFacts.
Local Open Scope py_scope.

Lemma sample_input_has_no_dataset_column :
  Forall (λ c, c ∉ column_names [create_sample_input]) final_names.
Proof. apply (bool_decide_unpack _). vm_compute. exact I. Qed.

Lemma missing_all (req : list string) :
  req ⊆ final_names →
  missing_from req (column_names [create_sample_input]) = remove_dups req.
Proof.
  intros Hsub. unfold missing_from. f_equal. apply filter_all, Forall_forall.
  intros c Hc. pose proof sample_input_has_no_dataset_column as Hnone.
  rewrite Forall_forall in Hnone. apply Hnone, Hsub, Hc.
Qed.

(** The sample input of [create_sample_input] is keyed by the names the
    features have before [create_model_dataset] renames them. A predictor
    whose required features are columns of the model dataset therefore finds
    every one of them missing in the sample input: the standard path prints
    them all and gives up, and [predict_single] is left with the emergency
    fallback. *)
Theorem sample_input_lacks_every_dataset_feature (p : predictor) (m : model)
    (req : list string) (out : list line) :
  the_model p = Some m →
  required_features p m = Some req →
  req ≠ [] →
  req ⊆ final_names →
  let out1 := (out ++ [if named_steps m then UsingPipelineModel else UsingPreprocessedModel;
                       MissingRequiredFeatures (remove_dups req)])%list in
  standardize_prediction_features p (Dict create_sample_input) out = (Ok None, out1)
  ∧ predict_single p (Dict create_sample_input) out
    = _emergency_prediction_fallback p (Dict create_sample_input) out1.
Proof.
  intros Hm Hreq Hne Hsub. cbv zeta.
  assert (Hmissing : missing_from req (column_names [create_sample_input]) ≠ []).
  { rewrite (missing_all _ Hsub). destruct req as [|c req]; [now destruct Hne|].
    intros Hnil. assert (Hc : c ∈ remove_dups (c :: req))
      by (apply elem_of_remove_dups; left).
    rewrite Hnil in Hc. now apply elem_of_nil in Hc. }
  pose proof (standardize_reports_missing p m (Dict create_sample_input)
                [create_sample_input] req out Hm eq_refl Hreq Hmissing) as Hstd.
  rewrite (missing_all _ Hsub) in Hstd.
  split; [exact Hstd|].
  unfold predict_single. rewrite Hm.
  assert (Hbody : predict_body p m (Dict create_sample_input) out
                  = _emergency_prediction_fallback p (Dict create_sample_input)
                      (out ++ [if named_steps m then UsingPipelineModel
                               else UsingPreprocessedModel;
                               MissingRequiredFeatures (remove_dups req)])%list).
  { unfold predict_body. now rewrite (bind_ok _ _ _ _ _ Hstd). }
  rewrite try_except_ok_or; [exact Hbody|].
  rewrite Hbody. apply emergency_fallback_returns.
Qed.

(** A bare model trained on two columns of the model dataset. *)
Definition dataset_predictor : predictor := {|
  the_model := Some PredictorExamples.two_feature_model;
  feature_info := Some {["numeric_features" := ["Exposure time"; "Diameter"]]}
|}.

Lemma sample_input_lacks_every_dataset_feature_witness :
  let out1 := [UsingPreprocessedModel;
               MissingRequiredFeatures (remove_dups ["Exposure time"; "Diameter"])] in
  standardize_prediction_features dataset_predictor (Dict create_sample_input) []
  = (Ok None, out1)
  ∧ predict_single dataset_predictor (Dict create_sample_input) []
    = _emergency_prediction_fallback dataset_predictor (Dict create_sample_input) out1.
Proof.
  apply (sample_input_lacks_every_dataset_feature dataset_predictor
           PredictorExamples.two_feature_model ["Exposure time"; "Diameter"] []).
  - reflexivity.
  - reflexivity.
  - discriminate.
  - apply (bool_decide_unpack _). vm_compute. exact I.
Defined.

End SampleInputFacts.

Module PersistenceFacts.
Import Py Frame FRPPredictor PyObj Utils FRPPredictorMore ModelTrainerResults PyFacts.
Local Open Scope py_scope.

(** What [save_model_safely] pickles. *)
Definition pickled (now model additional_info : obj) : obj :=
  ODict [("model", model); ("additional_info", additional_info); ("timestamp", now)].

Section Files.
Variable refused : string → option exn.
Variable no_such_file : string → exn.
Variable now : obj.

Lemma save_model_safely_run (model : obj) (filepath : string) (additional_info : obj)
    (w : world) :
  save_model_safely refused now model filepath additional_info w
  = match refused filepath with
    | None =>
        (Ok true,
         set_console (console w ++ [ModelSaved filepath])%list
           (set_files (<[filepath := pickled now model additional_info]>) w))
    | Some e => (Ok false, set_console (console w ++ [FailedToSaveModel e])%list w)
    end.
Proof.
  unfold save_model_safely, try_except, bind, dump.
  destruct (refused filepath); reflexivity.
Qed.

Lemma load_model_safely_run (filepath : string) (w : world) :
  load_model_safely no_such_file filepath w
  = match files w !! filepath with
    | Some (ODict items) =>
        match item "model" items with
        | Some model =>
            (Ok (model, get_or items "additional_info" ONone),
             set_console (console w ++ [ModelLoaded filepath])%list w)
        | None =>
            (Ok (ODict items, ONone),
             set_console (console w ++ [LegacyModelLoaded filepath])%list w)
        end
    | Some save_data =>
        (Ok (save_data, ONone),
         set_console (console w ++ [LegacyModelLoaded filepath])%list w)
    | None =>
        (Ok (ONone, ONone),
         set_console (console w ++ [FailedToLoadModel (no_such_file filepath)])%list w)
    end.
Proof.
  unfold load_model_safely, load, get, try_except, bind. cbn beta iota.
  destruct (files w !! filepath) as [[|b|z|f|s|xs|items|m]|]; try reflexivity.
  cbn. unfold contains_key. destruct (item "model" items) as [model|] eqn:Hitem.
  - rewrite bool_decide_true by eauto. reflexivity.
  - rewrite bool_decide_false by (now intros [? ?]). reflexivity.
Qed.


(** ** [load_model] *)

Variable fitted_len : model → result nat.
Variable fitted_truth : model → result bool.

Definition fields (w : world) : obj * obj * obj :=
  (self_model w, self_feature_info w, self_model_metadata w).

(** The same predictor and the same files; the console may have grown. *)
Definition same_but_console (w w' : world) : Prop :=
  fields w' = fields w ∧ files w' = files w.

Definition quiet {A} (m : M world A) : Prop := ∀ w, same_but_console w (m w).2.

Lemma same_refl (w : world) : same_but_console w w.
Proof. now split. Qed.

Lemma same_trans (w1 w2 w3 : world) :
  same_but_console w1 w2 → same_but_console w2 w3 → same_but_console w1 w3.
Proof. intros [H1 H2] [H3 H4]. split; congruence. Qed.

Lemma quiet_ret {A} (a : A) : quiet (mret a).
Proof. intros w. apply same_refl. Qed.

Lemma quiet_lift {A} (x : result A) : quiet (lift x).
Proof. intros w. apply same_refl. Qed.

Lemma quiet_log (e : entry) : quiet (log e).
Proof. intros w. now split. Qed.

Lemma quiet_bind {A B} (m : M world A) (k : A → M world B) :
  quiet m → (∀ a, quiet (k a)) → quiet (bind m k).
Proof.
  intros Hm Hk w. unfold bind. specialize (Hm w).
  destruct (m w) as [[a|e] w1]; cbn in *; [|assumption].
  eapply same_trans; [exact Hm|apply Hk].
Qed.

Lemma quiet_try {A} (m : M world A) (h : exn → M world A) :
  quiet m → (∀ e, quiet (h e)) → quiet (try_except m h).
Proof.
  intros Hm Hh w. unfold try_except. specialize (Hm w).
  destruct (m w) as [[a|e] w1]; cbn in *; [assumption|].
  eapply same_trans; [exact Hm|apply Hh].
Qed.

Ltac quiet_walk :=
  lazymatch goal with
  | |- quiet (bind _ _) => apply quiet_bind; [quiet_walk|intros ?; quiet_walk]
  | |- quiet (try_except _ _) => apply quiet_try; [quiet_walk|intros ?; quiet_walk]
  | |- quiet (if ?b then _ else _) => destruct b; quiet_walk
  | |- quiet (log _) => apply quiet_log
  | |- quiet (lift _) => apply quiet_lift
  | |- quiet (mret _) => apply quiet_ret
  end.

(** The end of [load_model], once the fields are set: the three reports. *)
Definition report (model_path : string) (w : world) : M world bool :=
  bind (log (ModelLoadedFrom model_path)) (λ _,
  bind (lift (truth fitted_truth (self_model_metadata w))) (λ has_metadata : bool,
  bind (if has_metadata then
          bind (lift (get_attr (self_model_metadata w) "r2" (OStr "Unknown")))
               (λ r2_score, log (ModelR2Score r2_score))
        else mret tt) (λ _,
  bind (lift (truth fitted_truth (self_feature_info w))) (λ has_feature_info : bool,
  bind (if has_feature_info then
          bind (lift (get_attr (self_feature_info w) "feature_names" (OList [])))
               (λ names, bind (lift (len fitted_len names))
                              (λ feature_count, log (ExpectedFeatures feature_count)))
        else mret tt) (λ _, mret true))))).

Lemma report_quiet (model_path : string) (w : world) : quiet (report model_path w).
Proof. unfold report. quiet_walk. Qed.

(** The metadata and the feature information are such that the reports go
    through: each is empty or [None], or a dictionary, the feature names in it
    a list. *)
Definition reportable (w : world) : Prop :=
  (truth fitted_truth (self_model_metadata w) = Ok false
   ∨ is_dict (self_model_metadata w) = true)
  ∧ (truth fitted_truth (self_feature_info w) = Ok false
     ∨ ∃ items, self_feature_info w = ODict items
                ∧ ∃ names, get_or items "feature_names" (OList []) = OList names).

Lemma report_true (model_path : string) (w w0 : world) :
  reportable w → ∃ w', report model_path w w0 = (Ok true, w').
Proof.
  intros [Hmeta Hinfo]. unfold report.
  erewrite bind_ok by reflexivity.
  assert (H1 : ∃ has_metadata : bool,
    truth fitted_truth (self_model_metadata w) = Ok has_metadata
    ∧ ∀ w1, ∃ w2,
        (if has_metadata
         then bind (lift (get_attr (self_model_metadata w) "r2" (OStr "Unknown")))
                   (λ r2_score, log (ModelR2Score r2_score))
         else mret tt) w1 = (Ok tt, w2)).
  { destruct Hmeta as [Hfalse | Hdict].
    - exists false. split; [exact Hfalse|]. intros w1. eexists. reflexivity.
    - destruct (self_model_metadata w) as [|?|?|?|?|?|ms|?]; try discriminate Hdict.
      eexists. split; [reflexivity|]. intros w1.
      destruct (negb (bool_decide (ms = []))); eexists; reflexivity. }
  assert (H2 : ∃ has_feature_info : bool,
    truth fitted_truth (self_feature_info w) = Ok has_feature_info
    ∧ ∀ w1, ∃ w2,
        (if has_feature_info
         then bind (lift (get_attr (self_feature_info w) "feature_names" (OList [])))
                   (λ names, bind (lift (len fitted_len names))
                                  (λ feature_count, log (ExpectedFeatures feature_count)))
         else mret tt) w1 = (Ok tt, w2)).
  { destruct Hinfo as [Hfalse |(items & Hitems & names & Hnames)].
    - exists false. split; [exact Hfalse|]. intros w1. eexists. reflexivity.
    - rewrite Hitems. eexists. split; [reflexivity|]. intros w1.
      destruct (negb (bool_decide (items = []))); [|eexists; reflexivity].
      unfold bind at 1, lift. cbn [get_attr]. rewrite Hnames. eexists. reflexivity. }
  destruct H1 as (t1 & Ht1 & H1). destruct H2 as (t2 & Ht2 & H2).
  erewrite bind_ok by (unfold lift; rewrite Ht1; reflexivity).
  edestruct H1 as [w2 Hw2]. rewrite (bind_ok _ _ _ _ _ Hw2).
  erewrite bind_ok by (unfold lift; rewrite Ht2; reflexivity).
  edestruct H2 as [w3 Hw3]. rewrite (bind_ok _ _ _ _ _ Hw3).
  eexists. reflexivity.
Qed.

Definition loaded_fields (model_data additional_info : obj) (w : world) : obj * obj * obj :=
  match model_data with
  | ODict items =>
      (get_or items "model" ONone, get_or items "feature_info" ONone,
       get_or items "metrics" ONone)
  | _ => (model_data, additional_info, self_model_metadata w)
  end.

Lemma load_model_after (model_path : string) (w wc : world) (model_data additional_info : obj) :
  load_model_safely no_such_file model_path w = (Ok (model_data, additional_info), wc) →
  same_but_console w wc →
  ∃ b w', load_model no_such_file fitted_len fitted_truth model_path w = (Ok b, w')
    ∧ files w' = files w
    ∧ (b = true → self_model w' ≠ ONone)
    ∧ (if is_none model_data then b = false ∧ fields w' = fields w
       else fields w' = loaded_fields model_data additional_info w
            ∧ (self_model w' ≠ ONone → reportable w' → b = true)).
Proof.
  intros Hload [Hfields Hfiles].
  unfold load_model, try_except. unfold bind at 1. rewrite Hload.
  destruct (is_none model_data) eqn:Hnone.
  { eexists _, _. split; [reflexivity|]. cbn. repeat split; try congruence; exact Hfields. }
  set (w1 := match model_data with
             | ODict items =>
                 set_fields (get_or items "model" ONone) (get_or items "feature_info" ONone)
                            (get_or items "metrics" ONone) wc
             | _ => set_fields model_data additional_info (self_model_metadata wc) wc
             end).
  assert (Hw1 : fields w1 = loaded_fields model_data additional_info w ∧ files w1 = files w).
  { subst w1. unfold loaded_fields. injection Hfields as _ _ Hmeta.
    destruct model_data; cbn; rewrite ?Hmeta; auto. }
  destruct Hw1 as [Hw1 Hw1files].
  change (bind (modify _) _ wc) with
    (bind get (λ w2 : world,
       if is_none (self_model w2) then
         bind (log (NoValidModelFoundIn model_path)) (λ _, mret false)
       else report model_path w2) w1).
  unfold bind at 1, get.
  destruct (is_none (self_model w1)) eqn:Hmodel.
  { eexists _, _. split; [reflexivity|]. cbn [files console set_console].
    split; [exact Hw1files|]. split; [discriminate|]. split; [exact Hw1|].
    intros Hne. cbn in Hne. destruct (self_model w1); try discriminate Hmodel.
    now destruct Hne. }
  pose proof (report_quiet model_path w1 w1) as [Hq1 Hq2].
  destruct (report model_path w1 w1) as [[b|e] w2] eqn:Hreport; cbn [snd] in Hq1, Hq2.
  - exists b, w2. split; [reflexivity|]. split; [congruence|].
    assert (Hm2 : self_model w2 = self_model w1) by (injection Hq1; auto).
    split; [intros _; rewrite Hm2; intros Heq; now rewrite Heq in Hmodel|].
    split; [congruence|]. intros _ Hrep.
    assert (Hrep1 : reportable w1).
    { unfold reportable in *. injection Hq1 as E1 E2 E3. now rewrite E2, E3 in Hrep. }
    destruct (report_true model_path w1 w1 Hrep1) as [w' Hw']. congruence.
  - eexists _, _. split; [reflexivity|]. cbn [files console set_console fields self_model
      self_feature_info self_model_metadata].
    split; [congruence|]. split; [discriminate|]. split.
    + rewrite <- Hw1. exact Hq1.
    + intros _ Hrep.
      assert (Hrep1 : reportable w1).
      { unfold reportable in *. cbn in Hrep. injection Hq1 as E1 E2 E3.
        now rewrite E2, E3 in Hrep. }
      destruct (report_true model_path w1 w1 Hrep1) as [w' Hw']. congruence.
Qed.

Lemma load_model_safely_same (filepath : string) (w : world) :
  ∃ model_data additional_info wc,
    load_model_safely no_such_file filepath w = (Ok (model_data, additional_info), wc)
    ∧ same_but_console w wc
    ∧ (files w !! filepath = None → model_data = ONone)
    ∧ (∀ items model, files w !! filepath = Some (ODict items) →
         item "model" items = Some model →
         model_data = model ∧ additional_info = get_or items "additional_info" ONone).
Proof.
  rewrite load_model_safely_run.
  destruct (files w !! filepath) as [[|b|z|f|s|xs|items|m]|];
    try (eexists _, _, _; split; [reflexivity|]; split; [now split|];
         split; [try discriminate; reflexivity|]; intros ? ? [=]).
  destruct (item "model" items) as [model|] eqn:Hitem;
    (eexists _, _, _; split; [reflexivity|]; split; [now split|]; split; [discriminate|]).
  - intros ? ? [= <-] Hm. rewrite Hitem in Hm. injection Hm as <-. auto.
  - intros ? ? [= <-] Hm. rewrite Hitem in Hm. discriminate Hm.
Qed.

(** [load_model] never raises and writes no file. When it returns [True]
    the predictor holds a model (not [None]). When there is no file at the
    path it returns [False] and leaves the predictor's three fields as they
    were. *)
Theorem load_model_true_means_a_model (model_path : string) (w : world) :
  ∃ b w', load_model no_such_file fitted_len fitted_truth model_path w = (Ok b, w')
    ∧ files w' = files w
    ∧ (b = true → self_model w' ≠ ONone)
    ∧ (files w !! model_path = None → b = false ∧ fields w' = fields w).
Proof.
  destruct (load_model_safely_same model_path w)
    as (model_data & additional_info & wc & Hload & Hsame & Hmissing & _).
  destruct (load_model_after model_path w wc model_data additional_info Hload Hsame)
    as (b & w' & Hrun & Hfiles & Htrue & Hcases).
  exists b, w'. split; [exact Hrun|]. split; [exact Hfiles|]. split; [exact Htrue|].
  intros Hnone. rewrite (Hmissing Hnone) in Hcases. exact Hcases.
Qed.

End Files.

(** ** [save_models], then [load_model] *)

Section Saved.
Variable fitted_item : model → string → result obj.
Variable refused : string → option exn.
Variable now : obj.
Variable joinpath : string → string → string.
Variable mkdir_refused : string → option exn.
Variable MODELS_DIR : string.
Variable no_such_file : string → exn.
Variable fitted_len : model → result nat.
Variable fitted_truth : model → result bool.

Lemma save_each_file (output_path path : string) (saved : obj) (items : list (string * obj)) :
  refused path = None →
  (∀ n r, (n, r) ∈ items → joinpath output_path (n ++ "_model.pkl") = path →
          save_data_of fitted_item r = Ok saved) →
  ∀ count w,
    (files w !! path = Some (pickled now saved ONone)
     ∨ ∃ n r, (n, r) ∈ items ∧ joinpath output_path (n ++ "_model.pkl") = path) →
    ∃ count' w',
      save_each fitted_item refused now joinpath output_path items count w = (Ok count', w')
      ∧ fields w' = fields w
      ∧ files w' !! path = Some (pickled now saved ONone).
Proof.
  intros Hpath. induction items as [|[n0 r0] items IH]; intros Hsaved count w Hor.
  - destruct Hor as [Hfile|(n & r & Hin & _)]; [|now apply elem_of_nil in Hin].
    eexists _, _. split; [reflexivity|]. auto.
  - cbn [save_each].
    set (file := joinpath output_path (n0 ++ "_model.pkl")).
    assert (Hstep : ∃ count1 w1,
      try_except
        (bind (lift (save_data_of fitted_item r0)) (λ save_data,
           bind (save_model_safely refused now save_data file ONone) (λ saved0 : bool,
             mret (if saved0 then S count else count))))
        (λ e, bind (log (FailedToSave n0 e)) (λ _, mret count)) w = (Ok count1, w1)
      ∧ fields w1 = fields w
      ∧ (files w1 !! path = Some (pickled now saved ONone)
         ∨ (file ≠ path ∧ files w1 !! path = files w !! path))).
    { unfold try_except, bind at 1, lift.
      destruct (save_data_of fitted_item r0) as [sd|e] eqn:Hsd.
      - unfold bind. rewrite save_model_safely_run.
        destruct (decide (file = path)) as [Heq|Hne].
        + rewrite Heq, Hpath. eexists _, _. split; [reflexivity|]. split; [reflexivity|].
          left. cbn [files set_console set_files].
          assert (sd = saved) as ->.
          { specialize (Hsaved n0 r0 ltac:(left) Heq). congruence. }
          apply lookup_insert_eq.
        + destruct (refused file); eexists _, _; (split; [reflexivity|]);
            (split; [reflexivity|]); right; (split; [exact Hne|]);
            cbn [files set_console set_files]; [reflexivity|].
          now apply lookup_insert_ne.
      - destruct (decide (file = path)) as [Heq|Hne].
        + specialize (Hsaved n0 r0 ltac:(left) Heq). congruence.
        + eexists _, _. split; [reflexivity|]. split; [reflexivity|]. right. now split. }
    destruct Hstep as (count1 & w1 & Hstep & Hf1 & Hfile1).
    rewrite (bind_ok _ _ _ _ _ Hstep).
    destruct (IH (λ n r Hin, Hsaved n r (list_elem_of_further _ _ _ Hin)) count1 w1)
      as (count' & w' & Hrun & Hf' & Hfile').
    { destruct Hfile1 as [Hdone|[Hne Hsame]]; [now left|].
      destruct Hor as [Hfile|(n & r & Hin & Hp)].
      - left. now rewrite Hsame.
      - right. apply elem_of_cons in Hin as [[= -> ->]|Hin]; [now destruct Hne|eauto]. }
    exists count', w'. split; [exact Hrun|]. split; [congruence|exact Hfile'].
Qed.

(** A result that has a model, feature information, test metrics and
    cross-validation scores, as [train_model] and [_create_ensemble_model]
    build it, and that [save_models] has written, is read back by
    [load_model]: the predictor then holds the model, the feature information
    and the test metrics of that result. [load_model] answers [True] when the
    model is not [None] and the reports go through, and only when the model
    is not [None]. *)
Theorem saved_result_loads_into_predictor (evaluation_results : list (string * obj))
    (output_dir name : string) (result model feature_info test_metrics cv_scores : obj)
    (w : world) :
  let path := joinpath output_dir (name ++ "_model.pkl") in
  mkdir_refused output_dir = None →
  refused path = None →
  (name, result) ∈ evaluation_results →
  (∀ n r, (n, r) ∈ evaluation_results →
          joinpath output_dir (n ++ "_model.pkl") = path → r = result) →
  getitem fitted_item result "model" = Ok model →
  getitem fitted_item result "feature_info" = Ok feature_info →
  getitem fitted_item result "test_metrics" = Ok test_metrics →
  getitem fitted_item result "cv_scores" = Ok cv_scores →
  ∃ w1, save_models fitted_item refused now joinpath mkdir_refused MODELS_DIR
          evaluation_results (Some output_dir) w = (Ok tt, w1)
    ∧ ∃ b w2, load_model no_such_file fitted_len fitted_truth path w1 = (Ok b, w2)
        ∧ self_model w2 = model
        ∧ self_feature_info w2 = feature_info
        ∧ self_model_metadata w2 = test_metrics
        ∧ (model ≠ ONone → reportable fitted_truth w2 → b = true)
        ∧ (b = true → model ≠ ONone).
Proof.
  intros path Hdir Hpath Hin Hothers Hmodel Hinfo Hmetrics Hscores.
  set (saved := ODict [("model", model); ("feature_info", feature_info);
                       ("metrics", test_metrics); ("cv_scores", cv_scores)]).
  destruct (save_each_file output_dir path saved evaluation_results Hpath) with
    (count := 0%nat) (w := w) as (count' & w0 & Hsave & Hfields0 & Hfile0).
  { intros n r Hnr Hp. rewrite (Hothers n r Hnr Hp).
    unfold save_data_of. now rewrite Hmodel, Hinfo, Hmetrics, Hscores. }
  { right. eauto. }
  eexists. split.
  { unfold save_models.
    change (default MODELS_DIR (Some output_dir)) with output_dir. rewrite Hdir.
    erewrite bind_ok by reflexivity. rewrite (bind_ok _ _ _ _ _ Hsave). reflexivity. }
  set (w1 := set_console _ w0).
  assert (Hfile1 : files w1 !! path = Some (pickled now saved ONone)) by exact Hfile0.
  destruct (load_model_safely_same no_such_file path w1)
    as (model_data & additional_info & wc & Hload & Hsame & _ & Hdata).
  destruct (Hdata _ saved Hfile1 eq_refl) as [-> ->].
  destruct (load_model_after no_such_file fitted_len fitted_truth path w1 wc saved _
              Hload Hsame)
    as (b & w2 & Hrun & _ & Htrue & Hloaded & Hb).
  unfold fields, loaded_fields, saved in Hloaded. cbn in Hloaded.
  injection Hloaded as Hm Hfi Hmeta.
  exists b, w2. split; [exact Hrun|]. repeat split; try assumption.
  - intros Hne. apply Hb. now rewrite Hm.
  - intros Hbt. rewrite <- Hm. now apply Htrue.
Qed.

End Saved.

Definition forest_result : obj :=
  trained_result (OFitted PredictorExamples.two_feature_model)
    (ODict [("r2", OFloat 0.95)]) (ODict [("r2", OFloat 0.9)])
    (OList [OFloat 0.8; OFloat 0.85]) (OFloat 0.825) (OFloat 0.025)
    (ODict [("feature_names", OList [OStr "a"; OStr "b"])]).

Definition empty_world : world :=
  {| self_model := ONone; self_feature_info := ONone; self_model_metadata := ONone;
     files := ∅; console := [] |}.

Lemma saved_result_loads_into_predictor_witness :
  let joinpath := λ dir name : string, dir ++ "/" ++ name in
  let fitted_item := λ (_ : model) (_ : string), @Raise obj TypeError in
  let fitted_len := λ _ : model, Ok 2%nat in
  let fitted_truth := λ _ : model, Ok true in
  ∃ w1, save_models fitted_item (λ _, None) (OStr "2025-01-01") joinpath (λ _, None) "models"
          [("random_forest", forest_result)] (Some "out") empty_world = (Ok tt, w1)
    ∧ ∃ b w2, load_model (λ _, ValueError "no such file") fitted_len fitted_truth
                "out/random_forest_model.pkl" w1 = (Ok b, w2)
        ∧ self_model w2 = OFitted PredictorExamples.two_feature_model
        ∧ self_feature_info w2 = ODict [("feature_names", OList [OStr "a"; OStr "b"])]
        ∧ self_model_metadata w2 = ODict [("r2", OFloat 0.9)]
        ∧ (OFitted PredictorExamples.two_feature_model ≠ ONone →
           reportable fitted_truth w2 → b = true)
        ∧ (b = true → OFitted PredictorExamples.two_feature_model ≠ ONone).
Proof.
  intros joinpath fitted_item fitted_len fitted_truth.
  apply (saved_result_loads_into_predictor fitted_item (λ _, None) (OStr "2025-01-01")
           joinpath (λ _, None) "models" (λ _, ValueError "no such file") fitted_len
           fitted_truth [("random_forest", forest_result)] "out" "random_forest"
           forest_result _ _ _ (OList [OFloat 0.8; OFloat 0.85]) empty_world);
    try reflexivity.
  - apply list_elem_of_singleton. reflexivity.
  - intros n r Hin _. apply list_elem_of_singleton in Hin. congruence.
Defined.

End PersistenceFacts.

(* ===================================================================== *)
(** * Part XVI. The trainer's results                                  *)
(* ===================================================================== *)

(** ** The order of floats *)

Module FloatOrder.

Lemma SFcompare_lt_trans (x y z : spec_float) :
  SFcompare x y = Some Lt → SFcompare y z = Some Lt → SFcompare x z = Some Lt.
Proof.
  destruct x as [sx|sx| |sx mx ex], y as [sy|sy| |sy my ey], z as [sz|sz| |sz mz ez];
    cbn; try discriminate; try (destruct sx, sy, sz; cbn; congruence).
  destruct sx, sy, sz; cbn; try congruence;
    destruct (Z.compare_spec ex ey), (Z.compare_spec ey ez), (Z.compare_spec ex ez);
    try congruence; try lia; subst;
    rewrite ?Pos.compare_cont_spec; cbn;
    destruct (Pos.compare_spec mx my), (Pos.compare_spec my mz), (Pos.compare_spec mx mz);
    cbn; try congruence; try lia.
Qed.

Lemma SFcompare_lt_eq (x y z : spec_float) :
  SFcompare x y = Some Lt → SFcompare z y = Some Eq → SFcompare x z = Some Lt.
Proof.
  destruct x as [sx|sx| |sx mx ex], y as [sy|sy| |sy my ey], z as [sz|sz| |sz mz ez];
    cbn; try discriminate; try (destruct sx, sy, sz; cbn; congruence).
  destruct sx, sy, sz; cbn; try congruence;
    destruct (Z.compare_spec ex ey), (Z.compare_spec ez ey), (Z.compare_spec ex ez);
    try congruence; try lia; subst;
    rewrite ?Pos.compare_cont_spec; cbn;
    destruct (Pos.compare_spec mx my), (Pos.compare_spec mz my), (Pos.compare_spec mx mz);
    cbn; try congruence; try lia.
Qed.

Lemma SFcompare_irrefl (x : spec_float) : SFcompare x x ≠ Some Lt.
Proof.
  destruct x as [[]|[]| |[] m e]; cbn; try congruence;
    rewrite Z.compare_refl; rewrite ?Pos.compare_cont_spec, Pos.compare_refl;
    cbn; congruence.
Qed.

Lemma ltb_true (x y : float) :
  (x <? y)%float = true ↔ SFcompare (Prim2SF x) (Prim2SF y) = Some Lt.
Proof.
  rewrite FloatAxioms.ltb_spec. unfold SFltb.
  destruct (SFcompare (Prim2SF x) (Prim2SF y)) as [[]|]; split; congruence.
Qed.

Lemma eqb_true (x y : float) :
  (x =? y)%float = true ↔ SFcompare (Prim2SF x) (Prim2SF y) = Some Eq.
Proof.
  rewrite FloatAxioms.eqb_spec. unfold SFeqb.
  destruct (SFcompare (Prim2SF x) (Prim2SF y)) as [[]|]; split; congruence.
Qed.

Lemma ltb_trans (x y z : float) :
  (x <? y)%float = true → (y <? z)%float = true → (x <? z)%float = true.
Proof. rewrite !ltb_true. apply SFcompare_lt_trans. Qed.

Lemma ltb_irrefl (x : float) : (x <? x)%float = false.
Proof.
  destruct (x <? x)%float eqn:H; [|reflexivity].
  apply ltb_true in H. now apply SFcompare_irrefl in H.
Qed.

Lemma ltb_asym (x y : float) : (x <? y)%float = true → (y <? x)%float = false.
Proof.
  intros H. destruct (y <? x)%float eqn:H'; [|reflexivity].
  pose proof (ltb_trans _ _ _ H H') as Hxx. now rewrite ltb_irrefl in Hxx.
Qed.

Lemma ltb_eqb (x y z : float) :
  (x <? y)%float = true → (z =? y)%float = true → (x <? z)%float = true.
Proof. rewrite !ltb_true, eqb_true. apply SFcompare_lt_eq. Qed.

Lemma ltb_not_eqb (x y : float) : (x <? y)%float = true → (x =? y)%float = false.
Proof.
  intros H. destruct (x =? y)%float eqn:H'; [|reflexivity].
  pose proof (ltb_eqb _ _ _ H H') as Hxx. now rewrite ltb_irrefl in Hxx.
Qed.

End FloatOrder.

Module TrainerFacts.
Import Py Frame FRPPredictor PyObj Utils FRPPredictorMore ModelTrainerResults PyFacts
  PersistenceFacts FloatOrder.
Local Open Scope py_scope.

(** A result as [train_model_with_hyperopt] returns it, trained or failed. *)
Inductive from_hyperopt : obj → Prop :=
| hyperopt_trained model_name r2 mse mae rmse test_size train_size val_size optimized :
    from_hyperopt (hyperopt_result model_name r2 mse mae rmse test_size train_size val_size
                                   optimized)
| hyperopt_failed model_name error :
    from_hyperopt (failed_result model_name error).

Section Results.
Variable fitted_item : model → string → result obj.

Lemma from_hyperopt_no_metrics (result : obj) :
  from_hyperopt result → getitem fitted_item result "test_metrics" = Raise (KeyError "test_metrics").
Proof. now intros []. Qed.

Lemma from_hyperopt_no_model (result : obj) :
  from_hyperopt result → save_data_of fitted_item result = Raise (KeyError "model").
Proof. now intros []. Qed.

(** After [train_all_models] has stored what [train_model_with_hyperopt]
    returned, [compare_models] and [get_best_model] both raise
    [KeyError('test_metrics')]: those results carry no test metrics. *)
Theorem hyperopt_results_cannot_be_compared (model_name : string) (result : obj)
    (rest : list (string * obj)) :
  from_hyperopt result →
  comparison_data fitted_item ((model_name, result) :: rest) = Raise (KeyError "test_metrics")
  ∧ get_best_model fitted_item ((model_name, result) :: rest)
    = Raise (KeyError "test_metrics").
Proof.
  intros H. unfold get_best_model. cbn [comparison_data best_of bool_decide].
  rewrite bool_decide_false by discriminate.
  unfold comparison_row. rewrite (from_hyperopt_no_metrics _ H). split; reflexivity.
Qed.

(** The scores of the results: each has test metrics with a float under
    ['r2']. *)
Definition scored (results : list (string * obj)) (scores : list float) : Prop :=
  Forall2 (λ (entry : string * obj) (score : float),
             ∃ test_metrics, getitem fitted_item entry.2 "test_metrics" = Ok test_metrics
                             ∧ getitem fitted_item test_metrics "r2" = Ok (OFloat score))
          results scores.

Lemma best_of_spec (items : list (string * obj)) (scores : list float) :
  scored items scores →
  ∀ (best : float) (best_name : option string),
    ∃ r, best_of fitted_item items (NFloat best) best_name = Ok r
      ∧ ((r = best_name ∧ Forall (λ s, (best <? s)%float = false) scores)
         ∨ ∃ (i : nat) name result s,
             r = Some name ∧ items !! i = Some (name, result) ∧ scores !! i = Some s
             ∧ (best <? s)%float = true
             ∧ Forall (λ s', (s <? s')%float = false) scores
             ∧ ∀ (j : nat) s', (j < i)%nat → scores !! j = Some s' → (s' =? s)%float = false).
Proof.
  induction 1 as [|[n r] s0 items scores (tm & Htm & Hr2) Hrest IH]; intros best best_name.
  - exists best_name. split; [reflexivity|]. left. split; [reflexivity|constructor].
  - cbn [best_of]. cbn [snd] in Htm. rewrite Htm. cbn. rewrite Hr2. cbn.
    destruct (best <? s0)%float eqn:Hlt; cbn.
    + destruct (IH s0 (Some n)) as (r' & Hrun & [[-> Hall]|(i & name & res & s & -> & Hi & Hs & Hgt & Hall & Hfirst)]).
      * exists (Some n). split; [exact Hrun|]. right. exists 0%nat, n, r, s0.
        repeat split; try assumption.
        -- constructor; [apply ltb_irrefl|exact Hall].
        -- intros j s' Hj. lia.
      * exists (Some name). split; [exact Hrun|]. right. exists (S i), name, res, s.
        repeat split; try assumption.
        -- eapply ltb_trans; eassumption.
        -- constructor; [now apply ltb_asym|exact Hall].
        -- intros [|j] s' Hj Hs'; cbn in Hs'.
           ++ injection Hs' as <-. now apply ltb_not_eqb.
           ++ apply (Hfirst j); [lia|exact Hs'].
    + destruct (IH best best_name) as (r' & Hrun & [[-> Hall]|(i & name & res & s & -> & Hi & Hs & Hgt & Hall & Hfirst)]).
      * exists best_name. split; [exact Hrun|]. left. split; [reflexivity|].
        constructor; assumption.
      * exists (Some name). split; [exact Hrun|]. right. exists (S i), name, res, s.
        repeat split; try assumption.
        -- constructor; [|exact Hall].
           destruct (s <? s0)%float eqn:Hs0; [|reflexivity].
           pose proof (ltb_trans _ _ _ Hgt Hs0). congruence.
        -- intros [|j] s' Hj Hs'; cbn in Hs'.
           ++ injection Hs' as <-.
              destruct (s0 =? s)%float eqn:Heq; [|reflexivity].
              pose proof (ltb_eqb _ _ _ Hgt Heq). congruence.
           ++ apply (Hfirst j); [lia|exact Hs'].
Qed.

Lemma item_lookup (items : list (string * obj)) (i : nat) (name : string) (result : obj) :
  NoDup items.*1 → items !! i = Some (name, result) → item name items = Some result.
Proof.
  revert i. induction items as [|[k v] items IH]; intros i Hnd Hi; [discriminate|].
  cbn in Hnd. apply NoDup_cons in Hnd as [Hk Hnd]. cbn [item].
  destruct i as [|i]; cbn in Hi.
  - injection Hi as -> ->. now rewrite bool_decide_true.
  - rewrite bool_decide_false; [now apply (IH i)|].
    intros ->. apply Hk. apply list_elem_of_fmap. exists (name, result).
    split; [reflexivity|]. eapply list_elem_of_lookup_2. exact Hi.
Qed.

(** When every result has a float score under [test_metrics]['r2'] and one
    of them is above minus infinity, [get_best_model] returns an entry whose
    score no other score exceeds, and the first such entry: no earlier
    score equals it. A NaN score is never chosen. *)
Theorem best_model_has_the_highest_score (evaluation_results : list (string * obj))
    (scores : list float) :
  NoDup evaluation_results.*1 →
  scored evaluation_results scores →
  Exists (λ s, (neg_infinity <? s)%float = true) scores →
  ∃ (i : nat) name result s,
    get_best_model fitted_item evaluation_results = Ok (Some name, result)
    ∧ evaluation_results !! i = Some (name, result)
    ∧ scores !! i = Some s
    ∧ (neg_infinity <? s)%float = true
    ∧ Forall (λ s', (s <? s')%float = false) scores
    ∧ ∀ (j : nat) s', (j < i)%nat → scores !! j = Some s' → (s' =? s)%float = false.
Proof.
  intros Hnd Hscored Hsome.
  destruct (best_of_spec _ _ Hscored neg_infinity None)
    as (r & Hrun & [[-> Hall]|(i & name & res & s & -> & Hi & Hs & Hgt & Hall & Hfirst)]).
  - apply Exists_exists in Hsome as (s & Hin & Hs).
    rewrite Forall_forall in Hall. rewrite (Hall s Hin) in Hs. discriminate.
  - exists i, name, res, s. split; [|auto].
    unfold get_best_model. rewrite bool_decide_false by (intros ->; discriminate).
    rewrite Hrun. cbn. now rewrite (item_lookup _ _ _ _ Hnd Hi).
Qed.

(** When no score is above minus infinity (each is NaN or minus infinity),
    [get_best_model] finds no name and raises [KeyError(None)] where it looks
    the best result up. *)
Theorem best_model_needs_a_score (evaluation_results : list (string * obj))
    (scores : list float) :
  evaluation_results ≠ [] →
  scored evaluation_results scores →
  Forall (λ s, (neg_infinity <? s)%float = false) scores →
  get_best_model fitted_item evaluation_results = Raise (KeyError "None").
Proof.
  intros Hne Hscored Hnone.
  destruct (best_of_spec _ _ Hscored neg_infinity None)
    as (r & Hrun & [[-> Hall]|(i & name & res & s & -> & Hi & Hs & Hgt & Hall & Hfirst)]).
  - unfold get_best_model. rewrite bool_decide_false by exact Hne. now rewrite Hrun.
  - rewrite Forall_forall in Hnone.
    rewrite (Hnone s) in Hgt; [discriminate|]. eapply list_elem_of_lookup_2. exact Hs.
Qed.

Variable refused : string → option exn.
Variable now : obj.
Variable joinpath : string → string → string.
Variable mkdir_refused : string → option exn.
Variable MODELS_DIR : string.

Lemma save_each_skips (output_path : string) (items : list (string * obj)) :
  Forall (λ entry, from_hyperopt entry.2) items →
  ∀ count w,
    save_each fitted_item refused now joinpath output_path items count w
    = (Ok count,
       set_console
         (console w ++ ((λ entry, FailedToSave entry.1 (KeyError "model")) <$> items))%list
         w).
Proof.
  induction 1 as [|[n r] items Hr _ IH]; intros count w.
  - cbn. rewrite app_nil_r. now destruct w.
  - cbn [save_each]. cbn [snd] in Hr.
    erewrite bind_ok.
    2:{ unfold try_except, bind at 1, lift. rewrite (from_hyperopt_no_model _ Hr).
        reflexivity. }
    rewrite IH. cbn. now rewrite <- app_assoc.
Qed.

(** [save_models] saves none of the results of [train_model_with_hyperopt]:
    they carry no model, so each one is reported as failed, no file is
    written, and the count it prints is 0. *)
Theorem save_models_writes_no_hyperopt_result (evaluation_results : list (string * obj))
    (output_dir : string) (w : world) :
  mkdir_refused output_dir = None →
  Forall (λ entry, from_hyperopt entry.2) evaluation_results →
  ∃ w', save_models fitted_item refused now joinpath mkdir_refused MODELS_DIR
          evaluation_results (Some output_dir) w = (Ok tt, w')
    ∧ files w' = files w
    ∧ console w'
      = (console w
         ++ ((λ entry, FailedToSave entry.1 (KeyError "model")) <$> evaluation_results)
         ++ [SavedModels 0 (length evaluation_results) output_dir])%list.
Proof.
  intros Hdir Hall. unfold save_models.
  change (default MODELS_DIR (Some output_dir)) with output_dir. rewrite Hdir.
  erewrite bind_ok by reflexivity.
  erewrite bind_ok by (apply save_each_skips; exact Hall).
  eexists. split; [reflexivity|]. cbn. split; [reflexivity|]. now rewrite <- app_assoc.
Qed.

End Results.

Definition hyperopt_results : list (string * obj) :=
  [("random_forest", hyperopt_result "random_forest" 0.9 4 1.5 2 10 70 20 true);
   ("xgboost", failed_result "xgboost" "No module named xgboost")].

Definition no_item : model → string → result obj := λ _ _, Raise TypeError.

Lemma hyperopt_results_cannot_be_compared_witness :
  comparison_data no_item hyperopt_results = Raise (KeyError "test_metrics")
  ∧ get_best_model no_item hyperopt_results = Raise (KeyError "test_metrics").
Proof.
  apply (hyperopt_results_cannot_be_compared no_item "random_forest"
           (hyperopt_result "random_forest" 0.9 4 1.5 2 10 70 20 true)).
  constructor.
Defined.

Lemma save_models_writes_no_hyperopt_result_witness :
  ∃ w', save_models no_item (λ _, None) (OStr "2025-01-01") (λ dir name, dir ++ "/" ++ name)
          (λ _, None) "models" hyperopt_results (Some "out") empty_world = (Ok tt, w')
    ∧ files w' = files empty_world
    ∧ console w'
      = (console empty_world
         ++ ((λ entry, FailedToSave entry.1 (KeyError "model")) <$> hyperopt_results)
         ++ [SavedModels 0 (length hyperopt_results) "out"])%list.
Proof.
  apply (save_models_writes_no_hyperopt_result no_item (λ _, None) (OStr "2025-01-01")
           (λ dir name, dir ++ "/" ++ name) (λ _, None) "models" hyperopt_results "out"
           empty_world).
  - reflexivity.
  - repeat constructor.
Defined.

(** Three results with scores 0.5, NaN and 0.8, and two with no usable
    score. *)
Definition with_score (score : float) : obj :=
  trained_result ONone (ODict []) (ODict [("r2", OFloat score)]) (OList []) (OFloat 0)
    (OFloat 0) ONone.

Definition three_results : list (string * obj) :=
  [("random_forest", with_score 0.5); ("xgboost", with_score nan);
   ("lightgbm", with_score 0.8)].

Definition unscored_results : list (string * obj) :=
  [("random_forest", with_score nan); ("xgboost", with_score neg_infinity)].

Lemma best_model_has_the_highest_score_witness :
  ∃ (i : nat) name result s,
    get_best_model no_item three_results = Ok (Some name, result)
    ∧ three_results !! i = Some (name, result)
    ∧ [0.5; nan; 0.8]%float !! i = Some s
    ∧ (neg_infinity <? s)%float = true
    ∧ Forall (λ s', (s <? s')%float = false) [0.5; nan; 0.8]%float
    ∧ ∀ (j : nat) s', (j < i)%nat → [0.5; nan; 0.8]%float !! j = Some s' →
                      (s' =? s)%float = false.
Proof.
  apply (best_model_has_the_highest_score no_item three_results [0.5; nan; 0.8]%float).
  - apply (bool_decide_unpack _). vm_compute. exact I.
  - repeat constructor; eexists; split; reflexivity.
  - left. reflexivity.
Defined.

Lemma best_model_needs_a_score_witness :
  get_best_model no_item unscored_results = Raise (KeyError "None").
Proof.
  apply (best_model_needs_a_score no_item unscored_results [nan; neg_infinity]%float).
  - discriminate.
  - repeat constructor; eexists; split; reflexivity.
  - repeat constructor.
Defined.

End TrainerFacts.

(* ===================================================================== *)
(** * Part XVII. Assessment bands; datasets too small to split         *)
(* ===================================================================== *)

Module AssessmentFacts.
Import Py FRPPredictor FloatOrder.

Definition SFle (x y : spec_float) : Prop :=
  SFcompare x y = Some Lt ∨ SFcompare x y = Some Eq.

Lemma SFle_trans (x y z : spec_float) : SFle x y → SFle y z → SFle x z.
Proof.
  unfold SFle.
  destruct x as [[]|[]| |[] mx ex], y as [[]|[]| |[] my ey], z as [[]|[]| |[] mz ez];
    cbn; try (intros [|] [|]; congruence); try (intros _ _; auto; fail);
    destruct (Z.compare_spec ex ey), (Z.compare_spec ey ez), (Z.compare_spec ex ez);
    try (intros [|] [|]; congruence); try (intros _ _; auto; fail); try lia; subst;
    rewrite ?Pos.compare_cont_spec; cbn;
    destruct (Pos.compare_spec mx my), (Pos.compare_spec my mz), (Pos.compare_spec mx mz);
    cbn; try (intros [|] [|]; congruence); try (intros _ _; auto; fail); try lia.
Qed.

Lemma leb_true (x y : float) :
  (x <=? y)%float = true ↔ SFle (Prim2SF x) (Prim2SF y).
Proof.
  rewrite FloatAxioms.leb_spec. unfold SFleb, SFle.
  destruct (SFcompare (Prim2SF x) (Prim2SF y)) as [[]|]; split; auto; try congruence;
    intros [|]; congruence.
Qed.

Lemma leb_trans (x y z : float) :
  (x <=? y)%float = true → (y <=? z)%float = true → (x <=? z)%float = true.
Proof. rewrite !leb_true. apply SFle_trans. Qed.

(** The five assessments, from the worst to the best. *)
Definition assessment_rank (assessment : string) : nat :=
  if bool_decide (assessment = "Excellent") then 4
  else if bool_decide (assessment = "Good") then 3
  else if bool_decide (assessment = "Fair") then 2
  else if bool_decide (assessment = "Poor") then 1
  else 0.

(** The assessment of [explain_prediction] never gets worse as the
    prediction grows. *)
Theorem assessment_is_monotone (lower higher : float) :
  (lower <=? higher)%float = true →
  (assessment_rank (durability_assessment lower)
   ≤ assessment_rank (durability_assessment higher))%nat.
Proof.
  intros Hle. unfold durability_assessment.
  destruct (0.9 <=? lower)%float eqn:H9.
  { rewrite (leb_trans _ _ _ H9 Hle). vm_compute. lia. }
  destruct (0.8 <=? lower)%float eqn:H8.
  { rewrite (leb_trans _ _ _ H8 Hle). destruct (0.9 <=? higher)%float; vm_compute; lia. }
  destruct (0.7 <=? lower)%float eqn:H7.
  { rewrite (leb_trans _ _ _ H7 Hle).
    destruct (0.9 <=? higher)%float, (0.8 <=? higher)%float; vm_compute; lia. }
  destruct (0.6 <=? lower)%float eqn:H6.
  { rewrite (leb_trans _ _ _ H6 Hle).
    destruct (0.9 <=? higher)%float, (0.8 <=? higher)%float, (0.7 <=? higher)%float;
      vm_compute; lia. }
  destruct (0.9 <=? higher)%float, (0.8 <=? higher)%float, (0.7 <=? higher)%float,
    (0.6 <=? higher)%float; vm_compute; lia.
Qed.

Lemma assessment_is_monotone_witness :
  (assessment_rank (durability_assessment 0.65) ≤ assessment_rank (durability_assessment 0.85))%nat.
Proof. apply (assessment_is_monotone 0.65 0.85). reflexivity. Defined.

End AssessmentFacts.

Module SmallDatasetFacts.
Import Py ModelTrainer PartitionFacts.

Section Shuffled.
Variable permutation : Z → nat → list nat.
Hypothesis permutation_perm : ∀ seed n, permutation seed n ≡ₚ seq 0 n.

Lemma one_row_cannot_be_split {T U} (x : T) (u : U) (c : float) (seed : Z) :
  validate_shuffle_split 1 c = Raise (ValueError "the resulting train set will be empty") →
  train_test_split permutation [x] [u] c seed
  = Raise (ValueError "the resulting train set will be empty").
Proof.
  intros Hc. unfold train_test_split, shuffle_split. cbn [length].
  rewrite bool_decide_false by (intros H; now apply H). now rewrite Hc.
Qed.

(** Features and targets of different lengths, or fewer than three rows,
    cannot be split: [prepare_train_val_test_splits] and
    [utils.train_validation_test_split] raise a [ValueError]. With two rows
    it is the second split that fails, its one row being taken for
    validation. *)
Theorem fewer_than_three_rows_cannot_be_split {A B} (X : list A) (y : list B) :
  length X ≠ length y ∨ (length X < 3)%nat →
  ∃ msg,
    prepare_train_val_test_splits permutation X y = Raise (ValueError msg)
    ∧ train_validation_test_split permutation X y 0.1 0.2 42 = Raise (ValueError msg).
Proof using permutation_perm.
  intros Hcases.
  destruct (decide (length X = length y)) as [Hlen|Hlen].
  2:{ eexists. unfold prepare_train_val_test_splits, train_validation_test_split,
        train_test_split. rewrite bool_decide_true by exact Hlen. split; reflexivity. }
  destruct Hcases as [Hne|Hsmall]; [now destruct Hne|].
  destruct X as [|x1 [|x2 [|x3 X]]]; [| | |cbn in Hsmall; lia];
    destruct y as [|u1 [|u2 [|u3 y]]]; try discriminate Hlen.
  - eexists. split; reflexivity.
  - eexists. split; reflexivity.
  - destruct (train_test_split_parts permutation permutation_perm [x1; x2] [u1; u2]
                Config.TEST_SIZE 42 1 1 eq_refl eq_refl eq_refl)
      as (itrain & itest & X_temp & X_test & y_temp & y_test & Hsplit & _ & Hl1 & _
          & HX & _ & Hy & _).
    apply rows_length in HX, Hy. rewrite Hl1 in HX, Hy.
    destruct X_temp as [|x [|? ?]]; try discriminate HX.
    destruct y_temp as [|u [|? ?]]; try discriminate Hy.
    exists "the resulting train set will be empty". split.
    + unfold prepare_train_val_test_splits. rewrite Hsplit. cbn [mbind result_bind].
      now rewrite one_row_cannot_be_split.
    + unfold train_validation_test_split.
      change 0.1%float with Config.TEST_SIZE. rewrite Hsplit. cbn [mbind result_bind].
      now rewrite one_row_cannot_be_split.
Qed.

End Shuffled.

Lemma fewer_than_three_rows_cannot_be_split_witness :
  ∃ msg,
    prepare_train_val_test_splits (λ _ n, seq 0 n) [1; 2] [10; 20] = Raise (ValueError msg)
    ∧ train_validation_test_split (λ _ n, seq 0 n) [1; 2] [10; 20] 0.1 0.2 42
      = Raise (ValueError msg).
Proof.
  apply (fewer_than_three_rows_cannot_be_split (λ _ n, seq 0 n) (λ _ _, reflexivity _)
           [1; 2] [10; 20]).
  right. cbn. lia.
Defined.

End SmallDatasetFacts.
